(** * Visitor-side split-test engine

    Shallow embedding of the assignment, conversion, redirect and timer code
    of the split-test script (src/unnamed/part_003).  Functions keep the
    names they have in the script.  Browser state the script reads and
    writes (the cookie / localStorage store, [window.abst], the page's
    markup, outgoing reports) is threaded explicitly through a small state
    and exception monad. *)

From Stdlib Require Import ZArith String Ascii List Bool Lia.
From Stdlib Require Import Decimal DecimalString.
From stdpp Require Import base option list gmap strings.

Local Open Scope Z_scope.
Local Open Scope string_scope.

(** ** Strings as the script uses them *)

Module JsString.

(** [s.includes(t)] *)
Fixpoint includes (t s : string) : bool :=
  String.prefix t s ||
  match s with
  | EmptyString => false
  | String _ s' => includes t s'
  end.

(** [s.startsWith(t)] *)
Definition startsWith (t s : string) : bool := String.prefix t s.

(** [s.split(sep)] for a one-character separator. *)
Fixpoint split (sep : ascii) (s : string) : list string :=
  match s with
  | EmptyString => [EmptyString]
  | String c s' =>
      if Ascii.eqb c sep then EmptyString :: split sep s'
      else match split sep s' with
           | [] => [String c EmptyString]
           | p :: ps => String c p :: ps
           end
  end.

Fixpoint ltrim (s : string) : string :=
  match s with
  | String c s' => if Ascii.is_space c then ltrim s' else s
  | EmptyString => EmptyString
  end.

(** [s.trim()], on the ASCII white space characters. *)
Definition trim (s : string) : string :=
  String.rev (ltrim (String.rev (ltrim s))).

Definition lower_ascii (c : ascii) : ascii :=
  let n := nat_of_ascii c in
  if (65 <=? n)%nat && (n <=? 90)%nat then ascii_of_nat (n + 32) else c.

(** [s.toLowerCase()], on the ASCII letters. *)
Fixpoint toLowerCase (s : string) : string :=
  match s with
  | EmptyString => EmptyString
  | String c s' => String (lower_ascii c) (toLowerCase s')
  end.

(** Decimal text of a natural number, as [String(n)] gives it. *)
Definition of_nat (n : nat) : string := NilZero.string_of_uint (Nat.to_uint n).

(** A property key is an array index when it is the canonical decimal
    text of a natural number. *)
Definition array_index (k : string) : option nat :=
  match NilEmpty.uint_of_string k with
  | Some u =>
      let n := Nat.of_uint u in
      if String.eqb (of_nat n) k then Some n else None
  | None => None
  end.

(** What string concatenation makes of a value that may be [undefined]. *)
Definition of_option (o : option string) : string :=
  match o with
  | Some s => s
  | None => "undefined"
  end.

End JsString.

(** A string in a condition: the empty string and [undefined] are falsy. *)
Definition truthy (o : option string) : bool :=
  match o with
  | Some s => negb (String.eqb s "")
  | None => false
  end.

(** ** Arrays with holes

    [goals] of an assignment record is a JavaScript array written by index.
    A slot is [None] for a hole, which [JSON.stringify] writes as [null]. *)

Fixpoint array_set {A} (l : list (option A)) (n : nat) (x : A) : list (option A) :=
  match n, l with
  | O, [] => [Some x]
  | O, _ :: l' => Some x :: l'
  | S n', [] => None :: array_set [] n' x
  | S n', y :: l' => y :: array_set l' n' x
  end.

Definition array_get {A} (l : list (option A)) (n : nat) : option A :=
  mjoin (l !! n).

(** [a[k]] and [a[k] = x] for a property key [k]; a key that is no array
    index names a property that [JSON.stringify] does not write. *)
Definition array_get_key {A} (l : list (option A)) (k : string) : option A :=
  match JsString.array_index k with
  | Some n => array_get l n
  | None => None
  end.

Definition array_set_key {A} (l : list (option A)) (k : string) (x : A)
  : list (option A) :=
  match JsString.array_index k with
  | Some n => array_set l n x
  | None => l
  end.

(** ** Persisted records *)

(** The assignment record kept under [btab_<eid>].  [bt_experiment_w]
    writes [eid, variation, conversion, goals]; [skippedCookie] writes
    [eid, variation, conversion, skipped].  A key that is absent, or whose
    value was [undefined] when the record was written, is [None]. *)
Record btab := Btab {
  btab_eid : string;
  btab_variation : option string;
  btab_conversion : Z;
  btab_goals : option (list (option Z));
  btab_skipped : option Z
}.

(** The pending visit kept under [ab-set-visit] across a redirect. *)
Record visit_data := VisitData {
  visit_eid : string;
  visit_variation : string;
  visit_type : string;
  visit_url : string;
  visit_orderValue : Z
}.

(** A stored text, by what [JSON.parse] makes of it. *)
Inductive cookie :=
| Garbage (raw : string)        (* text that JSON.parse rejects *)
| Assignment (b : btab)
| PendingVisit (v : visit_data)
| LitFalse.                     (* the text "false" *)

(** A text in a condition: only the empty text is falsy. *)
Definition cookie_truthy (c : cookie) : bool :=
  match c with
  | Garbage raw => negb (String.eqb raw "")
  | _ => true
  end.

(** The value [JSON.parse] returns. *)
Inductive jsvalue :=
| JAssignment (b : btab)
| JVisit (v : visit_data)
| JFalse.

Definition get_variation (o : jsvalue) : option string :=
  match o with
  | JAssignment b => btab_variation b
  | JVisit v => Some (visit_variation v)
  | JFalse => None
  end.

Definition get_eid (o : jsvalue) : option string :=
  match o with
  | JAssignment b => Some (btab_eid b)
  | JVisit v => Some (visit_eid v)
  | JFalse => None
  end.

Definition get_type (o : jsvalue) : option string :=
  match o with
  | JVisit v => Some (visit_type v)
  | _ => None
  end.

Definition get_conversion (o : jsvalue) : option Z :=
  match o with
  | JAssignment b => Some (btab_conversion b)
  | _ => None
  end.

Definition get_goals (o : jsvalue) : option (list (option Z)) :=
  match o with
  | JAssignment b => btab_goals b
  | _ => None
  end.

Definition JSON_stringify (o : jsvalue) : cookie :=
  match o with
  | JAssignment b => Assignment b
  | JVisit v => PendingVisit v
  | JFalse => LitFalse
  end.

(** ** Experiment configuration ([bt_experiments], [btab_vars]) *)

Inductive test_type := full_page | css_test | on_page.

Global Instance test_type_eq_dec : EqDecision test_type.
Proof. solve_decision. Defined.

(** A goal's trigger, told apart in the script by the goal's first key. *)
Inductive goal_trigger :=
| goal_selector (sel : string)
| goal_text (txt : string)
| goal_page (page : string)
| goal_url (url : string)
| goal_time (seconds : Z).

(** [value['time']] of a goal. *)
Definition goal_time_of (g : goal_trigger) : option Z :=
  match g with
  | goal_time t => Some t
  | _ => None
  end.

(** [target_percentage]: the empty string, a number, or the decimal text
    of a number. *)
Inductive percentage :=
| pct_empty
| pct_number (n : Z)
| pct_string (n : Z).

Record experiment := Experiment {
  name : string;
  test_winner : string;            (* "" when there is no winner *)
  exp_test_type : test_type;
  full_page_default_page : string;
  page_variations : list (string * string);
  css_test_variations : Z;
  conversion_page : string;
  conversion_time : Z;
  goals : list (string * goal_trigger);
  is_current_user_track : bool;
  test_status : string;
  target_percentage : percentage;
  url_query : string;
  target_option_device_size : string
}.

Record btab_vars := BtabVars {
  is_preview : bool;
  is_free : bool;
  post_id : string
}.

(** An element that carries [bt-eid]; an attribute that is absent is [None]. *)
Record element := Element {
  bt_eid : string;
  bt_variation : option string;
  bt_url : option string
}.

Global Instance element_eq_dec : EqDecision element.
Proof. solve_decision. Defined.

(** Borlabs consent API, when the page has it. *)
Record borlabs := Borlabs {
  checkCookieConsent : option (string -> bool);
  Consents : option (option (string -> bool))   (* Consents.hasConsent *)
}.

(** What a page load reads and never writes. *)
Record host := Host {
  bt_experiments : list (string * experiment);
  vars : btab_vars;
  document : list element;        (* the elements that carry bt-eid, in
                                     document order, once the class and
                                     data-attribute markup is normalised *)
  location_search : string;
  location_hash : string;
  window_width : Z;
  BorlabsCookie : option borlabs;
  Math_random : nat -> Z * Z;     (* the n-th draw, as a fraction p/q *)
  StringToNumber : string -> option Z   (* the language's own conversion *)
}.

(** [o[k]] on an object given as its entries. *)
Fixpoint obj_get {A} (k : string) (l : list (string * A)) : option A :=
  match l with
  | [] => None
  | (k', a) :: l' => if String.eqb k' k then Some a else obj_get k l'
  end.

(** [o[k] = a] on an object whose keys keep their insertion order (the
    engine's habit of listing integer-like keys first is not modelled; no
    statement below depends on the order of distinct keys). *)
Fixpoint obj_set {A} (k : string) (a : A) (l : list (string * A))
  : list (string * A) :=
  match l with
  | [] => [(k, a)]
  | (k', a') :: l' =>
      if String.eqb k' k then (k, a) :: l' else (k', a') :: obj_set k a l'
  end.

Definition experiment_of (h : host) (eid : string) : option experiment :=
  obj_get eid (bt_experiments h).

(** ** Effects and state *)

(** The body of one report ([data] in [bt_experiment_w]). *)
Record report := Report {
  report_eid : string;
  report_variation : string;
  report_type : option string;
  report_location : string;
  report_orderValue : Z;
  report_uuid : option string
}.

(** What the script does to the outside, in the order it does it. *)
Inductive effect :=
| Beacon (d : report)                      (* navigator.sendBeacon *)
| TrackEvent (d : report)                  (* btab_track_event *)
| LocationReplace (url : string)           (* window.location.replace *)
| ShowPage                                 (* abstShowPage *)
| BodyAddClass (cls : string)              (* jQuery('body').addClass *)
| ShowVariation (eid variation : string)   (* addClass('bt-show-variation') on
                                              *[bt-eid=..][bt-variation=..] *)
| ShowElement (e : element).               (* the same class on one element *)

(** A call handed to [setTimeout(bt_experiment_w, 500, ...)]. *)
Record deferred := Deferred {
  deferred_eid : option string;
  deferred_variation : option string;
  deferred_type : option string;
  deferred_url : option string;
  deferred_orderValue : Z
}.

Record state := State {
  cookies : gmap string cookie;      (* cookies, or localStorage on localhost *)
  timer : list (string * Z);         (* window.abst.timer *)
  absttimer : option (list (string * Z));   (* localStorage.absttimer *)
  abactive : bool;                   (* window.abst.abactive *)
  currscroll : Z;
  currentMousePos : Z;
  oldMousePos : Z;
  timeoutTimer : bool;               (* an inactivity timeout is pending *)
  ab_uuid : option string;           (* localStorage['ab-uuid'] *)
  random_calls : nat;                (* draws taken from Math.random *)
  timeouts : list deferred;
  effects : list effect
}.

Definition with_cookies (c : gmap string cookie) (s : state) : state :=
  State c (timer s) (absttimer s) (abactive s) (currscroll s)
    (currentMousePos s) (oldMousePos s) (timeoutTimer s) (ab_uuid s)
    (random_calls s) (timeouts s) (effects s).

Definition with_timer (t : list (string * Z)) (s : state) : state :=
  State (cookies s) t (absttimer s) (abactive s) (currscroll s)
    (currentMousePos s) (oldMousePos s) (timeoutTimer s) (ab_uuid s)
    (random_calls s) (timeouts s) (effects s).

Definition with_absttimer (t : option (list (string * Z))) (s : state) : state :=
  State (cookies s) (timer s) t (abactive s) (currscroll s)
    (currentMousePos s) (oldMousePos s) (timeoutTimer s) (ab_uuid s)
    (random_calls s) (timeouts s) (effects s).

Definition with_random_calls (n : nat) (s : state) : state :=
  State (cookies s) (timer s) (absttimer s) (abactive s) (currscroll s)
    (currentMousePos s) (oldMousePos s) (timeoutTimer s) (ab_uuid s)
    n (timeouts s) (effects s).

Definition with_timeouts (t : list deferred) (s : state) : state :=
  State (cookies s) (timer s) (absttimer s) (abactive s) (currscroll s)
    (currentMousePos s) (oldMousePos s) (timeoutTimer s) (ab_uuid s)
    (random_calls s) t (effects s).

Definition with_effects (e : list effect) (s : state) : state :=
  State (cookies s) (timer s) (absttimer s) (abactive s) (currscroll s)
    (currentMousePos s) (oldMousePos s) (timeoutTimer s) (ab_uuid s)
    (random_calls s) (timeouts s) e.

(** ** The monad: state that survives an exception *)

Inductive exn := SyntaxError | TypeError.

Inductive outcome (A : Type) :=
| Done (a : A)
| Throw (e : exn).
Arguments Done {A} a.
Arguments Throw {A} e.

Definition M (A : Type) : Type := state -> outcome A * state.

Global Instance M_ret : MRet M := fun A a s => (Done a, s).

Global Instance M_bind : MBind M := fun A B f m s =>
  match m s with
  | (Done a, s') => f a s'
  | (Throw e, s') => (Throw e, s')
  end.

Definition throw {A} (e : exn) : M A := fun s => (Throw e, s).

(** [try { m } catch (err) { handler }] *)
Definition try_catch {A} (m : M A) (handler : M A) : M A := fun s =>
  match m s with
  | (Done a, s') => (Done a, s')
  | (Throw _, s') => handler s'
  end.

Definition lift {A} (o : outcome A) : M A := fun s => (o, s).

Definition get_state : M state := fun s => (Done s, s).
Definition modify (f : state -> state) : M unit := fun s => (Done tt, f s).

Definition emit (e : effect) : M unit :=
  modify (fun s => with_effects (effects s ++ [e]) s).

(** [jQuery.each] / [forEach] over a snapshot of the entries. *)
Fixpoint for_each {A} (f : A -> M unit) (l : list A) : M unit :=
  match l with
  | [] => mret tt
  | a :: l' => f a;; for_each f l'
  end.

(** ** The store *)

Definition abstGetCookie (c_name : string) : M (option cookie) := fun s =>
  (Done (cookies s !! c_name), s).

Definition abstSetCookie (c_name : string) (value : cookie) : M unit :=
  modify (fun s => with_cookies (<[c_name := value]> (cookies s)) s).

(** [if (btab)] on what [abstGetCookie] returned. *)
Definition present (c : option cookie) : option cookie :=
  match c with
  | Some v => if cookie_truthy v then Some v else None
  | None => None
  end.

Definition JSON_parse (c : cookie) : M jsvalue :=
  match c with
  | Garbage _ => throw SyntaxError
  | Assignment b => mret (JAssignment b)
  | PendingVisit v => mret (JVisit v)
  | LitFalse => mret JFalse
  end.

Definition abstShowPage : M unit := emit ShowPage.

(** [bt_experiments[eid]] where the script goes on to read a property of
    it: a [TypeError] when the experiment is not configured. *)
Definition the_experiment (h : host) (eid : string) : M experiment :=
  match experiment_of h eid with
  | Some e => mret e
  | None => throw TypeError
  end.

Definition abRedirectUrl (h : host) (url : string) : string :=
  let url := url +:+ location_search h +:+ location_hash h in
  if JsString.startsWith "http" url || JsString.startsWith "/" url then url
  else "/" +:+ url.

(** ** Reporting an event: [bt_experiment_w] *)

Definition set_timer (k : string) (v : Z) : M unit :=
  modify (fun s => with_timer (obj_set k v (timer s)) s).

(** The goal time watchers armed on a visit:
    [window.abst.timer["goal-"+eid+"-"+key] = value['time']] when
    [value['time'] > 0]. *)
Definition arm_goal_timers (eid : string) (gs : list (string * goal_trigger))
  : M unit :=
  for_each (fun kv : string * goal_trigger =>
    match goal_time_of (snd kv) with
    | Some t =>
        if (0 <? t)%Z then set_timer ("goal-" +:+ eid +:+ "-" +:+ fst kv) t
        else mret tt
    | None => mret tt
    end) gs.

Definition bt_experiment_w (h : host)
    (eid variation type url : option string) (orderValue : Z) : M bool :=
  (* dont log it if its a skipper or malformed *)
  if bool_decide (variation = Some "_bt_skip_") || is_preview (vars h)
     || negb (truthy eid) || negb (truthy variation)
  then mret true
  else
    let eid := default "" eid in
    let variation := default "" variation in
    (* if its a full page redirect, set cookie then redirect then log visit *)
    if bool_decide (type = Some "visit") && truthy url then
      let url := default "" url in
      abstSetCookie "ab-set-visit"
        (PendingVisit (VisitData eid variation "visit" url orderValue));;
      emit (LocationReplace (abRedirectUrl h url));;
      mret true
    else
      e ← the_experiment h eid;
      s ← get_state;
      (* if its a fingerprinter and we dont have a uuid, then wait for it *)
      if String.eqb (conversion_page e) "fingerprint" && negb (truthy (ab_uuid s))
      then
        modify (fun s => with_timeouts
          (timeouts s ++ [Deferred (Some eid) (Some variation) type url orderValue]) s);;
        mret true
      else
        let data := Report eid variation type (post_id (vars h)) orderValue None in
        emit (TrackEvent data);;
        (* set up time watchers *)
        (if bool_decide (type = Some "visit") && String.eqb (conversion_page e) "time"
         then set_timer eid (conversion_time e) else mret tt);;
        (if bool_decide (type = Some "visit")
         then arm_goal_timers eid (goals e) else mret tt);;
        (* set up conversion *)
        let experiment_vars :=
          if bool_decide (type = Some "conversion")
          then Btab eid (Some variation) 1 (Some []) None
          else if bool_decide (type = Some "visit")
          then Btab eid (Some variation) 0 (Some []) None
          else Btab eid (Some variation) 0
                 (Some (array_set_key [] (JsString.of_option type) 1)) None in
        (* add uuid if necessary *)
        let uuid :=
          if String.eqb (conversion_page e) "fingerprint" then ab_uuid s else None in
        abstSetCookie ("btab_" +:+ eid) (Assignment experiment_vars);;
        (if negb (truthy url) then abstShowPage else mret tt);;
        emit (Beacon (Report eid variation type (post_id (vars h)) orderValue uuid));;
        mret true.

(** ** Conversion state machine: [abstConvert], [abstGoal] *)

(** [btab.conversion = 1] *)
Definition set_conversion (o : jsvalue) : jsvalue :=
  match o with
  | JAssignment b =>
      JAssignment (Btab (btab_eid b) (btab_variation b) 1 (btab_goals b) (btab_skipped b))
  | _ => o
  end.

(** [btab.goals[goal] = 1], when [btab.goals] is the array [gs]. *)
Definition set_goal (gs : list (option Z)) (goal : string) (o : jsvalue) : jsvalue :=
  match o with
  | JAssignment b =>
      JAssignment (Btab (btab_eid b) (btab_variation b) (btab_conversion b)
                     (Some (array_set_key gs goal 1)) (btab_skipped b))
  | _ => o
  end.

(** Both functions end by [clearInterval(abst.intervals[...])] on a value
    that is no interval handle (an object of handles, or nothing), which
    changes nothing; it is left out. *)
Definition abstConvert (h : host) (testId : string) (orderValue : Z) : M unit :=
  if negb (String.eqb testId "") then
    btab ← abstGetCookie ("btab_" +:+ testId);
    match present btab with
    | Some c =>
        btab ← JSON_parse c;
        if bool_decide (get_conversion btab = Some 0) then
          bt_experiment_w h (Some testId) (get_variation btab)
            (Some "conversion") None orderValue;;
          abstSetCookie ("btab_" +:+ testId) (JSON_stringify (set_conversion btab))
        else
          (* console.log(bt_experiments[testId].name + ...) *)
          the_experiment h testId;; mret tt
    | None => mret tt
    end
  else mret tt.

Definition abstGoal (h : host) (testId goal : string) : M unit :=
  if negb (String.eqb testId "") && negb (String.eqb goal "") then
    btab ← abstGetCookie ("btab_" +:+ testId);
    match present btab with
    | Some c =>
        btab ← JSON_parse c;
        (* no goals after conversion *)
        if negb (bool_decide (get_conversion btab = Some 1)) then
          match get_goals btab with
          | Some gs =>
              btab' ←
                (if negb (bool_decide (array_get_key gs goal = Some 0)) then
                   bt_experiment_w h (Some testId) (get_variation btab)
                     (Some goal) None 1;;
                   mret (set_goal gs goal btab)
                 else mret btab);
              abstSetCookie ("btab_" +:+ testId) (JSON_stringify btab')
          | None =>
              (* console.log(bt_experiments[testId].name + ...) *)
              the_experiment h testId;; mret tt
          end
        else mret tt
    | None => mret tt
    end
  else mret tt.

(** ** The skipped visitor *)

Definition skippedCookie (eid : string) (btv : option string) : M unit :=
  abstSetCookie ("btab_" +:+ eid) (Assignment (Btab eid btv 1 None (Some 1))).

(** The elements the first pass over [bt_experiments] appends to the body:
    one script per css variation, and for a full-page test on its default
    page the redirect handles.  An experiment with a winner appends
    nothing, and a full-page winner on its default page leaves the loop. *)
Fixpoint appended_elements (h : host) (exps : list (string * experiment))
  : list element :=
  match exps with
  | [] => []
  | (experimentId, experiment) :: rest =>
      let on_default :=
        bool_decide (exp_test_type experiment = full_page)
        && String.eqb (full_page_default_page experiment) (post_id (vars h)) in
      if negb (String.eqb (test_winner experiment) "") then
        if on_default then [] else appended_elements h rest
      else
        (if bool_decide (exp_test_type experiment = css_test) then
           map (fun i => Element experimentId
                  (Some ("test-css-" +:+ experimentId +:+ "-" +:+ JsString.of_nat i))
                  None)
               (seq 1 (Z.to_nat (css_test_variations experiment)))
         else [])
        ++ (if on_default then
              Element experimentId (Some (full_page_default_page experiment)) None
              :: map (fun kv : string * string =>
                        Element experimentId (Some (fst kv)) (Some (snd kv)))
                     (page_variations experiment)
            else [])
        ++ appended_elements h rest
  end.

(** The markup the resolver sees. *)
Definition elements (h : host) : list element :=
  document h ++ appended_elements h (bt_experiments h).

(** [jQuery('*[bt-eid="eid"]')] *)
Definition select_eid (h : host) (eid : string) : list element :=
  filter (fun e => bt_eid e = eid) (elements h).

(** [jQuery('*[bt-eid="eid"][bt-variation="v"]')] *)
Definition select_variation (h : host) (eid v : string) : list element :=
  filter (fun e => bt_eid e = eid /\ bt_variation e = Some v) (elements h).

(** [jQuery(...).first().attr('bt-variation')] *)
Definition first_variation (l : list element) : option string :=
  match l with
  | [] => None
  | e :: _ => bt_variation e
  end.

Definition defaultNames : list string :=
  ["original"; "one"; "1"; "default"; "standard"; "a"; "control"].

(** The loop that shows every element with a default name; the result is
    [btv] when one was found. *)
Fixpoint show_default_named (l : list element) (btv : option string)
  : M (option string) :=
  match l with
  | [] => mret btv
  | e :: l' =>
      match bt_variation e with
      | None => throw TypeError         (* undefined.toLowerCase() *)
      | Some v =>
          let variationName := JsString.toLowerCase v in
          if bool_decide (variationName ∈ defaultNames) then
            emit (ShowElement e);; show_default_named l' (Some variationName)
          else show_default_named l' btv
      end
  end.

(** The part of [showSkippedVisitorDefault] after the winner check: the
    default of a full-page test, of a css test, then of an on-page test. *)
Definition show_default (h : host) (e : experiment) (eid : string)
    (createCookie : bool) : M unit :=
  if exp_test_type e is full_page then
    abstShowPage;;
    (if createCookie then skippedCookie eid (Some (full_page_default_page e))
     else mret tt)
  else if exp_test_type e is css_test then
    (* css version 1 *)
    emit (BodyAddClass ("test-css-" +:+ eid +:+ "-1"));;
    (if createCookie then skippedCookie eid (Some ("test-css-" +:+ eid +:+ "-1"))
     else mret tt)
  else if String.eqb eid "" then mret tt
  else
    (* on page tests only from here *)
    found ← show_default_named (select_eid h eid) None;
    btv ← match found with
          | Some v => mret (Some v)
          | None =>
              let btv := first_variation (select_eid h eid) in
              emit (ShowVariation eid (JsString.of_option btv));;
              mret btv
          end;
    if createCookie then skippedCookie eid btv else mret tt.

Definition showSkippedVisitorDefault (h : host) (eid : string)
    (createCookie : bool) : M unit :=
  match experiment_of h eid with
  | None =>
      (* if no experiment, show first variations *)
      let btv := first_variation (select_eid h eid) in
      emit (ShowVariation eid (JsString.of_option btv))
  | Some e =>
      if negb (String.eqb (test_winner e) "") then
        (* if we have a winner *)
        match exp_test_type e with
        | full_page =>
            match obj_get (test_winner e) (page_variations e) with
            | Some url => emit (LocationReplace (abRedirectUrl h url))
            | None => abstShowPage;; show_default h e eid createCookie
            end
        | css_test =>
            emit (BodyAddClass ("test-css-" +:+ eid +:+ "-" +:+ test_winner e))
        | on_page => show_default h e eid createCookie
        end
      else show_default h e eid createCookie
  end.

(** ** The redirect boundary: [next_page_visit_report] *)

Definition next_page_visit_report (h : host) : M unit :=
  setvisit ← abstGetCookie "ab-set-visit";
  match present setvisit with
  | Some c =>
      try_catch (
        setvisit ← JSON_parse c;
        bt_experiment_w h (get_eid setvisit) (get_variation setvisit)
          (get_type setvisit) None 1;;
        mret tt) (mret tt);;
      abstSetCookie "ab-set-visit" LitFalse
  | None => mret tt
  end.

(** ** Assignment resolver *)

(** [getRandomInt(min, max)]:
    [Math.floor(Math.random() * (max - min + 1)) + min]. *)
Definition getRandomInt (h : host) (min max : Z) : M Z := fun s =>
  let '(p, q) := Math_random h (random_calls s) in
  (Done (p * (max - min + 1) / q + min),
   with_random_calls (S (random_calls s)) s).

(** [experiments_el]: elements whose [bt-eid] and [bt-variation] are
    present and not empty. *)
Definition experiments_el (h : host) : list element :=
  filter (fun e => bt_eid e ≠ "" /\ truthy (bt_variation e) = true) (elements h).

Abbreviation variations_map := (list (string * list string)).
Abbreviation redirect_map := (list (string * list (string * option string))).

(** The pass over [experiments_el] that fills [current_exp] and
    [exp_redirect]. *)
Fixpoint collect_experiments (els : list element)
    (current_exp : variations_map) (exp_redirect : redirect_map)
  : variations_map * redirect_map :=
  match els with
  | [] => (current_exp, exp_redirect)
  | me :: rest =>
      let experimentId := bt_eid me in
      let variation := default "" (bt_variation me) in
      let redirect_url := bt_url me in
      let '(current_exp, exp_redirect) :=
        match obj_get experimentId current_exp with
        | None => (obj_set experimentId [] current_exp,
                   obj_set experimentId [] exp_redirect)
        | Some _ => (current_exp, exp_redirect)
        end in
      let vs := default [] (obj_get experimentId current_exp) in
      if bool_decide (variation ∈ vs) then
        collect_experiments rest current_exp exp_redirect
      else
        collect_experiments rest
          (obj_set experimentId (vs ++ [variation])%list current_exp)
          (obj_set experimentId
             (obj_set variation redirect_url
                (default [] (obj_get experimentId exp_redirect)))
             exp_redirect)
  end.

(** "add css tests to current exp" *)
Fixpoint add_css_tests (exps : list (string * experiment))
    (current_exp : variations_map) (exp_redirect : redirect_map)
  : variations_map * redirect_map :=
  match exps with
  | [] => (current_exp, exp_redirect)
  | (experimentId, e) :: rest =>
      if bool_decide (exp_test_type e = css_test) then
        let names :=
          map (fun i => "test-css-" +:+ experimentId +:+ "-" +:+ JsString.of_nat i)
              (seq 1 (Z.to_nat (css_test_variations e))) in
        add_css_tests rest
          (obj_set experimentId names current_exp)
          (obj_set experimentId (map (fun n => (n, Some "")) names) exp_redirect)
      else add_css_tests rest current_exp exp_redirect
  end.

Definition experiment_maps (h : host) : variations_map * redirect_map :=
  let '(current_exp, exp_redirect) := collect_experiments (experiments_el h) [] [] in
  add_css_tests (bt_experiments h) current_exp exp_redirect.

Definition current_exp (h : host) : variations_map := fst (experiment_maps h).
Definition exp_redirect (h : host) : redirect_map := snd (experiment_maps h).

(** [exp_redirect[experimentId][experimentVariation]] *)
Definition redirect_of (exp_redirect : redirect_map)
    (experimentId : string) (experimentVariation : option string)
  : option string :=
  mjoin (obj_get (JsString.of_option experimentVariation)
           (default [] (obj_get experimentId exp_redirect))).

(** What [bt_getQueryVariable] returns: [true], [false], or the value. *)
Inductive query_value := QTrue | QFalse | QString (s : string).

Fixpoint query_lookup (variable : string) (vars : list string) : query_value :=
  match vars with
  | [] => QFalse
  | v :: rest =>
      let pair := JsString.split "=" v in
      if String.eqb (nth 0 pair "") variable then
        match nth_error pair 1 with
        | None => QTrue
        | Some x => QString x
        end
      else query_lookup variable rest
  end.

Definition bt_getQueryVariable (h : host) (variable : string) : query_value :=
  let query := String.substring 1 (String.length (location_search h)) (location_search h) in
  query_lookup variable (JsString.split "&" query).

Definition query_truthy (q : query_value) : bool :=
  match q with
  | QTrue => true
  | QFalse => false
  | QString s => negb (String.eqb s "")
  end.

(** [s == q] for a string [s]. *)
Definition loose_eq_query (h : host) (s : string) (q : query_value) : bool :=
  match q with
  | QString t => String.eqb s t
  | QTrue => bool_decide (StringToNumber h s = Some 1)
  | QFalse => bool_decide (StringToNumber h s = Some 0)
  end.

Definition device_size (h : host) : string :=
  if (767 <? window_width h)%Z then "desktop"
  else if (479 <? window_width h)%Z then "tablet"
  else "mobile".

(** The audience rule: the URL-query predicate, then the device-size
    predicate.  The result is the truth value of [targetVisitor]. *)
Definition targetVisitor (h : host) (e : experiment) : bool :=
  let by_query :=
    if negb (String.eqb (url_query e) "") then
      let exploded_query := JsString.split "=" (JsString.trim (url_query e)) in
      match exploded_query with
      | [k] => query_truthy (bt_getQueryVariable h k)
      | [k; v] => loose_eq_query h v (bt_getQueryVariable h k)
      | _ => true
      end
    else true in
  if by_query && negb (String.eqb (target_option_device_size e) "all") then
    JsString.includes (device_size h) (target_option_device_size e)
  else by_query.

(** [targetPercentage == ''] *)
Definition loose_eq_empty (p : percentage) : bool :=
  match p with
  | pct_empty => true
  | pct_number n => (n =? 0)%Z
  | pct_string _ => false
  end.

(** [targetPercentage < percentage] *)
Definition percentage_lt (p : percentage) (roll : Z) : bool :=
  match p with
  | pct_empty => (0 <? roll)%Z
  | pct_number n => (n <? roll)%Z
  | pct_string n => (n <? roll)%Z
  end.

(** [if (targetPercentage == '') targetPercentage = 100] *)
Definition targetPercentage (e : experiment) : percentage :=
  if loose_eq_empty (target_percentage e) then pct_number 100
  else target_percentage e.

(** The Borlabs consent checks; [true] when consent is withheld. *)
Definition consent_withheld (h : host) : outcome bool :=
  match BorlabsCookie h with
  | None => Done false
  | Some b =>
      let v2 :=
        match checkCookieConsent b with
        | Some check => negb (check "split-test") && negb (check "ab-split-test")
        | None => false
        end in
      if v2 then Done true
      else
        match Consents b with
        | None => Throw TypeError     (* Consents is undefined *)
        | Some None => Done false
        | Some (Some hasConsent) =>
            Done (negb (hasConsent "split-test") && negb (hasConsent "ab-split-test"))
        end
  end.

(** [jQuery('body').addClass(c)]: nothing for [undefined] or [""]. *)
Definition body_addClass (c : option string) : M unit :=
  if truthy c then emit (BodyAddClass (default "" c)) else mret tt.

(** [variations[randVar]] *)
Definition nth_variation (variations : list string) (randVar : Z) : option string :=
  if (randVar <? 0)%Z then None else variations !! Z.to_nat randVar.

(** The body of [jQuery.each(current_exp, ...)] for one experiment. *)
Definition resolve (h : host) (exp_redirect : redirect_map)
    (entry : string * list string) : M unit :=
  let '(experimentId, variations) := entry in
  match experiment_of h experimentId with
  | None => showSkippedVisitorDefault h experimentId false
  | Some e =>
    (* if there is a winner for the test, then do no more *)
    if negb (String.eqb (test_winner e) "") then mret tt
    else
    withheld ← lift (consent_withheld h);
    if (withheld : bool) then showSkippedVisitorDefault h experimentId false
    else if negb (is_current_user_track e) then
      showSkippedVisitorDefault h experimentId false
    else if negb (String.eqb (test_status e) "publish") then
      showSkippedVisitorDefault h experimentId false
    else
    btab ← abstGetCookie ("btab_" +:+ experimentId);
    let btab := present btab in
    experimentVariation ←
      match btab with
      | None =>
          (* no existing data, create *)
          randVar ←
            (if bool_decide (exp_test_type e = css_test)
             then getRandomInt h 1 (css_test_variations e)
             else getRandomInt h 1 (Z.of_nat (length variations)));
          let randVar := (randVar - 1)%Z in
          randVar ←
            (if is_free (vars h) && (2 <? length variations)%nat
             then getRandomInt h 0 1 else mret randVar);
          mret (nth_variation variations randVar)
      | Some c =>
          (* parse existing data *)
          try_catch (btab_cookie ← JSON_parse c; mret (get_variation btab_cookie))
                    (mret (Some ""))
      end;
    let is_css := bool_decide (exp_test_type e = css_test) in
    (if is_css then body_addClass experimentVariation else mret tt);;
    let variation_element :=
      select_variation h experimentId (JsString.of_option experimentVariation) in
    let show_variation_element :=
      if is_css then mret tt
      else emit (ShowVariation experimentId (JsString.of_option experimentVariation)) in
    match btab with
    | Some c =>
        JSON_parse c;;
        let redirect_url := redirect_of exp_redirect experimentId experimentVariation in
        if truthy redirect_url && negb (is_preview (vars h)) then
          emit (LocationReplace (abRedirectUrl h (default "" redirect_url)))
        else abstShowPage;; show_variation_element
    | None =>
        (* new user, check targeting *)
        if negb (targetVisitor h e) then
          showSkippedVisitorDefault h experimentId false
        else
        (* randomly target users according to percentage *)
        percentage ← getRandomInt h 1 100;
        if percentage_lt (targetPercentage e) percentage then
          showSkippedVisitorDefault h experimentId true
        (* bt_experiments[experimentId].variations = bt_get_variations(..)
           writes a property that nothing reads *)
        else if negb is_css && bool_decide (variation_element = []) then
          showSkippedVisitorDefault h experimentId false
        else
          let redirect_url :=
            if (0 <? length exp_redirect)%nat
            then redirect_of exp_redirect experimentId experimentVariation
            else Some "" in
          show_variation_element;;
          bt_experiment_w h (Some experimentId) experimentVariation
            (Some "visit") redirect_url 1;;
          mret tt
    end
  end.

Definition resolve_all (h : host) : M unit :=
  for_each (resolve h (exp_redirect h)) (current_exp h).

(** ** Activity clock and countdown timers *)

Definition with_activity (active : bool) (scroll oldMouse : Z) (pending : bool)
    (s : state) : state :=
  State (cookies s) (timer s) (absttimer s) active scroll
    (currentMousePos s) oldMouse pending (ab_uuid s)
    (random_calls s) (timeouts s) (effects s).

(** [userActiveNow()], with the scroll position it reads. *)
Definition userActiveNow (scrollY : Z) : M unit :=
  modify (fun s => with_activity true scrollY (oldMousePos s) true s).

(** [abstActiveTimeout()], run when the inactivity timeout elapses. *)
Definition abstActiveTimeout : M unit :=
  modify (fun s => with_activity false (currscroll s) (oldMousePos s) false s).

(** What a timer does on reaching zero: a key that contains ["goal-"]
    is split at ["-"] and completes a goal, any other key converts. *)
Definition timer_fire (h : host) (index : string) : M unit :=
  if JsString.includes "goal-" index then
    let parts := JsString.split "-" index in
    abstGoal h (nth 1 parts "") (nth 2 parts "")
  else abstConvert h index 1.

(** [if (timer[index] > -1) timer[index] = timer[index] - 1] *)
Definition decrement_timer (index : string) : M unit :=
  s ← get_state;
  match obj_get index (timer s) with
  | Some v =>
      (* dont decrease below -1 *)
      if (-1 <? v)%Z then set_timer index (v - 1)%Z else mret tt
  | None => mret tt
  end.

(** The body of the [forEach] in [abstOneSecond] for one key. *)
Definition timer_step (h : host) (entry : string * Z) : M unit :=
  let index := fst entry in
  decrement_timer index;;
  s ← get_state;
  (* convert if its counted down, only fired once *)
  if bool_decide (obj_get index (timer s) = Some 0%Z) then timer_fire h index
  else mret tt.

Definition abstOneSecond (h : host) : M unit :=
  s ← get_state;
  if (0 <? length (timer s))%nat then
    for_each (timer_step h) (timer s);;
    (* update localstorage *)
    modify (fun s => with_absttimer (Some (timer s)) s)
  else mret tt.

(** The callback of [window.abst.timerInterval], run every second, with
    the scroll position it reads. *)
Definition timerInterval (h : host) (scrollY : Z) : M unit :=
  s ← get_state;
  (if negb (currscroll s =? scrollY)%Z
      || negb (currentMousePos s =? oldMousePos s)%Z
   then
     modify (fun s => with_activity (abactive s) scrollY (currentMousePos s)
                        (timeoutTimer s) s);;
     userActiveNow scrollY
   else mret tt);;
  s ← get_state;
  (* check for active class and decrement all active timers *)
  if abactive s then abstOneSecond h else mret tt.

(** The interval callback run once per second, with the scroll position
    read at each run.  Every run is a callback of its own: it starts from
    the state the one before left, whether that one returned or threw. *)
Definition ticks (h : host) (scrolls : list Z) (s : state) : state :=
  fold_left (fun s scrollY => snd (timerInterval h scrollY s)) scrolls s.

(** ** Any sequence of trigger firings *)

Inductive trigger_call :=
| call_convert (orderValue : Z)
| call_goal (goal : string).

Definition run_call (h : host) (testId : string) (c : trigger_call) : M unit :=
  match c with
  | call_convert orderValue => abstConvert h testId orderValue
  | call_goal goal => abstGoal h testId goal
  end.

(** Each firing is an event handler of its own: it starts from the state
    the one before left, whether that one returned or threw. *)
Definition after_calls (h : host) (testId : string) (calls : list trigger_call)
    (s : state) : state :=
  fold_left (fun s c => snd (run_call h testId c s)) calls s.

(** ** Vocabulary of the statements *)

(** The reports sent to the backend. *)
Definition is_beacon (e : effect) : bool :=
  match e with
  | Beacon _ => true
  | _ => false
  end.

Definition beacons (s : state) : list effect := filter is_beacon (effects s).

(** The events that leave the page: the report and its analytics twin. *)
Definition is_event (e : effect) : bool :=
  match e with
  | Beacon _ | TrackEvent _ => true
  | _ => false
  end.

Definition events (s : state) : list effect := filter is_event (effects s).

(** A step that only touches the presentation: the store, the timers and
    the reported events stay as they were. *)
Definition silent (s s' : state) : Prop :=
  cookies s' = cookies s /\ timer s' = timer s /\ events s' = events s.

(** How the resolver presents the variation [v] it read from a record:
    the css class, then either the redirect or the reveal in place. *)
Definition presentation (h : host) (exp_redirect : redirect_map)
    (e : experiment) (experimentId : string) (v : option string) : list effect :=
  (if bool_decide (exp_test_type e = css_test) && truthy v
   then [BodyAddClass (default "" v)] else [])
  ++ (if truthy (redirect_of exp_redirect experimentId v) && negb (is_preview (vars h))
      then [LocationReplace
              (abRedirectUrl h (default "" (redirect_of exp_redirect experimentId v)))]
      else ShowPage ::
           (if bool_decide (exp_test_type e = css_test) then []
            else [ShowVariation experimentId (JsString.of_option v)])).

(** The record [bt_experiment_w] writes for an event of type [type]. *)
Definition experiment_vars (eid variation : string) (type : option string) : btab :=
  if bool_decide (type = Some "conversion")
  then Btab eid (Some variation) 1 (Some []) None
  else if bool_decide (type = Some "visit")
  then Btab eid (Some variation) 0 (Some []) None
  else Btab eid (Some variation) 0
         (Some (array_set_key [] (JsString.of_option type) 1%Z)) None.

Definition activity (s : state) : bool * Z * Z * Z * bool :=
  (abactive s, currscroll s, currentMousePos s, oldMousePos s, timeoutTimer s).

(** The clock: the timers, their persisted copy and the activity flags. *)
Definition clock (s : state)
  : list (string * Z) * option (list (string * Z)) * (bool * Z * Z * Z * bool) :=
  (timer s, absttimer s, activity s).

(** Everything but the clock. *)
Definition data (s : state)
  : gmap string cookie * list effect * option string * list deferred * nat :=
  (cookies s, effects s, ab_uuid s, timeouts s, random_calls s).

(** What one decrement makes of a timer value. *)
Definition countdown (v : Z) : Z := if (-1 <? v)%Z then (v - 1)%Z else v.

(** The goal a timer key names, when it names one. *)
Definition fired_goal (index : string) : string :=
  nth 2 (JsString.split "-" index) "".

(** A timer key whose firing is no visit: either it converts, or the goal
    it names is not called "visit". *)
Definition quiet_goal (index : string) : Prop :=
  JsString.includes "goal-" index = true -> fired_goal index <> "visit".

Definition no_dash (s : string) : Prop := JsString.includes "-" s = false.



(** ** Decidable equality, for statements checked by evaluation *)

Global Instance btab_eq_dec : EqDecision btab.
Proof. solve_decision. Defined.

Global Instance visit_data_eq_dec : EqDecision visit_data.
Proof. solve_decision. Defined.

Global Instance cookie_eq_dec : EqDecision cookie.
Proof. solve_decision. Defined.

Global Instance report_eq_dec : EqDecision report.
Proof. solve_decision. Defined.

Global Instance effect_eq_dec : EqDecision effect.
Proof. solve_decision. Defined.

Global Instance exn_eq_dec : EqDecision exn.
Proof. solve_decision. Defined.

Global Instance outcome_eq_dec `{EqDecision A} : EqDecision (outcome A).
Proof. solve_decision. Defined.

(** ** Vocabulary of the resolver's draw *)

(** Every draw of [Math.random] lies in [0, 1). *)
Definition valid_draws (h : host) : Prop :=
  forall n, (0 <= fst (Math_random h n) < snd (Math_random h n))%Z.

(** The variations a new visitor can be given: all of them, or the first
    two in the free version when there are more than two. *)
Definition candidates (h : host) (variations : list string) : list string :=
  if is_free (vars h) && (2 <? length variations)%nat then take 2 variations
  else variations.

(** The upper bound of the first draw. *)
Definition draw_bound (e : experiment) (variations : list string) : Z :=
  if bool_decide (exp_test_type e = css_test) then css_test_variations e
  else Z.of_nat (length variations).

(** The resolver for a new visitor from the point where
    [experimentVariation] is drawn. *)
Definition resolve_drawn (h : host) (exp_redirect : redirect_map)
    (e : experiment) (experimentId : string)
    (experimentVariation : option string) : M unit :=
  let is_css := bool_decide (exp_test_type e = css_test) in
  (if is_css then body_addClass experimentVariation else mret tt);;
  if negb (targetVisitor h e) then
    showSkippedVisitorDefault h experimentId false
  else
  percentage ← getRandomInt h 1 100;
  if percentage_lt (targetPercentage e) percentage then
    showSkippedVisitorDefault h experimentId true
  else if negb is_css
          && bool_decide (select_variation h experimentId
                            (JsString.of_option experimentVariation) = []) then
    showSkippedVisitorDefault h experimentId false
  else
    (if is_css then mret tt
     else emit (ShowVariation experimentId (JsString.of_option experimentVariation)));;
    bt_experiment_w h (Some experimentId) experimentVariation (Some "visit")
      (if (0 <? length exp_redirect)%nat
       then redirect_of exp_redirect experimentId experimentVariation
       else Some "") 1;;
    mret tt.

(** The name of css variation [i] of experiment [eid]. *)
Definition css_name (eid : string) (i : nat) : string :=
  "test-css-" +:+ eid +:+ "-" +:+ JsString.of_nat i.

(** ** Vocabulary of the store *)



(** ** The fingerprint wait and the page load *)

Definition with_ab_uuid (u : option string) (s : state) : state :=
  State (cookies s) (timer s) (absttimer s) (abactive s) (currscroll s)
    (currentMousePos s) (oldMousePos s) (timeoutTimer s) u
    (random_calls s) (timeouts s) (effects s).

(** [setAbFingerprint()], with the fingerprint the library computes, or
    [None] when the import or the computation throws (the error is caught
    and logged). *)
Definition setAbFingerprint (fp : option string) : M unit :=
  s ← get_state;
  if negb (truthy (ab_uuid s)) then
    match fp with
    | Some f => modify (with_ab_uuid (Some f))
    | None => mret tt
    end
  else mret tt.

(** The callback of [setTimeout(bt_experiment_w, 500, eid, variation, type,
    url, orderValue)]: the oldest pending call is run. *)
Definition run_timeout (h : host) : M unit :=
  s ← get_state;
  match timeouts s with
  | [] => mret tt
  | d :: rest =>
      modify (with_timeouts rest);;
      bt_experiment_w h (deferred_eid d) (deferred_variation d) (deferred_type d)
        (deferred_url d) (deferred_orderValue d);;
      mret tt
  end.

(** The first statements of the script, run on every page load with the
    scroll position they read: the store and [localStorage] outlive the
    page, [window.abst] starts afresh, with the timers read back from
    [localStorage.absttimer], and the pending timeouts of the page before
    are gone.  The log of effects and the position in the random source
    are kept. *)
Definition page_load (scrollY : Z) (s : state) : state :=
  State (cookies s)
    (match absttimer s with
     | None => []
     | Some t => t
     end)
    (absttimer s) true scrollY (-1) (-2) false (ab_uuid s)
    (random_calls s) [] (effects s).

(** The timer key of the time goal [key] of experiment [eid]. *)
Definition goal_timer_key (eid key : string) : string :=
  "goal-" +:+ eid +:+ "-" +:+ key.

(** ** Vocabulary of the query string *)

(** The character [c] does not occur in [s]. *)
Definition without (c : ascii) (s : string) : Prop :=
  JsString.includes (String c EmptyString) s = false.

(** [parts.join(sep)] for a one-character separator. *)
Fixpoint join (sep : ascii) (parts : list string) : string :=
  match parts with
  | [] => EmptyString
  | [p] => p
  | p :: rest => p +:+ String sep (join sep rest)
  end.

(** One parameter of a query string: a bare key, or [key=value]. *)
Definition query_pair (kv : string * option string) : string :=
  match snd kv with
  | None => fst kv
  | Some v => fst kv +:+ String "=" v
  end.

(** [location.search] for the parameters [pairs]. *)
Definition query_of (pairs : list (string * option string)) : string :=
  String "?" (join "&" (map query_pair pairs)).

(** The first parameter named [variable], as [bt_getQueryVariable] is to
    return it. *)
Fixpoint first_parameter (variable : string) (pairs : list (string * option string))
  : query_value :=
  match pairs with
  | [] => QFalse
  | (k, v) :: rest =>
      if String.eqb k variable then
        match v with
        | None => QTrue
        | Some x => QString x
        end
      else first_parameter variable rest
  end.

(** Neither ["&"] nor ["="] occurs in the key or the value. *)
Definition plain_pair (kv : string * option string) : Prop :=
  without "&" (fst kv) /\ without "=" (fst kv)
  /\ match snd kv with
     | None => True
     | Some v => without "&" v /\ without "=" v
     end.

(** ** The [endsWith] polyfill and [btIsLocalhost] *)

(** [s.substring(a, b)]: an index below 0 counts as 0, one above the
    length as the length, and the two are swapped when the first is the
    larger. *)
Definition js_substring (a b : Z) (s : string) : string :=
  let len := Z.of_nat (String.length s) in
  let a := Z.max 0 (Z.min a len) in
  let b := Z.max 0 (Z.min b len) in
  String.substring (Z.to_nat (Z.min a b)) (Z.to_nat (Z.max a b - Z.min a b)) s.

(** [String.prototype.endsWith] as the script defines it where the browser
    has none; [this_len] is [None] when the argument is left out. *)
Definition endsWith (s search : string) (this_len : option Z) : bool :=
  let len := Z.of_nat (String.length s) in
  let this_len :=
    match this_len with
    | None => len
    | Some n => if (len <? n)%Z then len else n
    end in
  String.eqb (js_substring (this_len - Z.of_nat (String.length search)) this_len s)
    search.

Definition btIsLocalhost (hostname : string) : bool :=
  String.eqb hostname "localhost" || String.eqb hostname "127.0.0.1"
  || endsWith hostname ".local" None || endsWith hostname ".test" None.

(** ** Click listeners: [abClickListener] *)

(** A listener registered on the document: the event it waits for, the
    selector its target must match, and the call it makes. *)
Record listener := Listener {
  listener_event : string;
  listener_selector : string;
  listener_experiment : string;
  listener_goal : Z
}.

(** [testCookie.goals[goalId]] for a number [goalId]. *)
Definition goal_slot (gs : list (option Z)) (goalId : Z) : option Z :=
  if (goalId <? 0)%Z then None else array_get gs (Z.to_nat goalId).

(** [abClickListener(experimentId, conversionSelector, goalId)]; the result
    is the listener it registers on the document, if any.  (The listeners
    it also registers inside same-origin iframes are left out.) *)
Definition abClickListener (experimentId conversionSelector : string) (goalId : Z)
  : M (option listener) :=
  testCookie ← abstGetCookie ("btab_" +:+ experimentId);
  already ←
    match present testCookie with
    | Some c =>
        testCookie ← JSON_parse c;
        if (goalId =? 0)%Z then
          mret (bool_decide (get_conversion testCookie = Some 1%Z))
        else
          (* issa goal *)
          match get_goals testCookie with
          | Some gs => mret (bool_decide (goal_slot gs goalId = Some 1%Z))
          | None => throw TypeError       (* testCookie.goals is undefined *)
          end
    | None => mret false
    end;
  if (already : bool) then mret None
  else
    (* Default event type *)
    let eventType := "click" in
    let conversionParts := JsString.split "|" conversionSelector in
    let '(conversionSelector, eventType) :=
      if JsString.includes "|" conversionSelector
         && (2 <=? length conversionParts)%nat
      then (nth 0 conversionParts "", nth 1 conversionParts "")
      else (conversionSelector, eventType) in
    mret (Some (Listener eventType conversionSelector experimentId goalId)).

(** What a registered listener does when its event reaches a matching
    target; a goal number reaches [abstGoal] as the property key it is
    used as. *)
Definition listener_fire (h : host) (l : listener) : M unit :=
  if (0 <? listener_goal l)%Z then
    abstGoal h (listener_experiment l)
      (JsString.of_nat (Z.to_nat (listener_goal l)))
  else abstConvert h (listener_experiment l) 1.

(** ** Vocabulary of the skipped default *)



(** The record [skippedCookie] writes. *)
Definition skip_record (eid : string) (btv : option string) : cookie :=
  Assignment (Btab eid btv 1 None (Some 1%Z)).

(** ** Vocabulary of the experiments found on the page *)




(** ** Vocabulary of the end-to-end statements *)

(** None of the goals is a time goal with a positive time. *)
Definition no_time (gs : list (string * goal_trigger)) : Prop :=
  Forall (fun kv : string * goal_trigger =>
            match goal_time_of (snd kv) with
            | Some t => (t <= 0)%Z
            | None => True
            end) gs.

Definition no_time_goal (e : experiment) : Prop := no_time (goals e).

(** The effects that only change what the page shows. *)
Definition presentational (e : effect) : bool :=
  match e with
  | ShowPage | BodyAddClass _ | ShowVariation _ _ | ShowElement _ => true
  | Beacon _ | TrackEvent _ | LocationReplace _ => false
  end.

(** A step that only presents: the timers stay as they were and every
    effect it adds is presentational. *)
Definition presents (s s' : state) : Prop :=
  timer s' = timer s
  /\ exists l, effects s' = (effects s ++ l)%list
               /\ Forall (fun e => presentational e = true) l.

(** ** Sample page used by the closed examples *)

Module Sample.

Definition onpage : experiment :=
  Experiment "Headline" "" on_page "" [] 0 "selector" 0 [] true "publish"
    (pct_number 100) "" "all".

Definition page (exps : list (string * experiment)) (rnd : nat -> Z * Z) : host :=
  Host exps (BtabVars false false "42")
    [Element "7" (Some "A") None; Element "7" (Some "B") None]
    "" "" 1024 None rnd (fun _ => None).

Definition host7 : host := page [("7", onpage)] (fun _ => (0, 1)%Z).

Definition empty : state := State ∅ [] None true 0 0 0 false None 0 [] [].

Definition stored (k : string) (c : cookie) : state :=
  with_cookies {[ k := c ]} empty.

Definition untargeted : experiment :=
  Experiment "Headline" "" on_page "" [] 0 "selector" 0 [] true "publish"
    (pct_number 100) "utm=x" "all".

Definition fullpage : experiment :=
  Experiment "Landing" "" full_page "42" [("43", "landing-b")] 0 "selector" 0 []
    true "publish" (pct_number 100) "" "all".

Definition host_fullpage (rnd : nat -> Z * Z) : host :=
  Host [("9", fullpage)] (BtabVars false false "42") []
    "" "" 1024 None rnd (fun _ => None).

Definition timed : experiment :=
  Experiment "Stay" "" on_page "" [] 0 "time" 5 [] true "publish"
    (pct_number 100) "" "all".

Definition host_timed : host := page [("7", timed)] (fun _ => (0, 1)%Z).

Definition zero_percent : experiment :=
  Experiment "Headline" "" on_page "" [] 0 "selector" 0 [] true "publish"
    (pct_number 0) "" "all".

Definition two_tests : host :=
  Host [("7", onpage); ("8", onpage)] (BtabVars false false "42")
    [Element "7" (Some "A") None; Element "7" (Some "B") None;
     Element "8" (Some "A") None; Element "8" (Some "B") None]
    "" "" 1024 None (fun _ => (0, 1)%Z) (fun _ => None).

(** A random source whose first draw picks the first variation and whose
    later draws make [getRandomInt(1,100)] return [roll]. *)
Definition rolling (roll : Z) (n : nat) : Z * Z :=
  match n with
  | O => (0, 1)%Z
  | S _ => (roll - 1, 100)%Z
  end.

Definition host_zero (roll : Z) : host := page [("7", zero_percent)] (rolling roll).

(** The new visitor of [host_zero] was sampled in: the resolver returned,
    wrote a fresh record for "A" and reported the visit. *)
Definition sampled_in (roll : Z) : Prop :=
  let r := resolve_all (host_zero roll) empty in
  fst r = Done tt
  /\ cookies (snd r) !! "btab_7"
     = Some (Assignment (Btab "7" (Some "A") 0 (Some []) None))
  /\ beacons (snd r) = [Beacon (Report "7" "A" (Some "visit") "42" 1 None)].

Global Instance sampled_in_dec roll : Decision (sampled_in roll).
Proof. unfold sampled_in. apply _. Defined.

End Sample.

(** ** Further sample pages *)

Module Pages.




(** A css test with three variations, for visitors who come with [?utm=x]. *)
Definition styles : experiment :=
  Experiment "Styles" "" css_test "" [] 3 "selector" 0 [] true "publish"
    (pct_number 100) "utm=x" "all".

(** A source whose first draw is 2/3 and every later one 0. *)
Definition third (n : nat) : Z * Z :=
  match n with
  | O => (2, 3)%Z
  | S _ => (0, 1)%Z
  end.

Definition host_styles : host :=
  Host [("5", styles)] (BtabVars false false "42") []
    "" "" 1024 None third (fun _ => None).

(** An on-page test that is not published. *)
Definition draft : experiment :=
  Experiment "Headline" "" on_page "" [] 0 "selector" 0 [] true "draft"
    (pct_number 100) "" "all".

(** An on-page test that reports with the visitor's fingerprint. *)
Definition fingerprinted : experiment :=
  Experiment "Headline" "" on_page "" [] 0 "fingerprint" 0 [] true "publish"
    (pct_number 100) "" "all".

Definition host_fingerprinted : host :=
  Sample.page [("7", fingerprinted)] (fun _ => (0, 1)%Z).


End Pages.

(** * Properties *)

Ltac run_monad :=
  unfold mbind, mret, M_bind, M_ret, throw, lift, get_state, modify, emit,
    abstGetCookie, abstSetCookie, abstShowPage, the_experiment in *;
  simpl in *.

Lemma arm_goal_timers_done eid gs s :
  exists s', arm_goal_timers eid gs s = (Done tt, s')
             /\ cookies s' = cookies s /\ effects s' = effects s
             /\ absttimer s' = absttimer s /\ activity s' = activity s.
Proof.
  unfold arm_goal_timers. revert s.
  induction gs as [| [k g] gs IH]; intros s; simpl.
  - eexists. repeat split.
  - run_monad. destruct (goal_time_of g) as [t|]; simpl; [| apply IH].
    destruct (0 <? t)%Z; simpl; [| apply IH].
    match goal with |- context [for_each ?f gs ?s1] =>
      destruct (IH s1) as (s' & -> & Hc & He & Ha & Hact) end.
    eexists. split; [reflexivity |]. repeat split; assumption.
Qed.

(** [bt_experiment_w] returns, once the experiment it reads is configured. *)
Lemma bt_experiment_w_done h eid variation type url orderValue s :
  is_Some (experiment_of h (default "" eid)) ->
  exists s', bt_experiment_w h eid variation type url orderValue s = (Done true, s').
Proof.
  intros [e He]. unfold bt_experiment_w.
  destruct (_ || _ || _ || _); [eexists; reflexivity |].
  destruct (_ && _); [eexists; reflexivity |].
  run_monad. rewrite He. simpl.
  destruct (_ && _); [eexists; reflexivity |].
  destruct (bool_decide (type = Some "visit")); simpl.
  - destruct (String.eqb (conversion_page e) "time"); simpl;
      match goal with |- context [arm_goal_timers ?a ?b ?c] =>
        destruct (arm_goal_timers_done a b c) as (s' & -> & _) end;
      destruct (negb (truthy url)); eexists; reflexivity.
  - destruct (negb (truthy url)); eexists; reflexivity.
Qed.

Lemma abstConvert_converted h testId b orderValue s :
  cookies s !! ("btab_" +:+ testId) = Some (Assignment b) ->
  btab_conversion b = 1%Z ->
  snd (abstConvert h testId orderValue s) = s.
Proof.
  intros Hc Hb. unfold abstConvert.
  destruct (negb (String.eqb testId "")); [| reflexivity].
  run_monad. rewrite Hc. simpl. rewrite Hb. simpl.
  destruct (experiment_of h testId); reflexivity.
Qed.

Lemma abstGoal_converted h testId b goal s :
  cookies s !! ("btab_" +:+ testId) = Some (Assignment b) ->
  btab_conversion b = 1%Z ->
  snd (abstGoal h testId goal s) = s.
Proof.
  intros Hc Hb. unfold abstGoal.
  destruct (_ && _); [| reflexivity].
  run_monad. rewrite Hc. simpl. rewrite Hb. simpl. reflexivity.
Qed.

Lemma abstConvert_fresh h testId variation orderValue s :
  testId <> "" ->
  is_Some (experiment_of h testId) ->
  cookies s !! ("btab_" +:+ testId)
    = Some (Assignment (Btab testId variation 0 (Some []) None)) ->
  cookies (snd (abstConvert h testId orderValue s)) !! ("btab_" +:+ testId)
    = Some (Assignment (Btab testId variation 1 (Some []) None)).
Proof.
  intros Hne He Hc. unfold abstConvert.
  assert (String.eqb testId "" = false) as -> by (by apply String.eqb_neq).
  simpl. run_monad. rewrite Hc. simpl.
  destruct (bt_experiment_w_done h (Some testId) variation (Some "conversion")
              None orderValue s He) as [s' ->].
  simpl. apply lookup_insert_eq.
Qed.

(** C10.  When [eid] is empty or missing, or [variation] is empty or
    missing, or [variation] is the sentinel ['_bt_skip_'], or preview mode
    is on, [bt_experiment_w] returns at once and leaves the whole state as
    it was: no event is reported, no record written, no timer registered. *)
Theorem bt_experiment_w_skips_malformed h eid variation type url orderValue s :
  truthy eid = false \/ truthy variation = false
  \/ variation = Some "_bt_skip_" \/ is_preview (vars h) = true ->
  bt_experiment_w h eid variation type url orderValue s = (Done true, s).
Proof.
  intros H. unfold bt_experiment_w.
  destruct H as [H | [H | [H | H]]]; rewrite ?H; simpl;
    rewrite ?orb_true_r; reflexivity.
Qed.

Lemma bt_experiment_w_skips_malformed_witness :
  bt_experiment_w Sample.host7 (Some "7") (Some "_bt_skip_") (Some "visit") None 1
    Sample.empty = (Done true, Sample.empty).
Proof.
  apply bt_experiment_w_skips_malformed.
  right; right; left; reflexivity.
Defined.

(** C9.  [skippedCookie] stores [conversion = 1] next to [skipped = 1], and
    from then on every [abstConvert] and [abstGoal] call for that
    experiment, in any number and order, leaves the state as it was: the
    record is unchanged and no conversion or goal event is emitted. *)
Theorem skipped_visitor_never_converts h eid btv calls s :
  let s1 := snd (skippedCookie eid btv s) in
  cookies s1 !! ("btab_" +:+ eid) = Some (Assignment (Btab eid btv 1 None (Some 1%Z)))
  /\ after_calls h eid calls s1 = s1.
Proof.
  intros s1.
  assert (Hrec : cookies s1 !! ("btab_" +:+ eid)
                 = Some (Assignment (Btab eid btv 1 None (Some 1%Z)))).
  { subst s1. unfold skippedCookie. run_monad. apply lookup_insert_eq. }
  split; [exact Hrec |].
  unfold after_calls. induction calls as [| c calls IH]; [reflexivity |].
  simpl. destruct c as [orderValue | goal]; simpl.
  - rewrite (abstConvert_converted _ _ _ _ _ Hrec eq_refl). exact IH.
  - rewrite (abstGoal_converted _ _ _ _ _ Hrec eq_refl). exact IH.
Qed.

(** C2.  Conversion is terminal.  On a record with [conversion = 1] both
    [abstConvert] and [abstGoal] (for every goal) leave the whole state as
    it was, so the record is unchanged and no event is emitted.  And on a
    fresh record of a configured experiment, converting and then completing
    goal 1 ends with [conversion = 1] and an empty [goals]. *)
Theorem conversion_is_terminal h testId :
  (forall b s,
     cookies s !! ("btab_" +:+ testId) = Some (Assignment b) ->
     btab_conversion b = 1%Z ->
     (forall orderValue, snd (abstConvert h testId orderValue s) = s)
     /\ (forall goal, snd (abstGoal h testId goal s) = s))
  /\ (forall variation orderValue s,
        testId <> "" ->
        is_Some (experiment_of h testId) ->
        cookies s !! ("btab_" +:+ testId)
          = Some (Assignment (Btab testId variation 0 (Some []) None)) ->
        let s1 := snd (abstConvert h testId orderValue s) in
        let s2 := snd (abstGoal h testId "1" s1) in
        s2 = s1
        /\ cookies s2 !! ("btab_" +:+ testId)
           = Some (Assignment (Btab testId variation 1 (Some []) None))).
Proof.
  split.
  - intros b s Hc Hb. split; intros.
    + eapply abstConvert_converted; eassumption.
    + eapply abstGoal_converted; eassumption.
  - intros variation orderValue s Hne He Hc s1 s2.
    pose proof (abstConvert_fresh h testId variation orderValue s Hne He Hc) as H1.
    fold s1 in H1.
    assert (s2 = s1) as Heq.
    { subst s2. eapply abstGoal_converted; [exact H1 | reflexivity]. }
    split; [exact Heq |]. rewrite Heq. exact H1.
Qed.

Lemma conversion_is_terminal_witness :
  let fresh := Sample.stored "btab_7" (Assignment (Btab "7" (Some "A") 0 (Some []) None)) in
  let done := Sample.stored "btab_7" (Assignment (Btab "7" (Some "A") 1 (Some []) None)) in
  snd (abstConvert Sample.host7 "7" 1 done) = done
  /\ snd (abstGoal Sample.host7 "7" "1" done) = done
  /\ cookies (snd (abstGoal Sample.host7 "7" "1" (snd (abstConvert Sample.host7 "7" 1 fresh))))
       !! "btab_7"
     = Some (Assignment (Btab "7" (Some "A") 1 (Some []) None)).
Proof.
  intros fresh done.
  destruct (conversion_is_terminal Sample.host7 "7") as [Hterm Hfresh].
  destruct (Hterm (Btab "7" (Some "A") 1 (Some []) None) done eq_refl eq_refl)
    as [Hc Hg].
  split; [apply Hc | split; [apply Hg |]].
  apply (Hfresh (Some "A") 1%Z fresh).
  - discriminate.
  - eexists; reflexivity.
  - reflexivity.
Defined.

(** ** The resolver *)

Lemma silent_refl s : silent s s.
Proof. repeat split. Qed.

Lemma silent_trans s1 s2 s3 : silent s1 s2 -> silent s2 s3 -> silent s1 s3.
Proof. intros (?&?&?) (?&?&?). repeat split; congruence. Qed.

Lemma silent_emit e s :
  is_event e = false -> silent s (with_effects (effects s ++ [e]) s).
Proof.
  intros He. repeat split. unfold events. simpl.
  rewrite filter_app. simpl. unfold filter at 2. simpl.
  destruct e; simpl in *; try discriminate; rewrite ?app_nil_r; reflexivity.
Qed.

Lemma show_default_named_silent l btv s :
  silent s (snd (show_default_named l btv s)).
Proof.
  revert btv s. induction l as [| e l IH]; intros btv s; simpl.
  - apply silent_refl.
  - destruct (bt_variation e) as [v|]; [| apply silent_refl].
    destruct (bool_decide _).
    + run_monad. eapply silent_trans; [| apply IH]. by apply silent_emit.
    + apply IH.
Qed.

Lemma show_default_silent h e eid s :
  silent s (snd (show_default h e eid false s)).
Proof.
  unfold show_default. destruct (exp_test_type e); run_monad.
  - by apply silent_emit.
  - by apply silent_emit.
  - destruct (String.eqb eid ""); [apply silent_refl |].
    pose proof (show_default_named_silent (select_eid h eid) None s) as Hs.
    destruct (show_default_named (select_eid h eid) None s) as [[found | ex] s1];
      simpl in *; [| exact Hs].
    destruct found; simpl; [exact Hs |].
    eapply silent_trans; [exact Hs |]. by apply silent_emit.
Qed.

(** Without [createCookie] the skipped default is presentation only. *)
Lemma showSkippedVisitorDefault_silent h eid s :
  silent s (snd (showSkippedVisitorDefault h eid false s)).
Proof.
  unfold showSkippedVisitorDefault.
  destruct (experiment_of h eid) as [e|]; [| by apply silent_emit].
  destruct (negb (String.eqb (test_winner e) "")); [| apply show_default_silent].
  destruct (exp_test_type e) eqn:Ety.
  - destruct (obj_get (test_winner e) (page_variations e)); run_monad;
      [by apply silent_emit |].
    eapply silent_trans; [apply (silent_emit ShowPage); reflexivity |].
    apply show_default_silent.
  - by apply silent_emit.
  - apply show_default_silent.
Qed.

(** A throw in the callback ends the loop. *)
Lemma for_each_throw {A} (f : A -> M unit) a l ex s s' :
  f a s = (Throw ex, s') -> for_each f (a :: l) s = (Throw ex, s').
Proof. intros H. simpl. unfold mbind, M_bind. by rewrite H. Qed.

Section PublishedExperiment.

(** An experiment that passes the gates in front of the store: it is
    configured, has no winner, consent is not withheld, the visitor is
    tracked and the test is published. *)
Context (h : host) (er : redirect_map).
Context (experimentId : string) (variations : list string) (e : experiment).
Hypothesis configured : experiment_of h experimentId = Some e.
Hypothesis no_winner : test_winner e = "".
Hypothesis consent : consent_withheld h = Done false.
Hypothesis tracked : is_current_user_track e = true.
Hypothesis published : test_status e = "publish".

Lemma resolve_existing_record b s :
  cookies s !! ("btab_" +:+ experimentId) = Some (Assignment b) ->
  resolve h er (experimentId, variations) s
  = (Done tt, with_effects
                (effects s ++ presentation h er e experimentId (btab_variation b)) s).
Proof.
  intros Hb. unfold resolve, presentation.
  rewrite configured, no_winner, consent, tracked, published.
  simpl. run_monad. rewrite Hb. simpl.
  unfold body_addClass.
  destruct (bool_decide (exp_test_type e = css_test)); simpl;
    [destruct (truthy (btab_variation b)) |]; run_monad;
    destruct (truthy (redirect_of _ _ _) && _); run_monad;
    unfold with_effects; simpl; rewrite <- ?app_assoc; reflexivity.
Qed.

(** C3, as amended.  For a published, tracked experiment without a
    winner, consent not withheld, whose record is in the store, the resolver
    presents the record's variation as it is stored and changes nothing
    else: the store and the count of random draws stay as they were, so
    there is no targeting evaluation, no percentage roll and no random
    selection.  Resolving again presents the same variation again. *)
Theorem resolve_reuses_record b s :
  cookies s !! ("btab_" +:+ experimentId) = Some (Assignment b) ->
  let shown := presentation h er e experimentId (btab_variation b) in
  let once := resolve h er (experimentId, variations) s in
  let twice := resolve h er (experimentId, variations) (snd once) in
  once = (Done tt, with_effects (effects s ++ shown) s)
  /\ twice = (Done tt, with_effects ((effects s ++ shown) ++ shown) s)
  /\ cookies (snd twice) = cookies s
  /\ random_calls (snd twice) = random_calls s.
Proof.
  intros Hb shown once twice.
  assert (H1 : once = (Done tt, with_effects (effects s ++ shown) s)).
  { subst once shown. by apply resolve_existing_record. }
  assert (H2 : twice = (Done tt, with_effects ((effects s ++ shown) ++ shown) s)).
  { subst twice. rewrite H1. simpl.
    rewrite (resolve_existing_record b); [reflexivity | assumption]. }
  split; [exact H1 |]. split; [exact H2 |]. rewrite H2. split; reflexivity.
Qed.

(** C5, as amended.  For a new visitor of a published, tracked experiment
    without a winner, consent not withheld, whose audience rule says not
    targeted, the resolver ends in [showSkippedVisitorDefault] without
    [createCookie]: the store, the timers and the reported events stay as
    they were, and no skip record is written. *)
Theorem untargeted_visitor_writes_no_record s :
  present (cookies s !! ("btab_" +:+ experimentId)) = None ->
  targetVisitor h e = false ->
  silent s (snd (resolve h er (experimentId, variations) s))
  /\ exists s1, silent s s1
       /\ resolve h er (experimentId, variations) s
          = showSkippedVisitorDefault h experimentId false s1.
Proof.
  intros Hb Htv.
  assert (exists s1, silent s s1
       /\ resolve h er (experimentId, variations) s
          = showSkippedVisitorDefault h experimentId false s1) as (s1 & Hs1 & Heq).
  { unfold resolve.
    rewrite configured, no_winner, consent, tracked, published, Htv.
    simpl. run_monad.
    rewrite Hb. unfold getRandomInt, body_addClass.
    destruct (bool_decide (exp_test_type e = css_test)); simpl;
      destruct (Math_random h (random_calls s)) as [p q]; simpl;
      destruct (is_free (vars h) && _); simpl;
      try destruct (Math_random h (S (random_calls s))) as [p' q']; simpl;
      try match goal with |- context [truthy ?x] => destruct (truthy x) end;
      run_monad; eexists; (split; [| reflexivity]);
      repeat split; unfold events; simpl;
      rewrite ?filter_app; simpl; rewrite ?app_nil_r; reflexivity. }
  split.
  - rewrite Heq. eapply silent_trans; [exact Hs1 |].
    apply showSkippedVisitorDefault_silent.
  - exists s1. split; assumption.
Qed.

(** C8 fails on the code.  The first parse of the stored text is inside
    [try], the second one is not: with a text that is no JSON (and not
    empty) under the experiment's key, the resolver throws out of the loop
    over the experiments with the state as it was, so this visitor is shown
    nothing, not even the skipped default, and the experiments after it are
    never reached. *)
Theorem corrupt_record_halts_resolution raw rest s :
  raw <> "" ->
  cookies s !! ("btab_" +:+ experimentId) = Some (Garbage raw) ->
  resolve h er (experimentId, variations) s = (Throw SyntaxError, s)
  /\ for_each (resolve h er) ((experimentId, variations) :: rest) s
     = (Throw SyntaxError, s).
Proof.
  intros Hraw Hb.
  assert (H1 : resolve h er (experimentId, variations) s = (Throw SyntaxError, s)).
  { unfold resolve, try_catch, body_addClass.
    rewrite configured, no_winner, consent, tracked, published.
    simpl. run_monad. rewrite Hb. simpl.
    assert (String.eqb raw "" = false) as -> by (by apply String.eqb_neq).
    simpl. destruct (bool_decide (exp_test_type e = css_test)); reflexivity. }
  split; [exact H1 |]. by apply for_each_throw.
Qed.

End PublishedExperiment.

Lemma resolve_reuses_record_witness :
  let s := Sample.stored "btab_7" (Assignment (Btab "7" (Some "B") 0 (Some []) None)) in
  resolve Sample.host7 (exp_redirect Sample.host7) ("7", ["A"; "B"]) s
  = (Done tt, with_effects [ShowPage; ShowVariation "7" "B"] s).
Proof.
  intros s.
  apply (resolve_reuses_record Sample.host7 (exp_redirect Sample.host7) "7"
           ["A"; "B"] Sample.onpage eq_refl eq_refl eq_refl eq_refl eq_refl
           (Btab "7" (Some "B") 0 (Some []) None) s).
  reflexivity.
Defined.

(** C3 as stated fails: an experiment without a winner that is not
    published shows the skipped default, whatever its record says.  Here the
    record holds "B" and the page reveals the element named "A". *)
Lemma resolve_draft_ignores_record :
  let draft :=
    Experiment "Headline" "" on_page "" [] 0 "selector" 0 [] true "draft"
      (pct_number 100) "" "all" in
  let h := Sample.page [("7", draft)] (fun _ => (0, 1)%Z) in
  let b := Btab "7" (Some "B") 0 (Some []) None in
  let s := Sample.stored "btab_7" (Assignment b) in
  test_winner draft = ""
  /\ cookies s !! "btab_7" = Some (Assignment b)
  /\ resolve h (exp_redirect h) ("7", ["A"; "B"]) s
     = (Done tt, with_effects [ShowElement (Element "7" (Some "A") None)] s)
  /\ resolve h (exp_redirect h) ("7", ["A"; "B"]) s
     <> (Done tt, with_effects
                    (effects s ++ presentation h (exp_redirect h) draft "7"
                                    (btab_variation b)) s).
Proof.
  intros draft h b s. repeat split. discriminate.
Qed.

Lemma untargeted_visitor_writes_no_record_witness :
  let h := Sample.page [("7", Sample.untargeted)] (fun _ => (0, 1)%Z) in
  silent Sample.empty
    (snd (resolve h (exp_redirect h) ("7", ["A"; "B"]) Sample.empty)).
Proof.
  intros h.
  apply (untargeted_visitor_writes_no_record h (exp_redirect h) "7" ["A"; "B"]
           Sample.untargeted eq_refl eq_refl eq_refl eq_refl eq_refl Sample.empty);
    reflexivity.
Defined.

(** C5 as stated fails: a new visitor whose URL lacks the query the
    experiment targets is shown the default, and the store stays empty. *)
Lemma untargeted_visitor_leaves_store_empty :
  let h := Sample.page [("7", Sample.untargeted)] (fun _ => (0, 1)%Z) in
  let r := resolve_all h Sample.empty in
  is_current_user_track Sample.untargeted = true
  /\ test_status Sample.untargeted = "publish"
  /\ test_winner Sample.untargeted = ""
  /\ targetVisitor h Sample.untargeted = false
  /\ fst r = Done tt
  /\ effects (snd r) = [ShowElement (Element "7" (Some "A") None)]
  /\ cookies (snd r) !! "btab_7" = None.
Proof. intros h r. repeat split. Qed.

(** ** Reports and the redirect boundary *)

Lemma truthy_Some s : s <> "" -> truthy (Some s) = true.
Proof. intros H. simpl. by apply negb_true_iff, String.eqb_neq. Qed.

Lemma guard_passes h eid variation :
  eid <> "" -> variation <> "" -> variation <> "_bt_skip_" ->
  is_preview (vars h) = false ->
  bool_decide (Some variation = Some "_bt_skip_") || is_preview (vars h)
  || negb (truthy (Some eid)) || negb (truthy (Some variation)) = false.
Proof.
  intros He Hv Hs Hp. rewrite Hp, !truthy_Some by assumption.
  rewrite bool_decide_eq_false_2 by congruence. reflexivity.
Qed.

(** What a call that gets past the guard and is no redirect does. *)
Lemma bt_experiment_w_logs h eid variation type url orderValue e s :
  eid <> "" -> variation <> "" -> variation <> "_bt_skip_" ->
  is_preview (vars h) = false ->
  (type = Some "visit" -> truthy url = false) ->
  experiment_of h eid = Some e ->
  (conversion_page e = "fingerprint" -> truthy (ab_uuid s) = true) ->
  exists s',
    bt_experiment_w h (Some eid) (Some variation) type url orderValue s = (Done true, s')
    /\ effects s' =
         (effects s
          ++ TrackEvent (Report eid variation type (post_id (vars h)) orderValue None)
             :: (if truthy url then [] else [ShowPage])
             ++ [Beacon (Report eid variation type (post_id (vars h)) orderValue
                           (if String.eqb (conversion_page e) "fingerprint"
                            then ab_uuid s else None))])%list
    /\ cookies s' = <["btab_" +:+ eid := Assignment (experiment_vars eid variation type)]>
                      (cookies s)
    /\ (type <> Some "visit" -> timer s' = timer s)
    /\ absttimer s' = absttimer s /\ activity s' = activity s.
Proof.
  intros Hne Hv Hs Hp Hvis He Hfp. unfold bt_experiment_w.
  rewrite guard_passes by assumption. simpl.
  assert (bool_decide (type = Some "visit") && truthy url = false) as ->.
  { destruct (bool_decide_reflect (type = Some "visit")) as [Ht | Ht]; simpl; auto. }
  run_monad. rewrite He. simpl.
  assert (String.eqb (conversion_page e) "fingerprint" && negb (truthy (ab_uuid s))
          = false) as ->.
  { destruct (String.eqb_spec (conversion_page e) "fingerprint") as [Hf | Hf];
      simpl; auto.
    rewrite Hfp by assumption. reflexivity. }
  unfold experiment_vars.
  destruct (bool_decide_reflect (type = Some "visit")) as [Ht | Ht]; simpl.
  - rewrite (Hvis Ht). simpl.
    destruct (String.eqb (conversion_page e) "time"); simpl;
      match goal with |- context [arm_goal_timers ?a ?b ?c] =>
        destruct (arm_goal_timers_done a b c) as (s' & -> & Hc & Hef & Ha & Hact) end;
      simpl; eexists; (split; [reflexivity |]); simpl;
      rewrite Hc, Hef; simpl;
      (split; [rewrite <- !app_assoc; reflexivity |]);
      (split; [rewrite bool_decide_eq_false_2 by (subst; discriminate); reflexivity|]);
      (split; [congruence |]); split; assumption.
  - destruct (truthy url); simpl; eexists; (split; [reflexivity |]); simpl;
      (split; [rewrite <- ?app_assoc; reflexivity |]);
      (split; [reflexivity |]); repeat split.
Qed.

Lemma with_cookies_id s : with_cookies (cookies s) s = s.
Proof. by destruct s. Qed.

Lemma beacons_app s es :
  filter is_beacon (effects s ++ es)%list = (beacons s ++ filter is_beacon es)%list.
Proof. unfold beacons. by rewrite filter_app. Qed.

Lemma next_page_visit_report_false h s :
  cookies s !! "ab-set-visit" = Some LitFalse ->
  next_page_visit_report h s = (Done tt, s).
Proof.
  intros Hc. unfold next_page_visit_report, try_catch. run_monad.
  rewrite Hc. simpl. unfold bt_experiment_w. simpl.
  rewrite orb_true_r. simpl. run_monad.
  rewrite insert_id by assumption. by rewrite with_cookies_id.
Qed.

(** C6, as amended.  A visit handed to [bt_experiment_w] with a
    destination (the new assignment of a full-page test to a variation that
    is not the page itself, preview off) writes the pending-visit record
    [{eid, variation, type: visit, url, orderValue}] and then navigates.  On
    a later page load where the experiment is configured and no fingerprint
    is awaited, [next_page_visit_report] sends exactly one visit report and
    overwrites the record with the literal [false]; from then on a further
    load changes nothing, so no second report is sent. *)
Theorem redirect_visit_boundary h eid variation url orderValue :
  eid <> "" -> variation <> "" -> variation <> "_bt_skip_" -> url <> "" ->
  is_preview (vars h) = false ->
  let pending := PendingVisit (VisitData eid variation "visit" url orderValue) in
  (forall s,
     bt_experiment_w h (Some eid) (Some variation) (Some "visit") (Some url)
       orderValue s
     = (abstSetCookie "ab-set-visit" pending;;
        emit (LocationReplace (abRedirectUrl h url));;
        mret true) s)
  /\ (forall h' e s,
        is_preview (vars h') = false ->
        experiment_of h' eid = Some e ->
        (conversion_page e = "fingerprint" -> truthy (ab_uuid s) = true) ->
        cookies s !! "ab-set-visit" = Some pending ->
        let s1 := snd (next_page_visit_report h' s) in
        beacons s1
        = (beacons s
           ++ [Beacon (Report eid variation (Some "visit") (post_id (vars h')) 1
                         (if String.eqb (conversion_page e) "fingerprint"
                          then ab_uuid s else None))])%list
        /\ cookies s1 !! "ab-set-visit" = Some LitFalse
        /\ forall h'', next_page_visit_report h'' s1 = (Done tt, s1)).
Proof.
  intros Hne Hv Hs Hu Hp pending. split.
  - intros s. unfold bt_experiment_w.
    rewrite guard_passes by assumption.
    rewrite (truthy_Some url Hu), bool_decide_eq_true_2 by reflexivity.
    reflexivity.
  - intros h' e s Hp' He Hfp Hc s1.
    assert (Hs1 : beacons s1
        = (beacons s
           ++ [Beacon (Report eid variation (Some "visit") (post_id (vars h')) 1
                         (if String.eqb (conversion_page e) "fingerprint"
                          then ab_uuid s else None))])%list
        /\ cookies s1 !! "ab-set-visit" = Some LitFalse).
    { subst s1. unfold next_page_visit_report, try_catch. run_monad.
      rewrite Hc. simpl.
      destruct (bt_experiment_w_logs h' eid variation (Some "visit") None 1 e s)
        as (s' & -> & Hef & _); try assumption; [reflexivity |].
      simpl. split; [| apply lookup_insert_eq].
      unfold beacons at 1. simpl. rewrite Hef. rewrite beacons_app. reflexivity. }
    destruct Hs1 as [Hb Hf]. split; [exact Hb |]. split; [exact Hf |].
    intros h''. by apply next_page_visit_report_false.
Qed.

Lemma redirect_visit_boundary_witness :
  let h := Sample.host_fullpage (fun _ => (1, 2)%Z) in
  let s0 := snd (bt_experiment_w h (Some "9") (Some "43") (Some "visit")
                   (Some "landing-b") 1 Sample.empty) in
  let s1 := snd (next_page_visit_report h s0) in
  cookies s0 !! "ab-set-visit"
    = Some (PendingVisit (VisitData "9" "43" "visit" "landing-b" 1))
  /\ beacons s1 = [Beacon (Report "9" "43" (Some "visit") "42" 1 None)]
  /\ cookies s1 !! "ab-set-visit" = Some LitFalse
  /\ next_page_visit_report h s1 = (Done tt, s1).
Proof.
  intros h s0 s1.
  destruct (redirect_visit_boundary h "9" "43" "landing-b" 1)
    as [Hwrite Hread]; try discriminate; try reflexivity.
  split; [subst s0; rewrite Hwrite; reflexivity |].
  destruct (Hread h Sample.fullpage s0) as (Hb & Hf & Hagain);
    try reflexivity; try discriminate.
  split; [exact Hb |]. split; [exact Hf |]. apply Hagain.
Defined.

(** C6 as stated fails twice.  A returning visitor whose record names the
    other page is redirected with no pending-visit record written; and
    consuming a pending visit does not delete the key, which then holds the
    literal [false]. *)
Lemma redirect_without_pending_and_not_deleted :
  let h := Sample.host_fullpage (fun _ => (1, 2)%Z) in
  let returning :=
    Sample.stored "btab_9" (Assignment (Btab "9" (Some "43") 0 (Some []) None)) in
  let pending :=
    Sample.stored "ab-set-visit"
      (PendingVisit (VisitData "9" "43" "visit" "landing-b" 1)) in
  (effects (snd (resolve_all h returning)) = [LocationReplace "/landing-b"]
   /\ cookies (snd (resolve_all h returning)) !! "ab-set-visit" = None)
  /\ (cookies (snd (next_page_visit_report h pending)) !! "ab-set-visit"
        = Some LitFalse
      /\ cookies (snd (next_page_visit_report h pending)) !! "ab-set-visit"
           <> None).
Proof. intros h returning pending. repeat split. discriminate. Qed.

(** ** The countdown timers *)

Lemma bt_experiment_w_clock h eid variation type url orderValue s :
  type <> Some "visit" ->
  clock (snd (bt_experiment_w h eid variation type url orderValue s)) = clock s.
Proof.
  intros Ht. unfold bt_experiment_w.
  destruct (_ || _ || _ || _); [reflexivity |].
  rewrite (bool_decide_eq_false_2 _ Ht). simpl. run_monad.
  destruct (experiment_of h (default "" eid)) as [e|]; [| reflexivity]. simpl.
  destruct (_ && _); [reflexivity |].
  destruct (negb (truthy url)); reflexivity.
Qed.

Lemma abstConvert_clock h testId orderValue s :
  clock (snd (abstConvert h testId orderValue s)) = clock s.
Proof.
  unfold abstConvert. destruct (negb _); [| reflexivity]. run_monad.
  destruct (present _) as [c|]; [| reflexivity].
  destruct c; simpl; try reflexivity.
  - destruct (bool_decide _).
    + pose proof (bt_experiment_w_clock h (Some testId) (btab_variation b)
                    (Some "conversion") None orderValue s) as Hc.
      destruct (bt_experiment_w _ _ _ _ _ _ _) as [[r | ex] s']; simpl in *;
        [| by apply Hc].
      rewrite <- Hc by discriminate. reflexivity.
    + destruct (experiment_of h testId); reflexivity.
  - destruct (experiment_of h testId); reflexivity.
  - destruct (experiment_of h testId); reflexivity.
Qed.

Lemma abstGoal_clock h testId goal s :
  goal <> "visit" ->
  clock (snd (abstGoal h testId goal s)) = clock s.
Proof.
  intros Hg. unfold abstGoal. destruct (_ && _); [| reflexivity]. run_monad.
  destruct (present _) as [c|]; [| reflexivity].
  destruct c; simpl; try reflexivity.
  - destruct (negb _); [| reflexivity].
    destruct (btab_goals b) as [gs|]; simpl.
    + destruct (negb _); [| reflexivity].
      pose proof (bt_experiment_w_clock h (Some testId) (btab_variation b)
                    (Some goal) None 1 s) as Hc.
      destruct (bt_experiment_w _ _ _ _ _ _ _) as [[r | ex] s']; simpl in *;
        [| apply Hc; congruence].
      rewrite <- Hc by congruence. reflexivity.
    + destruct (experiment_of h testId); reflexivity.
  - destruct (experiment_of h testId); reflexivity.
  - destruct (experiment_of h testId); reflexivity.
Qed.

(** Firing a timer leaves the clock alone. *)
Lemma timer_fire_clock h index s :
  quiet_goal index ->
  clock (snd (timer_fire h index s)) = clock s.
Proof.
  intros Hg. unfold timer_fire.
  destruct (JsString.includes "goal-" index) eqn:Hi.
  - apply abstGoal_clock. by apply Hg.
  - apply abstConvert_clock.
Qed.

Lemma clock_timer s s' : clock s' = clock s -> timer s' = timer s.
Proof. unfold clock. congruence. Qed.

Lemma clock_activity s s' : clock s' = clock s -> activity s' = activity s.
Proof. unfold clock. congruence. Qed.

Lemma obj_get_obj_set {A} k (a : A) l : obj_get k (obj_set k a l) = Some a.
Proof.
  induction l as [| [k' a'] l IH]; simpl.
  - by rewrite String.eqb_refl.
  - destruct (String.eqb k' k) eqn:E; simpl; [by rewrite String.eqb_refl |].
    by rewrite E.
Qed.


Lemma timerInterval_inactive h scrollY s :
  abactive s = false ->
  currscroll s = scrollY ->
  currentMousePos s = oldMousePos s ->
  timerInterval h scrollY s = (Done tt, s).
Proof.
  intros Ha Hs Hm. unfold timerInterval. run_monad.
  rewrite Hs, Hm, !Z.eqb_refl. simpl. by rewrite Ha.
Qed.

(** Once the inactivity timeout has run, a tick with no movement since
    leaves every timer as it was. *)
Lemma timerInterval_after_timeout h s :
  currentMousePos s = oldMousePos s ->
  let s0 := snd (abstActiveTimeout s) in
  timerInterval h (currscroll s) s0 = (Done tt, s0).
Proof.
  intros Hm s0. apply timerInterval_inactive; subst s0; simpl; auto.
Qed.

Lemma abstOneSecond_single h index s v :
  quiet_goal index ->
  timer s = [(index, v)] ->
  let s1 := snd (abstOneSecond h s) in
  timer s1 = [(index, countdown v)]
  /\ activity s1 = activity s
  /\ (v <> 1%Z -> data s1 = data s)
  /\ (v = 1%Z -> exists sf, timer sf = [(index, 0%Z)] /\ data sf = data s
                    /\ data s1 = data (snd (timer_fire h index sf))).
Proof.
  intros Hq Ht s1. subst s1. unfold abstOneSecond, countdown. run_monad.
  rewrite Ht. simpl. unfold timer_step, decrement_timer. run_monad.
  rewrite Ht. simpl. rewrite String.eqb_refl.
  destruct (-1 <? v)%Z eqn:Hv; run_monad.
  - rewrite Ht. simpl. rewrite String.eqb_refl. simpl. rewrite String.eqb_refl.
    destruct (bool_decide_reflect (Some (v - 1)%Z = Some 0%Z)) as [H0 | H0].
    + assert (v = 1%Z) as -> by (injection H0; lia).
      change (1 - 1)%Z with 0%Z in *. simpl.
      set (sf := with_timer [(index, 0%Z)] s).
      pose proof (timer_fire_clock h index sf Hq) as Hc.
      destruct (timer_fire h index sf) as [[r | ex] s3] eqn:Hf; simpl in *.
      * split; [apply (clock_timer _ _ Hc) |].
        split; [apply (clock_activity _ _ Hc) |].
        split; [congruence |]. intros _. exists sf.
        split; [reflexivity |]. split; [reflexivity |]. by rewrite Hf.
      * split; [apply (clock_timer _ _ Hc) |].
        split; [apply (clock_activity _ _ Hc) |].
        split; [congruence |]. intros _. exists sf.
        split; [reflexivity |]. split; [reflexivity |]. by rewrite Hf.
    + simpl. split; [reflexivity |]. split; [reflexivity |].
      split; [reflexivity |]. intros ->. by destruct H0.
  - rewrite Ht. simpl. rewrite String.eqb_refl.
    rewrite bool_decide_eq_false_2.
    2:{ intros [= ->]. discriminate. }
    simpl. split; [by rewrite Ht |]. split; [reflexivity |].
    split; [reflexivity |]. intros ->. discriminate.
Qed.

Lemma timerInterval_single h index scrollY s v :
  quiet_goal index ->
  timer s = [(index, v)] ->
  abactive s = true ->
  let s1 := snd (timerInterval h scrollY s) in
  timer s1 = [(index, countdown v)]
  /\ abactive s1 = true
  /\ (v <> 1%Z -> data s1 = data s)
  /\ (v = 1%Z -> exists sf, timer sf = [(index, 0%Z)] /\ data sf = data s
                    /\ data s1 = data (snd (timer_fire h index sf))).
Proof.
  intros Hq Ht Ha s1. subst s1. unfold timerInterval, userActiveNow. run_monad.
  destruct (_ || _); simpl.
  - match goal with |- context [abstOneSecond h ?s0] =>
      destruct (abstOneSecond_single h index s0 v Hq Ht) as (H1 & H2 & H3 & H4) end.
    split; [exact H1 |]. split; [| split; [exact H3 | exact H4]].
    unfold activity in H2. simpl in H2. congruence.
  - rewrite Ha.
    destruct (abstOneSecond_single h index s v Hq Ht) as (H1 & H2 & H3 & H4).
    split; [exact H1 |]. split; [| split; [exact H3 | exact H4]].
    unfold activity in H2. congruence.
Qed.

Lemma ticks_cons h y rest s :
  ticks h (y :: rest) s = ticks h rest (snd (timerInterval h y s)).
Proof. reflexivity. Qed.

Lemma ticks_single h index :
  quiet_goal index ->
  forall scrolls s v,
    timer s = [(index, v)] ->
    abactive s = true ->
    (-1 <= v)%Z ->
    let s' := ticks h scrolls s in
    let n := Z.of_nat (length scrolls) in
    timer s' = [(index, Z.max (v - n) (-1))]
    /\ abactive s' = true
    /\ ((n < v)%Z \/ (v <= 0)%Z -> data s' = data s)
    /\ ((1 <= v <= n)%Z ->
        exists sf, timer sf = [(index, 0%Z)] /\ data sf = data s
                   /\ data s' = data (snd (timer_fire h index sf))).
Proof.
  intros Hq scrolls. induction scrolls as [| y rest IH]; intros s v Ht Ha Hv s' n.
  - subst s' n. simpl. split; [rewrite Ht; f_equal; f_equal; lia |].
    split; [exact Ha |]. split; [reflexivity | lia].
  - subst s'. rewrite ticks_cons.
    destruct (timerInterval_single h index y s v Hq Ht Ha) as (H1 & H2 & H3 & H4).
    set (s1 := snd (timerInterval h y s)) in *.
    assert (Hc : (-1 <= countdown v)%Z).
    { unfold countdown. destruct (-1 <? v)%Z eqn:E; [apply Z.ltb_lt in E|]; lia. }
    destruct (IH s1 (countdown v) H1 H2 Hc) as (I1 & I2 & I3 & I4).
    assert (Hn : n = (Z.of_nat (length rest) + 1)%Z) by (subst n; simpl length; lia).
    assert (Hcd : countdown v = if (-1 <? v)%Z then (v - 1)%Z else v) by reflexivity.
    destruct (-1 <? v)%Z eqn:E; [apply Z.ltb_lt in E | apply Z.ltb_ge in E].
    + split; [rewrite I1; f_equal; f_equal; lia |]. split; [exact I2 |].
      split.
      * intros Hlt. rewrite I3 by lia. apply H3. lia.
      * intros Hr. destruct (Z.eq_dec v 1%Z) as [-> | Hne].
        -- destruct (H4 eq_refl) as (sf & F1 & F2 & F3). exists sf.
           split; [exact F1 |]. split; [exact F2 |].
           rewrite I3 by (right; lia). exact F3.
        -- destruct I4 as (sf & F1 & F2 & F3); [lia |]. exists sf.
           split; [exact F1 |]. split; [| exact F3].
           rewrite F2. apply H3. exact Hne.
    + split; [rewrite I1; f_equal; f_equal; lia |]. split; [exact I2 |].
      split.
      * intros _. rewrite I3 by (right; lia). apply H3. lia.
      * intros Hr. lia.
Qed.

Lemma split_no_dash a b :
  no_dash a ->
  JsString.split "-" (a +:+ String "-" b) = a :: JsString.split "-" b.
Proof.
  unfold no_dash. induction a as [| c a IH]; intros Hn; simpl.
  - reflexivity.
  - simpl in Hn. apply orb_false_iff in Hn as [Hc Ha].
    destruct (Ascii.eqb_spec c "-") as [-> | Hne].
    + simpl in Hc. destruct a; discriminate.
    + rewrite (IH Ha). reflexivity.
Qed.

Lemma split_no_dash_single a :
  no_dash a -> JsString.split "-" a = [a].
Proof.
  unfold no_dash. induction a as [| c a IH]; intros Hn; simpl.
  - reflexivity.
  - simpl in Hn. apply orb_false_iff in Hn as [Hc Ha].
    destruct (Ascii.eqb_spec c "-") as [-> | Hne].
    + simpl in Hc. destruct a; discriminate.
    + rewrite (IH Ha). reflexivity.
Qed.

(** The keys [bt_experiment_w] arms name the call they stand for. *)
Lemma timer_fire_key h eid goal :
  (JsString.includes "goal-" eid = false ->
   timer_fire h eid = abstConvert h eid 1)
  /\ (no_dash eid -> no_dash goal ->
      timer_fire h ("goal-" +:+ eid +:+ "-" +:+ goal) = abstGoal h eid goal).
Proof.
  split.
  - intros Hi. unfold timer_fire. by rewrite Hi.
  - intros He Hg. unfold timer_fire.
    assert (JsString.includes "goal-" ("goal-" +:+ eid +:+ "-" +:+ goal) = true)
      as ->.
    { simpl. by destruct (eid +:+ "-" +:+ goal). }
    change ("goal-" +:+ eid +:+ "-" +:+ goal)
      with ("goal" +:+ String "-" (eid +:+ String "-" goal)).
    rewrite (split_no_dash "goal") by reflexivity.
    rewrite (split_no_dash eid) by assumption.
    rewrite (split_no_dash_single goal) by assumption.
    reflexivity.
Qed.


Lemma obj_get_obj_set_ne {A} k k' (a : A) l :
  k <> k' -> obj_get k' (obj_set k a l) = obj_get k' l.
Proof.
  intros Hne. induction l as [| [k0 a0] l IH]; simpl.
  - destruct (String.eqb_spec k k'); [contradiction | reflexivity].
  - destruct (String.eqb_spec k0 k) as [-> | H0]; simpl.
    + destruct (String.eqb_spec k k'); [contradiction | reflexivity].
    + destruct (String.eqb_spec k0 k'); [reflexivity | exact IH].
Qed.










(** ** The defects, evaluated *)

Lemma array_set_same {A} (l : list (option A)) n x :
  array_get l n = Some x -> array_set l n x = l.
Proof.
  revert n. induction l as [| y l IH]; intros [| n]; unfold array_get; simpl;
    try discriminate.
  - by intros ->.
  - intros H. f_equal. by apply IH.
Qed.

Lemma array_set_key_same {A} (l : list (option A)) k x :
  array_get_key l k = Some x -> array_set_key l k x = l.
Proof.
  unfold array_get_key, array_set_key.
  destruct (JsString.array_index k); [apply array_set_same | discriminate].
Qed.

(** C1 fails on the code.  On a record that is not converted and already
    holds the goal, [abstGoal] reports the goal once more: the guard
    compares the slot with 0, and a completed slot holds 1.  The stored
    record ends as it began. *)
Theorem abstGoal_reports_completed_goal_again h testId goal b gs v e s :
  testId <> "" -> goal <> "" ->
  cookies s !! ("btab_" +:+ testId) = Some (Assignment b) ->
  btab_conversion b = 0%Z ->
  btab_goals b = Some gs ->
  array_get_key gs goal = Some 1%Z ->
  btab_variation b = Some v -> v <> "" -> v <> "_bt_skip_" ->
  is_preview (vars h) = false ->
  experiment_of h testId = Some e ->
  (conversion_page e = "fingerprint" -> truthy (ab_uuid s) = true) ->
  let s' := snd (abstGoal h testId goal s) in
  beacons s'
  = (beacons s
     ++ [Beacon (Report testId v (Some goal) (post_id (vars h)) 1
                   (if String.eqb (conversion_page e) "fingerprint"
                    then ab_uuid s else None))])%list
  /\ cookies s' !! ("btab_" +:+ testId) = Some (Assignment b).
Proof.
  intros Hne Hg Hc Hconv Hgs Hslot Hv Hv1 Hv2 Hp He Hfp s'. subst s'.
  unfold abstGoal.
  assert (String.eqb testId "" = false) as -> by (by apply String.eqb_neq).
  assert (String.eqb goal "" = false) as -> by (by apply String.eqb_neq).
  simpl. run_monad. rewrite Hc. simpl.
  rewrite bool_decide_eq_false_2 by (rewrite Hconv; discriminate).
  simpl. rewrite Hgs.
  rewrite bool_decide_eq_false_2 by (rewrite Hslot; discriminate).
  simpl. rewrite Hv.
  destruct (bt_experiment_w_logs h testId v (Some goal) None 1 e s)
    as (s1 & -> & Hef & _); try assumption; [reflexivity |].
  simpl. split.
  - unfold beacons at 1. simpl. rewrite Hef, beacons_app. reflexivity.
  - rewrite lookup_insert_eq. rewrite (array_set_key_same _ _ _ Hslot).
    destruct b; simpl in *; congruence.
Qed.

Lemma abstGoal_reports_completed_goal_again_witness :
  let b := Btab "7" (Some "A") 0 (Some [None; Some 1%Z]) None in
  let s := Sample.stored "btab_7" (Assignment b) in
  let s' := snd (abstGoal Sample.host7 "7" "1" s) in
  beacons s' = [Beacon (Report "7" "A" (Some "1") "42" 1 None)]
  /\ cookies s' !! "btab_7" = Some (Assignment b).
Proof.
  intros b s s'.
  apply (abstGoal_reports_completed_goal_again Sample.host7 "7" "1" b
           [None; Some 1%Z] "A" Sample.onpage s);
    try discriminate; reflexivity.
Defined.

(** [getRandomInt(min, max)] stays within its bounds. *)
Lemma getRandomInt_range h lo hi s :
  (lo <= hi)%Z ->
  (0 <= fst (Math_random h (random_calls s)) < snd (Math_random h (random_calls s)))%Z ->
  exists z, fst (getRandomInt h lo hi s) = Done z /\ (lo <= z <= hi)%Z.
Proof.
  intros Hb Hr. unfold getRandomInt.
  destruct (Math_random h (random_calls s)) as [p q]. simpl in *.
  eexists. split; [reflexivity |].
  assert (0 <= p * (hi - lo + 1) / q < hi - lo + 1)%Z.
  { split.
    - apply Z.div_pos; nia.
    - apply Z.div_lt_upper_bound; nia. }
  lia.
Qed.

(** [Sample.rolling roll] makes the percentage draw return [roll]. *)
Lemma rolling_draws roll s n :
  random_calls s = S n ->
  fst (getRandomInt (Sample.host_zero roll) 1 100 s) = Done roll.
Proof.
  intros Hn. unfold getRandomInt. simpl. rewrite Hn. simpl.
  f_equal. change (100 - 1 + 1)%Z with 100%Z. rewrite Z.div_mul by lia. lia.
Qed.

(** With the decimal text "0" the percentage gate skips every roll. *)
Lemma percentage_gate_text_zero e roll :
  target_percentage e = pct_string 0 ->
  (1 <= roll)%Z ->
  percentage_lt (targetPercentage e) roll = true.
Proof.
  intros He Hr. unfold targetPercentage. rewrite He. simpl.
  apply Z.ltb_lt. lia.
Qed.

(** C4 fails on the code when [target_percentage] is the number 0: the
    test [targetPercentage == ''] holds for it, the percentage becomes 100,
    and whatever [getRandomInt(1,100)] returns the new visitor is sampled
    in, gets a fresh record and a visit report. *)
Theorem zero_percentage_samples_everyone roll :
  (1 <= roll <= 100)%Z ->
  targetPercentage Sample.zero_percent = pct_number 100
  /\ percentage_lt (targetPercentage Sample.zero_percent) roll = false
  /\ Sample.sampled_in roll.
Proof.
  intros Hroll. split; [reflexivity |]. split.
  - simpl. apply Z.ltb_ge. lia.
  - assert (Hall : Forall Sample.sampled_in (map Z.of_nat (seq 1 100))).
    { apply (bool_decide_eq_true _). vm_compute. reflexivity. }
    rewrite Forall_forall in Hall. apply Hall.
    apply list_elem_of_fmap. exists (Z.to_nat roll). split; [lia |].
    apply list_elem_of_In, in_seq. lia.
Qed.

Lemma zero_percentage_samples_everyone_witness : Sample.sampled_in 37.
Proof.
  apply (zero_percentage_samples_everyone 37). lia.
Defined.

Lemma corrupt_record_halts_resolution_witness :
  let s := Sample.stored "btab_7" (Garbage "not json") in
  resolve_all Sample.two_tests s = (Throw SyntaxError, s)
  /\ fst (resolve_all Sample.two_tests Sample.empty) = Done tt
  /\ cookies (snd (resolve_all Sample.two_tests Sample.empty)) !! "btab_8"
     = Some (Assignment (Btab "8" (Some "A") 0 (Some []) None)).
Proof.
  intros s. split; [| split; reflexivity].
  apply (corrupt_record_halts_resolution Sample.two_tests
           (exp_redirect Sample.two_tests) "7" ["A"; "B"] Sample.onpage
           eq_refl eq_refl eq_refl eq_refl eq_refl "not json"
           [("8", ["A"; "B"])] s).
  - discriminate.
  - reflexivity.
Defined.

(** ** The resolver: new visitors *)

Lemma draw_index (p q n : Z) :
  (0 <= p < q)%Z -> (0 < n)%Z -> (0 <= p * n / q < n)%Z.
Proof.
  intros Hp Hn. split.
  - apply Z.div_pos; nia.
  - apply Z.div_lt_upper_bound; nia.
Qed.

Lemma nth_variation_lookup variations i :
  (0 <= i < Z.of_nat (length variations))%Z ->
  exists v, nth_variation variations i = Some v
            /\ variations !! Z.to_nat i = Some v.
Proof.
  intros Hi. unfold nth_variation.
  destruct (i <? 0)%Z eqn:E; [apply Z.ltb_lt in E; lia |].
  destruct (lookup_lt_is_Some_2 variations (Z.to_nat i)) as [v Hv]; [lia |].
  exists v. by split.
Qed.


Section NewVisitor.

(** A new visitor of an experiment that passes the gates in front of the
    store, with a random source whose draws lie in [0, 1). *)
Context (h : host) (er : redirect_map).
Context (experimentId : string) (variations : list string) (e : experiment).
Hypothesis configured : experiment_of h experimentId = Some e.
Hypothesis no_winner : test_winner e = "".
Hypothesis consent : consent_withheld h = Done false.
Hypothesis tracked : is_current_user_track e = true.
Hypothesis published : test_status e = "publish".
Hypothesis draws : valid_draws h.
Hypothesis bound :
  (0 < draw_bound e variations <= Z.of_nat (length variations))%Z.

(** The draw yields one of the candidates, and the resolver goes on with
    it. *)
Lemma resolve_draws s :
  present (cookies s !! ("btab_" +:+ experimentId)) = None ->
  exists (i : nat) v k,
    variations !! i = Some v
    /\ (Z.of_nat i < draw_bound e variations \/ (i < 2)%nat)
    /\ v ∈ candidates h variations
    /\ resolve h er (experimentId, variations) s
       = resolve_drawn h er e experimentId (Some v)
           (with_random_calls (random_calls s + k) s).
Proof.
  intros Hb. unfold resolve, resolve_drawn, candidates.
  rewrite configured, no_winner, consent, tracked, published.
  simpl. run_monad. rewrite Hb.
  assert (Hdraw : forall s0 : state,
            (if bool_decide (exp_test_type e = css_test)
             then getRandomInt h 1 (css_test_variations e)
             else getRandomInt h 1 (Z.of_nat (length variations))) s0
            = getRandomInt h 1 (draw_bound e variations) s0).
  { intros s0. unfold draw_bound. by destruct (bool_decide _). }
  rewrite Hdraw. clear Hdraw.
  unfold getRandomInt.
  pose proof (draws (random_calls s)) as D0.
  destruct (Math_random h (random_calls s)) as [p0 q0] eqn:E0. simpl in D0. simpl.
  destruct (is_free (vars h) && (2 <? length variations)%nat) eqn:Efree; simpl.
  - pose proof (draws (S (random_calls s))) as D1.
    destruct (Math_random h (S (random_calls s))) as [p1 q1] eqn:E1. simpl in D1.
    simpl.
    apply andb_true_iff in Efree as [_ Hl]. apply Nat.ltb_lt in Hl.
    pose proof (draw_index p1 q1 (1 - 0 + 1) D1 ltac:(lia)) as Hi.
    destruct (nth_variation_lookup variations (p1 * (1 - 0 + 1) / q1 + 0))
      as (v & -> & Hv); [lia |].
    exists (Z.to_nat (p1 * (1 - 0 + 1) / q1 + 0)), v, 2%nat.
    split; [exact Hv |]. split; [right; lia |]. split.
    { apply list_elem_of_lookup. exists (Z.to_nat (p1 * (1 - 0 + 1) / q1 + 0)).
      rewrite lookup_take_lt by lia. exact Hv. }
    replace (random_calls s + 2)%nat with (S (S (random_calls s))) by lia.
    reflexivity.
  - pose proof (draw_index p0 q0 (draw_bound e variations - 1 + 1) D0 ltac:(lia))
      as Hi.
    destruct (nth_variation_lookup variations
                (p0 * (draw_bound e variations - 1 + 1) / q0 + 1 - 1))
      as (v & -> & Hv); [lia |].
    exists (Z.to_nat (p0 * (draw_bound e variations - 1 + 1) / q0 + 1 - 1)), v, 1%nat.
    split; [exact Hv |]. split; [left; lia |].
    split; [apply list_elem_of_lookup; eauto |].
    replace (random_calls s + 1)%nat with (S (random_calls s)) by lia.
    reflexivity.
Qed.

End NewVisitor.







Lemma css_names_lookup eid n i v :
  map (css_name eid) (seq 1 n) !! i = Some v ->
  (i < n)%nat /\ v = css_name eid (S i).
Proof.
  intros H. rewrite list_lookup_fmap in H.
  destruct (seq 1 n !! i) as [j|] eqn:E; [| discriminate].
  apply lookup_seq in E as [-> Hi]. simpl in H. by inversion H.
Qed.

(** X3.  A css test adds the class of the drawn variation to the body before
    targeting is checked: a new visitor who is not targeted gets the class
    of some variation [i] and then the class of variation 1, and nothing is
    stored. *)
Theorem css_class_precedes_targeting h er experimentId e s :
  experiment_of h experimentId = Some e ->
  test_winner e = "" ->
  consent_withheld h = Done false ->
  is_current_user_track e = true ->
  test_status e = "publish" ->
  exp_test_type e = css_test ->
  targetVisitor h e = false ->
  valid_draws h ->
  (1 <= css_test_variations e)%Z ->
  present (cookies s !! ("btab_" +:+ experimentId)) = None ->
  let variations :=
    map (css_name experimentId) (seq 1 (Z.to_nat (css_test_variations e))) in
  exists i k,
    (1 <= i <= Z.to_nat (css_test_variations e))%nat
    /\ resolve h er (experimentId, variations) s
       = (Done tt,
          with_effects
            (effects s ++ [BodyAddClass (css_name experimentId i);
                           BodyAddClass (css_name experimentId 1)])
            (with_random_calls (random_calls s + k) s)).
Proof.
  intros Hcfg Hw Hcons Htr Hpub Hty Htgt Hdraws Hn Hb variations.
  assert (Hbound : (0 < draw_bound e variations <= Z.of_nat (length variations))%Z).
  { unfold draw_bound, variations. rewrite (bool_decide_eq_true_2 _ Hty).
    rewrite length_map, length_seq. lia. }
  destruct (resolve_draws h er experimentId variations e Hcfg Hw Hcons Htr Hpub
              Hdraws Hbound s Hb) as (i & v & k & Hv & _ & _ & ->).
  apply css_names_lookup in Hv as [Hi ->].
  exists (S i), k. split; [lia |].
  unfold resolve_drawn. rewrite Htgt, (bool_decide_eq_true_2 _ Hty). simpl.
  unfold showSkippedVisitorDefault, show_default.
  rewrite Hcfg, Hw, Hty. run_monad.
  rewrite <- app_assoc. reflexivity.
Qed.

Lemma css_class_precedes_targeting_witness :
  exists i k,
    (1 <= i <= 3)%nat
    /\ resolve Pages.host_styles [] ("5", map (css_name "5") (seq 1 3)) Sample.empty
       = (Done tt,
          with_effects [BodyAddClass (css_name "5" i); BodyAddClass (css_name "5" 1)]
            (with_random_calls k Sample.empty)).
Proof.
  apply (css_class_precedes_targeting Pages.host_styles [] "5" Pages.styles
           Sample.empty); try reflexivity.
  - intros [| n]; simpl; lia.
  - simpl. lia.
Defined.

(** ** The resolver: gates and exceptions *)

(** X4.  An experiment that is unknown, or whose consent, tracking or status
    gate fails, gets the skipped default without [createCookie], whatever
    the store holds: the store, the timers and the reported events stay as
    they were. *)
Theorem gated_experiment_is_presentation_only h er experimentId variations s :
  match experiment_of h experimentId with
  | None => True
  | Some e =>
      test_winner e = ""
      /\ (consent_withheld h = Done true
          \/ consent_withheld h = Done false
             /\ (is_current_user_track e = false \/ test_status e <> "publish"))
  end ->
  resolve h er (experimentId, variations) s
  = showSkippedVisitorDefault h experimentId false s
  /\ silent s (snd (resolve h er (experimentId, variations) s)).
Proof.
  intros H.
  assert (Heq : resolve h er (experimentId, variations) s
                = showSkippedVisitorDefault h experimentId false s).
  { unfold resolve. destruct (experiment_of h experimentId) as [e|] eqn:He;
      [| reflexivity].
    destruct H as [Hw [Hc | [Hc [Ht | Hp]]]]; rewrite Hw, Hc; simpl; run_monad.
    - reflexivity.
    - by rewrite Ht.
    - destruct (is_current_user_track e); simpl; [| reflexivity].
      apply String.eqb_neq in Hp. by rewrite Hp. }
  split; [exact Heq |]. rewrite Heq. apply showSkippedVisitorDefault_silent.
Qed.

Lemma gated_experiment_is_presentation_only_witness :
  let s := Sample.stored "btab_7" (Assignment (Btab "7" (Some "B") 0 (Some []) None)) in
  let h := Sample.page [("7", Pages.draft)] (fun _ => (0, 1)%Z) in
  resolve h [] ("7", ["A"; "B"]) s = showSkippedVisitorDefault h "7" false s
  /\ silent s (snd (resolve h [] ("7", ["A"; "B"]) s)).
Proof.
  intros s h.
  apply (gated_experiment_is_presentation_only h [] "7" ["A"; "B"] s).
  simpl. split; [reflexivity |]. right. split; [reflexivity |].
  right. discriminate.
Defined.








Lemma for_each_done {A} (f : A -> M unit) a l s s' :
  f a s = (Done tt, s') -> for_each f (a :: l) s = for_each f l s'.
Proof. intros H. simpl. unfold mbind, M_bind. by rewrite H. Qed.



(** ** Conversions and goals *)

Lemma after_calls_converted h testId b calls s :
  cookies s !! ("btab_" +:+ testId) = Some (Assignment b) ->
  btab_conversion b = 1%Z ->
  after_calls h testId calls s = s.
Proof.
  intros Hc Hb. unfold after_calls.
  induction calls as [| c calls IH]; [reflexivity |].
  simpl. destruct c as [orderValue | goal]; simpl.
  - rewrite (abstConvert_converted _ _ _ _ _ Hc Hb). exact IH.
  - rewrite (abstGoal_converted _ _ _ _ _ Hc Hb). exact IH.
Qed.

Lemma abstConvert_open h testId b v e orderValue s :
  testId <> "" ->
  cookies s !! ("btab_" +:+ testId) = Some (Assignment b) ->
  btab_conversion b = 0%Z ->
  btab_variation b = Some v ->
  v <> "" -> v <> "_bt_skip_" ->
  is_preview (vars h) = false ->
  experiment_of h testId = Some e ->
  (conversion_page e = "fingerprint" -> truthy (ab_uuid s) = true) ->
  exists s',
    abstConvert h testId orderValue s = (Done tt, s')
    /\ cookies s'
       = <["btab_" +:+ testId
            := Assignment (Btab (btab_eid b) (Some v) 1 (btab_goals b) (btab_skipped b))]>
           (cookies s)
    /\ effects s'
       = (effects s
          ++ [TrackEvent (Report testId v (Some "conversion") (post_id (vars h))
                            orderValue None);
              ShowPage;
              Beacon (Report testId v (Some "conversion") (post_id (vars h)) orderValue
                        (if String.eqb (conversion_page e) "fingerprint"
                         then ab_uuid s else None))])%list.
Proof.
  intros Hne Hc Hb Hv Hv1 Hv2 Hp He Hfp. unfold abstConvert.
  assert (String.eqb testId "" = false) as -> by (by apply String.eqb_neq).
  simpl. run_monad. rewrite Hc. simpl. rewrite Hb, Hv. simpl.
  destruct (bt_experiment_w_logs h testId v (Some "conversion") None orderValue e s
              Hne Hv1 Hv2 Hp ltac:(discriminate) He Hfp)
    as (s1 & -> & Hef & Hck & _).
  simpl. eexists. split; [reflexivity |]. simpl. rewrite Hck, Hef. simpl.
  split; [| reflexivity]. by rewrite insert_insert_eq.
Qed.

(** X6.  The first [abstConvert] on an open record reports one conversion
    with its order value and stores the record with [conversion = 1], its
    other fields as they were; after that no sequence of [abstConvert] and
    [abstGoal] calls changes anything. *)
Theorem abstConvert_reports_once h testId b v e orderValue calls s :
  testId <> "" ->
  cookies s !! ("btab_" +:+ testId) = Some (Assignment b) ->
  btab_conversion b = 0%Z ->
  btab_variation b = Some v ->
  v <> "" -> v <> "_bt_skip_" ->
  is_preview (vars h) = false ->
  experiment_of h testId = Some e ->
  (conversion_page e = "fingerprint" -> truthy (ab_uuid s) = true) ->
  let s' := snd (abstConvert h testId orderValue s) in
  let r uuid := Report testId v (Some "conversion") (post_id (vars h)) orderValue uuid in
  fst (abstConvert h testId orderValue s) = Done tt
  /\ cookies s'
     = <["btab_" +:+ testId
          := Assignment (Btab (btab_eid b) (Some v) 1 (btab_goals b) (btab_skipped b))]>
         (cookies s)
  /\ effects s'
     = (effects s
        ++ [TrackEvent (r None); ShowPage;
            Beacon (r (if String.eqb (conversion_page e) "fingerprint"
                       then ab_uuid s else None))])%list
  /\ clock s' = clock s
  /\ after_calls h testId calls s' = s'.
Proof.
  intros Hne Hc Hb Hv Hv1 Hv2 Hp He Hfp s' r.
  destruct (abstConvert_open h testId b v e orderValue s Hne Hc Hb Hv Hv1 Hv2 Hp He Hfp)
    as (s1 & Hrun & Hck & Hef).
  assert (s' = s1) as -> by (subst s'; by rewrite Hrun).
  split; [by rewrite Hrun |]. split; [exact Hck |]. split; [exact Hef |].
  split.
  - pose proof (abstConvert_clock h testId orderValue s) as Hcl.
    by rewrite Hrun in Hcl.
  - eapply after_calls_converted; [rewrite Hck; apply lookup_insert_eq | reflexivity].
Qed.

Lemma abstConvert_reports_once_witness :
  let s := Sample.stored "btab_7"
             (Assignment (Btab "7" (Some "A") 0 (Some [None; Some 1%Z]) None)) in
  let s' := snd (abstConvert Sample.host7 "7" 25 s) in
  let r := Report "7" "A" (Some "conversion") "42" 25 None in
  fst (abstConvert Sample.host7 "7" 25 s) = Done tt
  /\ cookies s'
     = <["btab_7" := Assignment (Btab "7" (Some "A") 1 (Some [None; Some 1%Z]) None)]>
         (cookies s)
  /\ effects s' = [TrackEvent r; ShowPage; Beacon r]
  /\ clock s' = clock s
  /\ after_calls Sample.host7 "7" [call_goal "2"; call_convert 30] s' = s'.
Proof.
  intros s.
  apply (abstConvert_reports_once Sample.host7 "7"
           (Btab "7" (Some "A") 0 (Some [None; Some 1%Z]) None) "A" Sample.onpage
           25 [call_goal "2"; call_convert 30] s);
    try reflexivity; discriminate.
Defined.

(** X7.  When [bt_experiment_w] declines to report (preview mode, or a
    record whose variation is missing, empty or ['_bt_skip_']),
    [abstConvert] on an open record still stores [conversion = 1]: nothing
    is reported, then or later. *)
Theorem abstConvert_marks_without_report h testId b orderValue calls s :
  testId <> "" ->
  cookies s !! ("btab_" +:+ testId) = Some (Assignment b) ->
  btab_conversion b = 0%Z ->
  is_preview (vars h) = true \/ truthy (btab_variation b) = false
  \/ btab_variation b = Some "_bt_skip_" ->
  let s' := snd (abstConvert h testId orderValue s) in
  s' = with_cookies
         (<["btab_" +:+ testId
             := Assignment (Btab (btab_eid b) (btab_variation b) 1 (btab_goals b)
                              (btab_skipped b))]> (cookies s)) s
  /\ effects (after_calls h testId calls s') = effects s.
Proof.
  intros Hne Hc Hb Hguard s'.
  assert (Hs' : s' = with_cookies
         (<["btab_" +:+ testId
             := Assignment (Btab (btab_eid b) (btab_variation b) 1 (btab_goals b)
                              (btab_skipped b))]> (cookies s)) s).
  { subst s'. unfold abstConvert.
    assert (String.eqb testId "" = false) as -> by (by apply String.eqb_neq).
    simpl. run_monad. rewrite Hc. simpl. rewrite Hb. simpl.
    unfold bt_experiment_w.
    assert (bool_decide (btab_variation b = Some "_bt_skip_") || is_preview (vars h)
            || negb (truthy (Some testId)) || negb (truthy (btab_variation b)) = true)
      as ->.
    { destruct Hguard as [H | [H | H]]; rewrite H; simpl;
        rewrite ?orb_true_r; reflexivity. }
    reflexivity. }
  split; [exact Hs' |].
  rewrite (after_calls_converted h testId
             (Btab (btab_eid b) (btab_variation b) 1 (btab_goals b) (btab_skipped b))).
  - by rewrite Hs'.
  - rewrite Hs'. simpl. apply lookup_insert_eq.
  - reflexivity.
Qed.

Lemma abstConvert_marks_without_report_witness :
  let h := Host [("7", Sample.onpage)] (BtabVars true false "42") [] "" "" 1024 None
             (fun _ => (0, 1)%Z) (fun _ => None) in
  let s := Sample.stored "btab_7" (Assignment (Btab "7" (Some "A") 0 (Some []) None)) in
  let s' := snd (abstConvert h "7" 1 s) in
  s' = with_cookies
         (<["btab_7" := Assignment (Btab "7" (Some "A") 1 (Some []) None)]> (cookies s)) s
  /\ effects (after_calls h "7" [call_convert 1] s') = effects s.
Proof.
  intros h s.
  apply (abstConvert_marks_without_report h "7"
           (Btab "7" (Some "A") 0 (Some []) None) 1 [call_convert 1] s);
    try reflexivity; try discriminate.
  left. reflexivity.
Defined.

(** X8.  With no record for the experiment (or an empty text, or an empty
    test id) [abstConvert] and [abstGoal] return and change nothing, also
    for an experiment that is not configured; on a text that [JSON.parse]
    rejects both throw a [SyntaxError] and change nothing. *)
Theorem trigger_without_record h testId goal orderValue s :
  (testId = "" \/ present (cookies s !! ("btab_" +:+ testId)) = None ->
   abstConvert h testId orderValue s = (Done tt, s)
   /\ abstGoal h testId goal s = (Done tt, s))
  /\ (forall raw,
        testId <> "" -> goal <> "" ->
        present (cookies s !! ("btab_" +:+ testId)) = Some (Garbage raw) ->
        abstConvert h testId orderValue s = (Throw SyntaxError, s)
        /\ abstGoal h testId goal s = (Throw SyntaxError, s)).
Proof.
  split.
  - intros [-> | Hp]; [by split |].
    unfold abstConvert, abstGoal.
    destruct (negb (String.eqb testId "")); simpl;
      destruct (negb (String.eqb goal "")); simpl;
      unfold mbind, M_bind, abstGetCookie; simpl; rewrite ?Hp; by split.
  - intros raw Hne Hg Hp. unfold abstConvert, abstGoal.
    apply String.eqb_neq in Hne, Hg. rewrite Hne, Hg. simpl.
    unfold mbind, M_bind, abstGetCookie. simpl. rewrite Hp. by split.
Qed.

Lemma trigger_without_record_witness :
  (abstConvert Sample.host7 "7" 1 Sample.empty = (Done tt, Sample.empty)
   /\ abstGoal Sample.host7 "7" "1" Sample.empty = (Done tt, Sample.empty))
  /\ (let s := Sample.stored "btab_7" (Garbage "not json") in
      abstConvert Sample.host7 "7" 1 s = (Throw SyntaxError, s)
      /\ abstGoal Sample.host7 "7" "1" s = (Throw SyntaxError, s)).
Proof.
  split.
  - apply (trigger_without_record Sample.host7 "7" "1" 1 Sample.empty).
    right. reflexivity.
  - intros s.
    apply (trigger_without_record Sample.host7 "7" "1" 1 s) with (raw := "not json");
      try discriminate. reflexivity.
Defined.

Lemma array_get_set {A} (l : list (option A)) n x :
  array_get (array_set l n x) n = Some x.
Proof.
  revert l. induction n as [| n IH]; intros [| y l]; unfold array_get in *;
    simpl; try reflexivity; apply IH.
Qed.

Lemma array_get_set_ne {A} (l : list (option A)) n m x :
  m <> n -> array_get (array_set l n x) m = array_get l m.
Proof.
  revert l m. induction n as [| n IH]; intros [| y l] [| m] Hne;
    unfold array_get in *; simpl; try reflexivity; try congruence.
  - rewrite (IH [] m) by congruence. by rewrite !lookup_nil.
  - apply IH. congruence.
Qed.

Lemma abstGoal_open h testId goal n b gs v e s :
  testId <> "" ->
  JsString.array_index goal = Some n ->
  cookies s !! ("btab_" +:+ testId) = Some (Assignment b) ->
  btab_conversion b = 0%Z ->
  btab_goals b = Some gs ->
  array_get gs n <> Some 0%Z ->
  btab_variation b = Some v ->
  v <> "" -> v <> "_bt_skip_" ->
  is_preview (vars h) = false ->
  experiment_of h testId = Some e ->
  (conversion_page e = "fingerprint" -> truthy (ab_uuid s) = true) ->
  exists s',
    abstGoal h testId goal s = (Done tt, s')
    /\ cookies s'
       = <["btab_" +:+ testId
            := Assignment (Btab (btab_eid b) (Some v) 0
                             (Some (array_set gs n 1%Z)) (btab_skipped b))]>
           (cookies s)
    /\ effects s'
       = (effects s
          ++ [TrackEvent (Report testId v (Some goal) (post_id (vars h)) 1 None);
              ShowPage;
              Beacon (Report testId v (Some goal) (post_id (vars h)) 1
                        (if String.eqb (conversion_page e) "fingerprint"
                         then ab_uuid s else None))])%list.
Proof.
  intros Hne Hidx Hc Hb Hgs Hslot Hv Hv1 Hv2 Hp He Hfp.
  assert (Hgoal : goal <> "").
  { intros ->. vm_compute in Hidx. discriminate. }
  unfold abstGoal.
  apply String.eqb_neq in Hne, Hgoal. rewrite Hne, Hgoal. simpl.
  run_monad. rewrite Hc. simpl. rewrite Hb, Hgs, Hv. simpl.
  assert (bool_decide (array_get_key gs goal = Some 0%Z) = false) as ->.
  { apply bool_decide_eq_false_2. unfold array_get_key. by rewrite Hidx. }
  simpl. apply String.eqb_neq in Hne.
  destruct (bt_experiment_w_logs h testId v (Some goal) None 1 e s
              Hne Hv1 Hv2 Hp ltac:(done) He Hfp)
    as (s1 & -> & Hef & Hck & _).
  unfold modify. simpl. eexists. split; [reflexivity |]. simpl.
  rewrite Hck, Hef. simpl. unfold array_set_key. rewrite Hidx.
  split; [| reflexivity]. by rewrite insert_insert_eq.
Qed.

(** X9.  [abstGoal] on an open record whose slot for the goal is not 0
    reports the goal once and stores the record with that slot set to 1:
    every other slot reads as before and [conversion] stays 0, so the
    visitor can still convert. *)
Theorem abstGoal_records_goal h testId goal n b gs v e s :
  testId <> "" ->
  JsString.array_index goal = Some n ->
  cookies s !! ("btab_" +:+ testId) = Some (Assignment b) ->
  btab_conversion b = 0%Z ->
  btab_goals b = Some gs ->
  array_get gs n <> Some 0%Z ->
  btab_variation b = Some v ->
  v <> "" -> v <> "_bt_skip_" ->
  is_preview (vars h) = false ->
  experiment_of h testId = Some e ->
  (conversion_page e = "fingerprint" -> truthy (ab_uuid s) = true) ->
  let s' := snd (abstGoal h testId goal s) in
  exists gs',
    fst (abstGoal h testId goal s) = Done tt
    /\ cookies s'
       = <["btab_" +:+ testId
            := Assignment (Btab (btab_eid b) (Some v) 0 (Some gs') (btab_skipped b))]>
           (cookies s)
    /\ array_get gs' n = Some 1%Z
    /\ (forall m, m <> n -> array_get gs' m = array_get gs m)
    /\ beacons s'
       = (beacons s
          ++ [Beacon (Report testId v (Some goal) (post_id (vars h)) 1
                        (if String.eqb (conversion_page e) "fingerprint"
                         then ab_uuid s else None))])%list
    /\ clock s' = clock s.
Proof.
  intros Hne Hidx Hc Hb Hgs Hslot Hv Hv1 Hv2 Hp He Hfp s'.
  assert (Hvisit : goal <> "visit").
  { intros ->. vm_compute in Hidx. discriminate. }
  destruct (abstGoal_open h testId goal n b gs v e s Hne Hidx Hc Hb Hgs Hslot Hv
              Hv1 Hv2 Hp He Hfp) as (s1 & Hrun & Hck & Hef).
  assert (s' = s1) as -> by (subst s'; by rewrite Hrun).
  exists (array_set gs n 1%Z).
  split; [by rewrite Hrun |]. split; [exact Hck |].
  split; [apply array_get_set |].
  split; [intros m Hm; by apply array_get_set_ne |].
  split.
  - unfold beacons. rewrite Hef, filter_app. reflexivity.
  - pose proof (abstGoal_clock h testId goal s Hvisit) as Hcl.
    by rewrite Hrun in Hcl.
Qed.

Lemma abstGoal_records_goal_witness :
  let s := Sample.stored "btab_7"
             (Assignment (Btab "7" (Some "A") 0 (Some [None; Some 1%Z]) None)) in
  let s' := snd (abstGoal Sample.host7 "7" "3" s) in
  exists gs',
    fst (abstGoal Sample.host7 "7" "3" s) = Done tt
    /\ cookies s'
       = <["btab_7" := Assignment (Btab "7" (Some "A") 0 (Some gs') None)]> (cookies s)
    /\ array_get gs' 3 = Some 1%Z
    /\ (forall m, m <> 3%nat -> array_get gs' m = array_get [None; Some 1%Z] m)
    /\ beacons s' = [Beacon (Report "7" "A" (Some "3") "42" 1 None)]
    /\ clock s' = clock s.
Proof.
  intros s.
  apply (abstGoal_records_goal Sample.host7 "7" "3" 3
           (Btab "7" (Some "A") 0 (Some [None; Some 1%Z]) None) [None; Some 1%Z]
           "A" Sample.onpage s);
    try reflexivity; discriminate.
Defined.

(** ** The redirect boundary, the timers a visit arms, the fingerprint wait *)

Lemma try_catch_returns (m : M unit) s :
  fst (try_catch m (mret tt) s) = Done tt
  /\ try_catch m (mret tt) s = (Done tt, snd (m s)).
Proof.
  unfold try_catch. destruct (m s) as [[[] | ex] s']; by split.
Qed.

Lemma next_page_visit_report_run h s :
  next_page_visit_report h s
  = match present (cookies s !! "ab-set-visit") with
    | Some c =>
        let s1 := snd ((setvisit ← JSON_parse c;
                        bt_experiment_w h (get_eid setvisit) (get_variation setvisit)
                          (get_type setvisit) None 1;;
                        mret tt) s) in
        (Done tt, with_cookies (<["ab-set-visit" := LitFalse]> (cookies s1)) s1)
    | None => (Done tt, s)
    end.
Proof.
  unfold next_page_visit_report. unfold mbind at 1, M_bind at 1, abstGetCookie.
  destruct (present (cookies s !! "ab-set-visit")) as [c|]; [| reflexivity].
  unfold mbind at 1, M_bind at 1.
  match goal with |- context [try_catch ?m _ s] =>
    destruct (try_catch_returns m s) as [_ ->] end.
  reflexivity.
Qed.

(** X10.  [next_page_visit_report] never throws. With no pending text it
    changes nothing; otherwise the text is overwritten with the literal
    [false]. A text that [JSON.parse] rejects, and a pending visit whose
    experiment is not configured on the page, are dropped without a report. *)
Theorem next_page_visit_report_consumes h s :
  let r := next_page_visit_report h s in
  let dropped := with_cookies (<["ab-set-visit" := LitFalse]> (cookies s)) s in
  fst r = Done tt
  /\ (present (cookies s !! "ab-set-visit") = None -> snd r = s)
  /\ (forall c, present (cookies s !! "ab-set-visit") = Some c ->
        cookies (snd r) !! "ab-set-visit" = Some LitFalse)
  /\ (forall raw, present (cookies s !! "ab-set-visit") = Some (Garbage raw) ->
        snd r = dropped)
  /\ (forall v, present (cookies s !! "ab-set-visit") = Some (PendingVisit v) ->
        experiment_of h (visit_eid v) = None ->
        snd r = dropped).
Proof.
  intros r dropped. subst r dropped.
  rewrite next_page_visit_report_run.
  destruct (present (cookies s !! "ab-set-visit")) as [c|] eqn:Hp.
  - simpl. split; [reflexivity |]. split; [discriminate |].
    split; [intros c' _; apply lookup_insert_eq |].
    split.
    + intros raw [= ->]. reflexivity.
    + intros v [= ->] He. unfold bt_experiment_w. run_monad.
      match goal with |- context [if ?b then _ else _] => destruct b end;
        [reflexivity |].
      rewrite andb_false_r. simpl. rewrite He. reflexivity.
  - split; [reflexivity |]. split; [reflexivity |].
    split; [discriminate |]. split; discriminate.
Qed.

Lemma next_page_visit_report_consumes_witness :
  let s := Sample.stored "ab-set-visit"
             (PendingVisit (VisitData "8" "B" "visit" "landing-b" 1)) in
  next_page_visit_report Sample.host7 s
  = (Done tt, Sample.stored "ab-set-visit" LitFalse).
Proof.
  intros s.
  destruct (next_page_visit_report_consumes Sample.host7 s) as (H1 & _ & _ & _ & H2).
  rewrite (surjective_pairing (next_page_visit_report Sample.host7 s)).
  rewrite H1, (H2 (VisitData "8" "B" "visit" "landing-b" 1) eq_refl eq_refl).
  reflexivity.
Defined.

Lemma append_length (a b : string) :
  String.length (a +:+ b) = (String.length a + String.length b)%nat.
Proof. induction a as [| c a IH]; simpl; [reflexivity | by rewrite IH]. Qed.

Lemma append_inj_r (a b c : string) : a +:+ b = a +:+ c -> b = c.
Proof.
  induction a as [| x a IH]; simpl; [done |]. intros [= H]. by apply IH.
Qed.

Lemma goal_timer_key_inj eid k k' :
  goal_timer_key eid k = goal_timer_key eid k' -> k = k'.
Proof.
  unfold goal_timer_key. intros H.
  apply append_inj_r in H. apply append_inj_r in H. by apply append_inj_r in H.
Qed.

Lemma goal_timer_key_ne_eid eid k : goal_timer_key eid k <> eid.
Proof.
  intros H. apply (f_equal String.length) in H.
  unfold goal_timer_key in H. rewrite !append_length in H. simpl in H. lia.
Qed.

(** The goal timers after [arm_goal_timers]: every time goal with a
    positive time reads its time, and a key of no goal is left alone. *)
Lemma arm_goal_timers_timer eid gs s :
  let s' := snd (arm_goal_timers eid gs s) in
  (forall k, (forall key, key ∈ map fst gs -> k <> goal_timer_key eid key) ->
     obj_get k (timer s') = obj_get k (timer s))
  /\ (NoDup (map fst gs) ->
      forall key t, (key, goal_time t) ∈ gs -> (0 < t)%Z ->
        obj_get (goal_timer_key eid key) (timer s') = Some t).
Proof.
  unfold arm_goal_timers. revert s.
  induction gs as [| [k0 g0] gs IH]; intros s.
  - split; [reflexivity |]. intros _ key t H. by apply elem_of_nil in H.
  - match goal with |- context [for_each ?f0 _ s] => set (f := f0) in * end.
    assert (Hstep : exists s1,
              f (k0, g0) s = (Done tt, s1)
              /\ (forall k, k <> goal_timer_key eid k0 ->
                    obj_get k (timer s1) = obj_get k (timer s))
              /\ (forall t, g0 = goal_time t -> (0 < t)%Z ->
                    obj_get (goal_timer_key eid k0) (timer s1) = Some t)).
    { unfold f. simpl. destruct g0 as [sel | txt | pg | url | t0]; simpl;
        try (exists s; split; [reflexivity |]; split; [done | discriminate]).
      destruct (0 <? t0)%Z eqn:Et.
      - eexists. split; [reflexivity |]. simpl. split.
        + intros k Hk. apply obj_get_obj_set_ne. unfold goal_timer_key in Hk. congruence.
        + intros t [= <-] _. apply obj_get_obj_set.
      - exists s. split; [reflexivity |]. split; [done |].
        intros t [= <-] Ht. apply Z.ltb_ge in Et. lia. }
    destruct Hstep as (s1 & Hs1 & Hother & Hthis).
    rewrite (for_each_done _ _ _ _ _ Hs1).
    destruct (IH s1) as [IH1 IH2]. fold f in IH1, IH2. split.
    + intros k Hk. rewrite IH1.
      * apply Hother. apply Hk. apply list_elem_of_here.
      * intros key Hkey. apply Hk. by apply list_elem_of_further.
    + intros Hnd key t Hin Ht. apply NoDup_cons in Hnd as [Hk0 Hnd].
      apply elem_of_cons in Hin as [[= -> <-] | Hin].
      * rewrite IH1; [by apply Hthis |].
        intros key Hkey Heq. apply goal_timer_key_inj in Heq. by subst.
      * by apply (IH2 Hnd key t).
Qed.

(** X11.  A visit that is reported in place arms the timers of the
    experiment: the conversion timer under the experiment id when the
    conversion is by time, and one timer per time goal with a positive time.
    No other timer changes, and the persisted copy is not written until the
    next active tick. *)
Theorem visit_arms_timers h eid v url e s :
  eid <> "" -> v <> "" -> v <> "_bt_skip_" ->
  is_preview (vars h) = false ->
  truthy url = false ->
  experiment_of h eid = Some e ->
  (conversion_page e = "fingerprint" -> truthy (ab_uuid s) = true) ->
  NoDup (map fst (goals e)) ->
  let s' := snd (bt_experiment_w h (Some eid) (Some v) (Some "visit") url 1 s) in
  (conversion_page e = "time" -> obj_get eid (timer s') = Some (conversion_time e))
  /\ (forall key t, (key, goal_time t) ∈ goals e -> (0 < t)%Z ->
        obj_get (goal_timer_key eid key) (timer s') = Some t)
  /\ (forall k, k <> eid ->
        (forall key, key ∈ map fst (goals e) -> k <> goal_timer_key eid key) ->
        obj_get k (timer s') = obj_get k (timer s))
  /\ absttimer s' = absttimer s.
Proof.
  intros Hne Hv Hskip Hp Hurl He Hfp Hnd s'. subst s'.
  unfold bt_experiment_w.
  rewrite guard_passes by assumption. simpl. rewrite Hurl. simpl.
  run_monad. rewrite He. simpl.
  assert (String.eqb (conversion_page e) "fingerprint" && negb (truthy (ab_uuid s))
          = false) as ->.
  { destruct (String.eqb_spec (conversion_page e) "fingerprint") as [Hf | Hf];
      simpl; auto.
    rewrite Hfp by assumption. reflexivity. }
  set (s0 := with_effects _ s).
  assert (Hgen : forall s1 : state,
            absttimer s1 = absttimer s ->
            exists s2,
            arm_goal_timers eid (goals e) s1 = (Done tt, s2)
            /\ absttimer s2 = absttimer s
            /\ (forall key t, (key, goal_time t) ∈ goals e -> (0 < t)%Z ->
                  obj_get (goal_timer_key eid key) (timer s2) = Some t)
            /\ (forall k,
                  (forall key, key ∈ map fst (goals e) -> k <> goal_timer_key eid key) ->
                  obj_get k (timer s2) = obj_get k (timer s1))).
  { intros s1 Ha.
    destruct (arm_goal_timers_done eid (goals e) s1) as (s3 & Heq & _ & _ & Hab & _).
    destruct (arm_goal_timers_timer eid (goals e) s1) as [H1 H2].
    rewrite Heq in *. simpl in *. exists s3.
    split; [reflexivity |]. split; [congruence |].
    split; [by apply H2 | exact H1]. }
  destruct (String.eqb_spec (conversion_page e) "time") as [Ht | Ht]; simpl.
  - match goal with |- context [arm_goal_timers eid (goals e) ?s1] =>
      destruct (Hgen s1 eq_refl) as (s2 & -> & Hab & Hgoal & Hother) end.
    simpl. split.
    { intros _. rewrite Hother.
      - simpl. apply obj_get_obj_set.
      - intros key _ Heq. symmetry in Heq. by apply goal_timer_key_ne_eid in Heq. }
    split; [exact Hgoal |]. split; [| exact Hab].
    intros k Hk Hkeys. rewrite (Hother k Hkeys). simpl.
    apply obj_get_obj_set_ne. congruence.
  - match goal with |- context [arm_goal_timers eid (goals e) ?s1] =>
      destruct (Hgen s1 eq_refl) as (s2 & -> & Hab & Hgoal & Hother) end.
    simpl. split; [done |].
    split; [exact Hgoal |]. split; [| exact Hab].
    intros k Hk Hkeys. by rewrite (Hother k Hkeys).
Qed.

Lemma visit_arms_timers_witness :
  let e := Experiment "Stay" "" on_page "" [] 0 "time" 5
             [("0", goal_selector ".buy"); ("1", goal_time 30); ("2", goal_time 0)]
             true "publish" (pct_number 100) "" "all" in
  let h := Sample.page [("7", e)] (fun _ => (0, 1)%Z) in
  let s' := snd (bt_experiment_w h (Some "7") (Some "A") (Some "visit") None 1
                   Sample.empty) in
  (conversion_page e = "time" -> obj_get "7" (timer s') = Some 5%Z)
  /\ (forall key t, (key, goal_time t) ∈ goals e -> (0 < t)%Z ->
        obj_get (goal_timer_key "7" key) (timer s') = Some t)
  /\ (forall k, k <> "7" ->
        (forall key, key ∈ map fst (goals e) -> k <> goal_timer_key "7" key) ->
        obj_get k (timer s') = obj_get k (timer Sample.empty))
  /\ absttimer s' = absttimer Sample.empty.
Proof.
  intros e h.
  apply (visit_arms_timers h "7" "A" None e Sample.empty);
    try reflexivity; try discriminate.
  simpl. repeat constructor; rewrite ?elem_of_cons, ?elem_of_nil; intuition discriminate.
Defined.

Lemma arm_goal_timers_timeouts eid gs s :
  timeouts (snd (arm_goal_timers eid gs s)) = timeouts s.
Proof.
  unfold arm_goal_timers. revert s.
  induction gs as [| [k g] gs IH]; intros s; simpl; [reflexivity |].
  run_monad. destruct (goal_time_of g) as [t|]; simpl; [| apply IH].
  destruct (0 <? t)%Z; simpl; [| apply IH]. by rewrite IH.
Qed.

Lemma bt_experiment_w_timeouts h eid variation type url orderValue e s :
  experiment_of h (default "" eid) = Some e ->
  (conversion_page e = "fingerprint" -> truthy (ab_uuid s) = true) ->
  timeouts (snd (bt_experiment_w h eid variation type url orderValue s)) = timeouts s.
Proof.
  intros He Hfp. unfold bt_experiment_w.
  destruct (_ || _ || _ || _); [reflexivity |].
  destruct (_ && _); [reflexivity |].
  run_monad. rewrite He. simpl.
  assert (String.eqb (conversion_page e) "fingerprint" && negb (truthy (ab_uuid s))
          = false) as ->.
  { destruct (String.eqb_spec (conversion_page e) "fingerprint") as [Hf | Hf];
      simpl; auto.
    rewrite Hfp by assumption. reflexivity. }
  destruct (bool_decide (type = Some "visit")); simpl.
  - destruct (String.eqb (conversion_page e) "time"); simpl;
      match goal with |- context [arm_goal_timers ?a ?b ?c] =>
        pose proof (arm_goal_timers_timeouts a b c) as Hto;
        destruct (arm_goal_timers_done a b c) as (s' & Harm & _) end;
      rewrite Harm in *; simpl in *;
      destruct (negb (truthy url)); simpl; exact Hto.
  - destruct (negb (truthy url)); reflexivity.
Qed.

(** X12.  While the experiment converts by fingerprint and no fingerprint is
    stored, a call of [bt_experiment_w] that gets past its guard and is no
    redirect stores and reports nothing: it only schedules itself again. The
    scheduled call does the same until [setAbFingerprint] has stored a
    fingerprint; then it reports once, with the fingerprint as [uuid], and
    schedules nothing more. *)
Theorem fingerprint_wait h eid v type url orderValue e fp s :
  eid <> "" -> v <> "" -> v <> "_bt_skip_" ->
  is_preview (vars h) = false ->
  (type = Some "visit" -> truthy url = false) ->
  experiment_of h eid = Some e ->
  conversion_page e = "fingerprint" ->
  truthy (ab_uuid s) = false ->
  timeouts s = [] ->
  fp <> "" ->
  let d := Deferred (Some eid) (Some v) type url orderValue in
  let s1 := with_timeouts [d] s in
  let s2 := snd (setAbFingerprint (Some fp) s1) in
  bt_experiment_w h (Some eid) (Some v) type url orderValue s = (Done true, s1)
  /\ run_timeout h s1 = (Done tt, s1)
  /\ setAbFingerprint None s1 = (Done tt, s1)
  /\ fst (run_timeout h s2) = Done tt
  /\ timeouts (snd (run_timeout h s2)) = []
  /\ beacons (snd (run_timeout h s2))
     = (beacons s
        ++ [Beacon (Report eid v type (post_id (vars h)) orderValue (Some fp))])%list.
Proof.
  intros Hne Hv Hskip Hp Hvis He Hfp Hu Ht Hfpne d s1 s2.
  assert (Hwait : forall s0 : state,
            truthy (ab_uuid s0) = false ->
            bt_experiment_w h (Some eid) (Some v) type url orderValue s0
            = (Done true, with_timeouts (timeouts s0 ++ [d]) s0)).
  { intros s0 Hu0. unfold bt_experiment_w.
    rewrite guard_passes by assumption. simpl.
    assert (bool_decide (type = Some "visit") && truthy url = false) as ->.
    { destruct (bool_decide_reflect (type = Some "visit")) as [Hty | Hty]; simpl; auto. }
    run_monad. rewrite He. simpl. rewrite Hfp, Hu0. reflexivity. }
  split; [rewrite (Hwait s Hu), Ht; reflexivity |].
  split.
  { unfold run_timeout. run_monad. rewrite Hwait by exact Hu. reflexivity. }
  split.
  { unfold setAbFingerprint. run_monad. by rewrite Hu. }
  assert (Hs2 : s2 = with_ab_uuid (Some fp) s1).
  { subst s2. unfold setAbFingerprint. run_monad. by rewrite Hu. }
  assert (Hrt : run_timeout h (with_ab_uuid (Some fp) s1)
                = ((bt_experiment_w h (Some eid) (Some v) type url orderValue;;
                    mret tt) (with_timeouts [] (with_ab_uuid (Some fp) s1)))).
  { reflexivity. }
  rewrite Hs2, Hrt. clear Hrt.
  set (s0 := with_timeouts [] (with_ab_uuid (Some fp) s1)).
  pose proof (bt_experiment_w_timeouts h (Some eid) (Some v) type url orderValue e s0 He)
    as Hto.
  destruct (bt_experiment_w_logs h eid v type url orderValue e s0
              Hne Hv Hskip Hp Hvis He)
    as (s3 & Hrun & Hef & _).
  { intros _. simpl. by apply negb_true_iff, String.eqb_neq. }
  unfold mbind, M_bind. rewrite Hrun in *. simpl.
  split; [reflexivity |].
  split.
  - apply Hto. intros _. simpl. by apply negb_true_iff, String.eqb_neq.
  - unfold beacons. rewrite Hef. rewrite Hfp. simpl. rewrite filter_app. simpl.
    destruct (truthy url); reflexivity.
Qed.

Lemma fingerprint_wait_witness :
  let h := Pages.host_fingerprinted in
  let d := Deferred (Some "7") (Some "A") (Some "visit") None 1 in
  let s1 := with_timeouts [d] Sample.empty in
  let s2 := snd (setAbFingerprint (Some "f00d") s1) in
  bt_experiment_w h (Some "7") (Some "A") (Some "visit") None 1 Sample.empty
  = (Done true, s1)
  /\ run_timeout h s1 = (Done tt, s1)
  /\ setAbFingerprint None s1 = (Done tt, s1)
  /\ fst (run_timeout h s2) = Done tt
  /\ timeouts (snd (run_timeout h s2)) = []
  /\ beacons (snd (run_timeout h s2))
     = [Beacon (Report "7" "A" (Some "visit") "42" 1 (Some "f00d"))].
Proof.
  intros h.
  apply (fingerprint_wait h "7" "A" (Some "visit") None 1 Pages.fingerprinted "f00d"
           Sample.empty); try reflexivity; discriminate.
Defined.

(** ** The page load *)

(** X13.  The timers outlive the page through [localStorage.absttimer]: what
    a tick that ran to its end has persisted is what the next page load
    reads back, and with nothing persisted the page starts without timers.
    After a load the first tick always counts as active, whatever the scroll
    position: it runs [abstOneSecond]. *)
Theorem page_load_restores_timers h s scrollY :
  (timer s <> [] -> fst (abstOneSecond h s) = Done tt ->
   timer (page_load scrollY (snd (abstOneSecond h s)))
   = timer (snd (abstOneSecond h s)))
  /\ (absttimer s = None -> timer (page_load scrollY s) = [])
  /\ (forall y,
        timerInterval h y (page_load scrollY s)
        = abstOneSecond h (with_activity true y (-1) true (page_load scrollY s))).
Proof.
  split; [| split].
  - intros Ht. unfold abstOneSecond, mbind, M_bind, get_state, modify.
    assert ((0 <? length (timer s))%nat = true) as ->
      by (destruct (timer s); [done | reflexivity]).
    destruct (for_each (timer_step h) (timer s) s) as [[[] | ex] s1]; simpl;
      [reflexivity | discriminate].
  - intros Ha. unfold page_load. by rewrite Ha.
  - intros y. unfold timerInterval, userActiveNow. run_monad.
    rewrite orb_true_r. reflexivity.
Qed.

Lemma page_load_restores_timers_witness :
  let s := with_timer [("7", 5%Z)] Sample.empty in
  timer (page_load 0 (snd (abstOneSecond Sample.host_timed s))) = [("7", 4%Z)]
  /\ timer (page_load 0 s) = []
  /\ timer (snd (timerInterval Sample.host_timed 0
                   (page_load 0 (snd (abstOneSecond Sample.host_timed s)))))
     = [("7", 3%Z)].
Proof.
  intros s.
  destruct (page_load_restores_timers Sample.host_timed s 0) as (H1 & H2 & _).
  destruct (page_load_restores_timers Sample.host_timed
              (snd (abstOneSecond Sample.host_timed s)) 0) as (_ & _ & H3).
  split; [| split].
  - rewrite H1; [reflexivity | discriminate | reflexivity].
  - apply H2. reflexivity.
  - rewrite H3. reflexivity.
Defined.

(** ** The pure helpers *)



Lemma prefix_append p u rest :
  String.prefix p u = true -> String.prefix p (u +:+ rest) = true.
Proof.
  revert p. induction u as [| c u IH]; intros p Hp.
  - destruct p; [simpl; by destruct rest | discriminate].
  - destruct p as [| d p]; [reflexivity |]. simpl in *.
    destruct (ascii_dec d c); [by apply IH | discriminate].
Qed.

(** X15.  [abRedirectUrl] appends the page's query and fragment, and
    prefixes ["/"] unless the result starts with ["http"] or ["/"]: what it
    returns always starts with one of the two, and a slug or URL that
    already does is kept as it is. *)
Theorem abRedirectUrl_is_rooted h url :
  let r := abRedirectUrl h url in
  let full := url +:+ location_search h +:+ location_hash h in
  JsString.startsWith "http" r || JsString.startsWith "/" r = true
  /\ (r = full \/ r = "/" +:+ full)
  /\ (JsString.startsWith "http" url || JsString.startsWith "/" url = true ->
      r = full).
Proof.
  intros r full. subst r full. unfold abRedirectUrl.
  set (full := url +:+ location_search h +:+ location_hash h).
  destruct (JsString.startsWith "http" full || JsString.startsWith "/" full) eqn:E.
  - split; [exact E |]. split; [by left | done].
  - split; [unfold JsString.startsWith; simpl; by destruct full |].
    split; [by right |].
    intros Hu. exfalso.
    assert (Hpre : forall p, String.prefix p url = true -> String.prefix p full = true).
    { intros p Hp. by apply prefix_append. }
    unfold JsString.startsWith in *.
    apply orb_true_iff in Hu as [Hu | Hu]; apply Hpre in Hu; rewrite Hu in E;
      simpl in E; try discriminate.
    rewrite orb_true_r in E. discriminate.
Qed.

(** X16.  The audience rule by device size: with no URL-query rule, an
    experiment for ["desktop"] targets widths above 767, one for ["tablet"]
    widths from 480 to 767, one for ["mobile"] widths up to 479, and one for
    ["all"] every width. *)
Theorem targetVisitor_by_device h e :
  url_query e = "" ->
  (target_option_device_size e = "all" -> targetVisitor h e = true)
  /\ (target_option_device_size e = "desktop" ->
      targetVisitor h e = (767 <? window_width h)%Z)
  /\ (target_option_device_size e = "tablet" ->
      targetVisitor h e = (479 <? window_width h)%Z && (window_width h <=? 767)%Z)
  /\ (target_option_device_size e = "mobile" ->
      targetVisitor h e = (window_width h <=? 479)%Z).
Proof.
  intros Hq. unfold targetVisitor, device_size. rewrite Hq. simpl.
  repeat split; intros ->; simpl;
    destruct (767 <? window_width h)%Z eqn:E1;
    destruct (479 <? window_width h)%Z eqn:E2;
    try reflexivity; symmetry;
    rewrite ?Z.leb_le, ?Z.leb_gt, ?andb_true_iff, ?andb_false_iff, ?Z.leb_le, ?Z.leb_gt;
    apply Z.ltb_lt in E1 || apply Z.ltb_ge in E1;
    apply Z.ltb_lt in E2 || apply Z.ltb_ge in E2; try lia.
Qed.

Lemma targetVisitor_by_device_witness :
  let e := Experiment "Headline" "" on_page "" [] 0 "selector" 0 [] true "publish"
             (pct_number 100) "" "tablet" in
  let h width := Host [] (BtabVars false false "42") [] "" "" width None
                   (fun _ => (0, 1)%Z) (fun _ => None) in
  targetVisitor (h 767) e = true /\ targetVisitor (h 768) e = false
  /\ targetVisitor (h 480) e = true /\ targetVisitor (h 479) e = false.
Proof.
  intros e h.
  assert (H : forall width,
            targetVisitor (h width) e = (479 <? width)%Z && (width <=? 767)%Z).
  { intros width.
    destruct (targetVisitor_by_device (h width) e eq_refl) as (_ & _ & H & _).
    apply H. reflexivity. }
  rewrite !H. repeat split.
Defined.

(** ** The query string *)

Lemma prefix_empty s : String.prefix "" s = true.
Proof. by destruct s. Qed.

Lemma without_cons c d s :
  without c (String d s) <-> c <> d /\ without c s.
Proof.
  unfold without. simpl. rewrite prefix_empty.
  destruct (ascii_dec c d) as [-> | Hne]; simpl.
  - split; [discriminate | intros [H _]; by destruct H].
  - split; [intros H; by split | by intros [_ H]].
Qed.

Lemma without_append c a b :
  without c a -> without c b -> without c (a +:+ b).
Proof.
  intros Ha Hb. induction a as [| d a IH]; simpl; [exact Hb |].
  apply without_cons in Ha as [Hne Ha]. apply without_cons. split; [exact Hne |].
  by apply IH.
Qed.

Lemma split_without sep a :
  without sep a -> JsString.split sep a = [a].
Proof.
  induction a as [| c a IH]; intros Hn; simpl; [reflexivity |].
  apply without_cons in Hn as [Hne Ha].
  destruct (Ascii.eqb_spec c sep) as [-> | _]; [done |].
  by rewrite (IH Ha).
Qed.

Lemma split_append sep a b :
  without sep a ->
  JsString.split sep (a +:+ String sep b) = a :: JsString.split sep b.
Proof.
  induction a as [| c a IH]; intros Hn; simpl.
  - by rewrite Ascii.eqb_refl.
  - apply without_cons in Hn as [Hne Ha].
    destruct (Ascii.eqb_spec c sep) as [-> | _]; [done |].
    by rewrite (IH Ha).
Qed.

Lemma substring_all s n :
  (String.length s <= n)%nat -> String.substring 0 n s = s.
Proof.
  revert n. induction s as [| c s IH]; intros [| n] Hn; simpl in *;
    try reflexivity; try lia.
  f_equal. apply IH. lia.
Qed.

Lemma plain_pair_and kv : plain_pair kv -> without "&" (query_pair kv).
Proof.
  destruct kv as [k [v |]]; unfold plain_pair, query_pair; simpl.
  - intros (Hk & _ & Hv & _). apply without_append; [exact Hk |].
    apply without_cons. split; [discriminate | exact Hv].
  - by intros (Hk & _).
Qed.

Lemma query_lookup_pair variable kv rest :
  plain_pair kv ->
  query_lookup variable (query_pair kv :: rest)
  = if String.eqb (fst kv) variable then
      match snd kv with
      | None => QTrue
      | Some x => QString x
      end
    else query_lookup variable rest.
Proof.
  destruct kv as [k [v |]]; unfold plain_pair, query_pair; simpl.
  - intros (_ & Hk & _ & Hv).
    rewrite (split_append "=" k v Hk), (split_without "=" v Hv). reflexivity.
  - intros (_ & Hk & _). rewrite (split_without "=" k Hk). reflexivity.
Qed.

Lemma query_lookup_join variable pairs :
  pairs <> [] ->
  Forall plain_pair pairs ->
  query_lookup variable (JsString.split "&" (join "&" (map query_pair pairs)))
  = first_parameter variable pairs.
Proof.
  intros Hne Hall. induction Hall as [| kv rest Hkv Hrest IH]; [done |].
  destruct rest as [| kv' rest'].
  - simpl join. rewrite (split_without "&" _ (plain_pair_and kv Hkv)).
    rewrite (query_lookup_pair variable kv [] Hkv).
    destruct kv as [k v]. reflexivity.
  - change (join "&" (map query_pair (kv :: kv' :: rest')))
      with (query_pair kv +:+ String "&" (join "&" (map query_pair (kv' :: rest')))).
    rewrite (split_append "&" _ _ (plain_pair_and kv Hkv)).
    rewrite (query_lookup_pair variable kv _ Hkv).
    rewrite IH by done. destruct kv as [k v]. reflexivity.
Qed.

Lemma bt_getQueryVariable_query_of h variable pairs :
  pairs <> [] ->
  Forall plain_pair pairs ->
  location_search h = query_of pairs ->
  bt_getQueryVariable h variable = first_parameter variable pairs.
Proof.
  intros Hne Hall Hs. unfold bt_getQueryVariable. rewrite Hs. unfold query_of.
  change (String.substring 1 (String.length (String "?" ?q)) (String "?" ?q))
    with (String.substring 0 (String.length (String "?" q)) q).
  rewrite substring_all by (simpl; lia).
  by apply query_lookup_join.
Qed.

(** X17.  Reading a parameter back from the query string: when
    [location.search] is ["?"] followed by parameters joined with ["&"],
    each a bare key or [key=value] with no ["&"] or ["="] inside,
    [bt_getQueryVariable] returns for the first parameter with the asked
    name its value, [true] when it is a bare key, and [false] when no
    parameter has that name. On an empty query string it returns [false] for
    every name but the empty one, for which it returns [true]. *)
Theorem bt_getQueryVariable_reads_back h variable :
  (forall pairs,
     pairs <> [] ->
     Forall plain_pair pairs ->
     location_search h = query_of pairs ->
     bt_getQueryVariable h variable = first_parameter variable pairs)
  /\ (location_search h = "" \/ location_search h = "?" ->
      bt_getQueryVariable h variable
      = if String.eqb variable "" then QTrue else QFalse).
Proof.
  split; [intros pairs; apply bt_getQueryVariable_query_of |].
  intros Hs. unfold bt_getQueryVariable.
  assert (String.substring 1 (String.length (location_search h)) (location_search h)
          = "") as -> by (by destruct Hs as [-> | ->]).
  simpl. rewrite String.eqb_sym. by destruct (String.eqb variable "").
Qed.

Lemma bt_getQueryVariable_reads_back_witness :
  let h := Host [] (BtabVars false false "42") [] "?utm=x&debug&ref=" "" 1024 None
             (fun _ => (0, 1)%Z) (fun _ => None) in
  bt_getQueryVariable h "debug" = QTrue
  /\ bt_getQueryVariable h "ref" = QString ""
  /\ bt_getQueryVariable h "page" = QFalse
  /\ bt_getQueryVariable Sample.host7 "" = QTrue.
Proof.
  intros h.
  assert (Hpairs : forall variable,
            bt_getQueryVariable h variable
            = first_parameter variable
                [("utm", Some "x"); ("debug", None); ("ref", Some "")]).
  { intros variable.
    destruct (bt_getQueryVariable_reads_back h variable) as [H _].
    apply H; [discriminate | repeat constructor | reflexivity]. }
  split; [apply Hpairs |]. split; [apply Hpairs |]. split; [apply Hpairs |].
  destruct (bt_getQueryVariable_reads_back Sample.host7 "") as [_ H].
  apply H. by left.
Defined.

(** ** The [endsWith] polyfill *)

Lemma substring_append p t :
  String.substring (String.length p) (String.length t) (p +:+ t) = t.
Proof.
  induction p as [| c p IH]; simpl; [| exact IH].
  destruct t as [| d t]; simpl; [reflexivity |]. f_equal. by apply substring_all.
Qed.

Lemma substring_split s n :
  (n <= String.length s)%nat ->
  s = String.substring 0 n s +:+ String.substring n (String.length s - n) s.
Proof.
  revert n. induction s as [| c s IH]; intros [| n] Hn; simpl in *; try lia.
  - reflexivity.
  - change (String c s = String c (String.substring 0 (String.length s) s)).
    f_equal. symmetry. by apply substring_all.
  - change (String c s
            = String c (String.substring 0 n s
                        +:+ String.substring n (String.length s - n) s)).
    f_equal. apply IH. lia.
Qed.

(** X18.  The polyfill agrees with what [endsWith] means: without a length
    argument it answers [true] exactly when the string is some prefix
    followed by the searched text; so [btIsLocalhost] holds exactly for
    ["localhost"], ["127.0.0.1"] and the host names that end in [".local"]
    or [".test"]. *)
Theorem endsWith_is_suffix s search :
  (endsWith s search None = true <-> exists p, s = p +:+ search)
  /\ (btIsLocalhost s = true <->
      s = "localhost" \/ s = "127.0.0.1"
      \/ (exists p, s = p +:+ ".local") \/ (exists p, s = p +:+ ".test")).
Proof.
  assert (Hends : forall t, endsWith s t None = true <-> exists p, s = p +:+ t).
  { intros t. unfold endsWith, js_substring.
    set (ls := String.length s). set (lt := String.length t).
    destruct (le_lt_dec lt ls) as [Hle | Hlt].
    - replace (Z.to_nat _) with (ls - lt)%nat by lia.
      replace (Z.to_nat _) with lt by lia.
      rewrite String.eqb_eq. split.
      + intros H. exists (String.substring 0 (ls - lt) s).
        rewrite <- H.
        pose proof (substring_split s (ls - lt) ltac:(subst ls; lia)) as Hs.
        replace (String.length s - (ls - lt))%nat with lt in Hs by (subst ls; lia).
        exact Hs.
      + intros [p ->].
        assert (ls = (String.length p + lt)%nat) as Hl
          by (subst ls lt; apply append_length).
        replace (ls - lt)%nat with (String.length p) by lia.
        apply substring_append.
    - replace (Z.to_nat _) with 0%nat by lia.
      replace (Z.to_nat _) with ls by lia.
      rewrite substring_all by (subst ls; lia).
      rewrite String.eqb_eq. split.
      + intros ->. subst ls lt. lia.
      + intros [p ->]. subst ls lt. rewrite append_length in Hlt. lia. }
  split; [apply Hends |].
  unfold btIsLocalhost. rewrite !orb_true_iff, !String.eqb_eq, !Hends. tauto.
Qed.

Lemma endsWith_is_suffix_witness :
  endsWith "shop.test" ".test" None = true /\ btIsLocalhost "shop.test" = true.
Proof.
  destruct (endsWith_is_suffix "shop.test" ".test") as [H1 H2]. split.
  - apply H1. by exists "shop".
  - apply H2. right. right. right. by exists "shop".
Defined.



(** ** Click listeners *)

(** X20.  [abClickListener] never changes the state. For a visitor without a
    record it registers a listener: for the event ["click"] on a selector
    without ["|"], and for the event named after the ["|"] otherwise. On a
    record that is converted it registers nothing for the conversion (goal
    0); on a record whose slot for the goal holds 1 it registers nothing for
    that goal; and on a record without a [goals] array, as [skippedCookie]
    writes it, it throws a [TypeError] for every goal but 0. *)
Theorem abClickListener_registers experimentId conversionSelector goalId s :
  snd (abClickListener experimentId conversionSelector goalId s) = s
  /\ (present (cookies s !! ("btab_" +:+ experimentId)) = None ->
      (without "|" conversionSelector ->
       fst (abClickListener experimentId conversionSelector goalId s)
       = Done (Some (Listener "click" conversionSelector experimentId goalId)))
      /\ (forall sel event,
            without "|" sel -> without "|" event ->
            conversionSelector = sel +:+ String "|" event ->
            fst (abClickListener experimentId conversionSelector goalId s)
            = Done (Some (Listener event sel experimentId goalId))))
  /\ (forall b,
        cookies s !! ("btab_" +:+ experimentId) = Some (Assignment b) ->
        (goalId = 0%Z -> btab_conversion b = 1%Z ->
         fst (abClickListener experimentId conversionSelector goalId s) = Done None)
        /\ (goalId <> 0%Z -> forall gs,
              btab_goals b = Some gs -> goal_slot gs goalId = Some 1%Z ->
              fst (abClickListener experimentId conversionSelector goalId s)
              = Done None)
        /\ (goalId <> 0%Z -> btab_goals b = None ->
            fst (abClickListener experimentId conversionSelector goalId s)
            = Throw TypeError)).
Proof.
  split; [| split].
  - unfold abClickListener. run_monad.
    destruct (present (cookies s !! ("btab_" +:+ experimentId))) as [c|]; simpl.
    + destruct c as [raw | b | v |]; simpl; try reflexivity;
        destruct (goalId =? 0)%Z; simpl;
        repeat first
          [ reflexivity
          | match goal with
            | |- context [bool_decide ?P] => destruct (bool_decide P); simpl
            | |- context [btab_goals ?b] => destruct (btab_goals b); simpl
            | |- context [?a && ?b] => destruct (a && b); simpl
            end ].
    + destruct (_ && _); reflexivity.
  - intros Hp. unfold abClickListener. run_monad. rewrite Hp. simpl. split.
    + intros Hw. unfold without in Hw. rewrite Hw. reflexivity.
    + intros sel event Hsel Hev ->.
      rewrite (split_append "|" sel event Hsel), (split_without "|" event Hev).
      assert (JsString.includes "|" (sel +:+ String "|" event) = true) as ->.
      { clear. induction sel as [| c sel IH]; simpl.
        - by rewrite prefix_empty.
        - rewrite IH. apply orb_true_r. }
      reflexivity.
  - intros b Hc. unfold abClickListener. run_monad. rewrite Hc. simpl.
    split; [| split].
    + intros -> Hb. simpl. rewrite Hb. reflexivity.
    + intros Hg gs Hgs Hslot. apply Z.eqb_neq in Hg. rewrite Hg, Hgs. simpl.
      rewrite Hslot. reflexivity.
    + intros Hg Hgs. apply Z.eqb_neq in Hg. rewrite Hg, Hgs. reflexivity.
Qed.

Lemma abClickListener_registers_witness :
  let skipped := snd (skippedCookie "7" (Some "a") Sample.empty) in
  fst (abClickListener "7" ".buy|mouseover" 0 Sample.empty)
  = Done (Some (Listener "mouseover" ".buy" "7" 0))
  /\ fst (abClickListener "7" ".buy" 0 skipped) = Done None
  /\ fst (abClickListener "7" ".more" 1 skipped) = Throw TypeError.
Proof.
  intros skipped.
  destruct (abClickListener_registers "7" ".buy|mouseover" 0 Sample.empty)
    as (_ & H1 & _).
  destruct (abClickListener_registers "7" ".buy" 0 skipped) as (_ & _ & H2).
  destruct (abClickListener_registers "7" ".more" 1 skipped) as (_ & _ & H4).
  destruct (H1 eq_refl) as [_ H1'].
  destruct (H2 (Btab "7" (Some "a") 1 None (Some 1%Z)) eq_refl) as (H2' & _).
  destruct (H4 (Btab "7" (Some "a") 1 None (Some 1%Z)) eq_refl) as (_ & _ & H4').
  split; [| split].
  - apply (H1' ".buy" "mouseover"); reflexivity.
  - apply H2'; reflexivity.
  - apply H4'; [discriminate | reflexivity].
Defined.

(** X21.  A click conversion happens once. For a visitor whose record is
    open [abClickListener] registers the listener of the conversion; the
    first matching click reports the conversion, a later click on the same
    page changes nothing, and on the next page load no listener is
    registered. *)
Theorem click_converts_once h testId sel b v e s :
  testId <> "" ->
  without "|" sel ->
  cookies s !! ("btab_" +:+ testId) = Some (Assignment b) ->
  btab_conversion b = 0%Z ->
  btab_variation b = Some v ->
  v <> "" -> v <> "_bt_skip_" ->
  is_preview (vars h) = false ->
  experiment_of h testId = Some e ->
  (conversion_page e = "fingerprint" -> truthy (ab_uuid s) = true) ->
  let l := Listener "click" sel testId 0 in
  let s' := snd (listener_fire h l s) in
  fst (abClickListener testId sel 0 s) = Done (Some l)
  /\ beacons s'
     = (beacons s
        ++ [Beacon (Report testId v (Some "conversion") (post_id (vars h)) 1
                      (if String.eqb (conversion_page e) "fingerprint"
                       then ab_uuid s else None))])%list
  /\ snd (listener_fire h l s') = s'
  /\ fst (abClickListener testId sel 0 s') = Done None.
Proof.
  intros Hne Hsel Hc Hb Hv Hv1 Hv2 Hp He Hfp l s'.
  destruct (abstConvert_open h testId b v e 1 s Hne Hc Hb Hv Hv1 Hv2 Hp He Hfp)
    as (s1 & Hrun & Hck & Hef).
  assert (s' = s1) as -> by (subst s'; unfold listener_fire; simpl; by rewrite Hrun).
  assert (Hrec : cookies s1 !! ("btab_" +:+ testId)
                 = Some (Assignment (Btab (btab_eid b) (Some v) 1 (btab_goals b)
                                       (btab_skipped b))))
    by (rewrite Hck; apply lookup_insert_eq).
  split; [| split; [| split]].
  - unfold abClickListener. run_monad. rewrite Hc. simpl. rewrite Hb. simpl.
    unfold without in Hsel. rewrite Hsel. reflexivity.
  - unfold beacons. rewrite Hef, filter_app. reflexivity.
  - unfold listener_fire. simpl.
    by apply (abstConvert_converted h testId _ 1 s1 Hrec).
  - unfold abClickListener. run_monad. rewrite Hrec. reflexivity.
Qed.

Lemma click_converts_once_witness :
  let s := Sample.stored "btab_7" (Assignment (Btab "7" (Some "A") 0 (Some []) None)) in
  let l := Listener "click" ".buy" "7" 0 in
  let s' := snd (listener_fire Sample.host7 l s) in
  fst (abClickListener "7" ".buy" 0 s) = Done (Some l)
  /\ beacons s' = [Beacon (Report "7" "A" (Some "conversion") "42" 1 None)]
  /\ snd (listener_fire Sample.host7 l s') = s'
  /\ fst (abClickListener "7" ".buy" 0 s') = Done None.
Proof.
  intros s.
  apply (click_converts_once Sample.host7 "7" ".buy"
           (Btab "7" (Some "A") 0 (Some []) None) "A" Sample.onpage s);
    try reflexivity; discriminate.
Defined.

(** ** The skipped default *)

Lemma events_emit e s :
  is_event e = false -> events (with_effects (effects s ++ [e]) s) = events s.
Proof. intros He. by destruct (silent_emit e s He) as (_ & _ & ?). Qed.

Lemma show_default_writes h e eid createCookie s :
  let s' := snd (show_default h e eid createCookie s) in
  events s' = events s /\ timer s' = timer s
  /\ (cookies s' = cookies s
      \/ createCookie = true
         /\ exists btv, cookies s' = <["btab_" +:+ eid := skip_record eid btv]> (cookies s)).
Proof.
  unfold show_default, skippedCookie, skip_record.
  destruct (exp_test_type e); run_monad.
  - destruct createCookie; simpl;
      (split; [by apply events_emit |]); (split; [reflexivity |]);
      [right; split; [reflexivity | by eexists] | by left].
  - destruct createCookie; simpl;
      (split; [by apply events_emit |]); (split; [reflexivity |]);
      [right; split; [reflexivity | by eexists] | by left].
  - destruct (String.eqb eid ""); [repeat split; by left |].
    pose proof (show_default_named_silent (select_eid h eid) None s) as (Hc & Ht & He).
    destruct (show_default_named (select_eid h eid) None s) as [[found | ex] s1];
      simpl in *; [| repeat split; auto].
    destruct found as [v |]; simpl; destruct createCookie; simpl;
      (split; [unfold events in *; simpl; rewrite ?filter_app; simpl;
               rewrite ?app_nil_r; exact He |]);
      (split; [exact Ht |]);
      first [ by left | right; split; [reflexivity |]; rewrite Hc; by eexists ].
Qed.

(** X22.  [showSkippedVisitorDefault] only presents: it reports no event and
    arms no timer. Without [createCookie] it leaves the store alone, and
    with it the only thing it may write is the skip record [{eid, variation,
    conversion: 1, skipped: 1}] of that experiment. *)
Theorem showSkippedVisitorDefault_writes_only_skip h eid createCookie s :
  let s' := snd (showSkippedVisitorDefault h eid createCookie s) in
  events s' = events s
  /\ timer s' = timer s
  /\ (createCookie = false -> cookies s' = cookies s)
  /\ (cookies s' = cookies s
      \/ exists btv, cookies s' = <["btab_" +:+ eid := skip_record eid btv]> (cookies s)).
Proof.
  intros s'.
  assert (H : events s' = events s /\ timer s' = timer s
              /\ (cookies s' = cookies s
                  \/ createCookie = true
                     /\ exists btv, cookies s'
                                    = <["btab_" +:+ eid := skip_record eid btv]> (cookies s))).
  { subst s'. unfold showSkippedVisitorDefault.
    destruct (experiment_of h eid) as [e|];
      [| run_monad; split; [by apply events_emit | split; [reflexivity | by left]]].
    destruct (negb (String.eqb (test_winner e) ""));
      [| apply show_default_writes].
    destruct (exp_test_type e).
    - destruct (obj_get (test_winner e) (page_variations e)); run_monad.
      + split; [by apply events_emit | split; [reflexivity | by left]].
      + match goal with |- context [show_default h e eid createCookie ?s0] =>
          pose proof (show_default_writes h e eid createCookie s0) as (H1 & H2 & H3);
          destruct (show_default h e eid createCookie s0) as [o s1] end.
        simpl in *. rewrite events_emit in H1 by done.
        destruct o; simpl; auto.
    - run_monad. split; [by apply events_emit | split; [reflexivity | by left]].
    - apply show_default_writes. }
  destruct H as (He & Ht & Hc). split; [exact He |]. split; [exact Ht |].
  split.
  - intros ->. destruct Hc as [Hc | [Hc _]]; [exact Hc | discriminate].
  - destruct Hc as [Hc | [_ Hc]]; [by left | by right].
Qed.




(** ** The experiments found on the page *)



Lemma obj_set_obj_set {A} k (a b : A) l :
  obj_set k a (obj_set k b l) = obj_set k a l.
Proof.
  induction l as [| [k' a'] l IH]; simpl.
  - by rewrite String.eqb_refl.
  - destruct (String.eqb k' k) eqn:E; simpl.
    + by rewrite String.eqb_refl.
    + by rewrite E, IH.
Qed.





Lemma collect_experiments_grows els ce er k vs :
  obj_get k ce = Some vs ->
  exists vs', obj_get k (fst (collect_experiments els ce er)) = Some (vs ++ vs')%list.
Proof.
  revert ce er vs. induction els as [| me rest IH]; intros ce er vs Hk.
  - exists []. by rewrite app_nil_r.
  - simpl.
    destruct (obj_get (bt_eid me) ce) as [vs0 |] eqn:Eg.
    + rewrite Eg. simpl. destruct (bool_decide _); [by apply IH |].
      destruct (String.eqb_spec (bt_eid me) k) as [Heq | Hne].
      * subst k. rewrite Hk in Eg. injection Eg as <-.
        destruct (IH (obj_set (bt_eid me) (vs ++ [default "" (bt_variation me)])%list ce)
                     (obj_set (bt_eid me)
                        (obj_set (default "" (bt_variation me)) (bt_url me)
                           (default [] (obj_get (bt_eid me) er))) er)
                     (vs ++ [default "" (bt_variation me)])%list
                     (obj_get_obj_set _ _ _)) as [vs' Hvs'].
        exists ([default "" (bt_variation me)] ++ vs')%list.
        by rewrite app_assoc.
      * apply IH. by rewrite obj_get_obj_set_ne.
    + rewrite obj_get_obj_set. simpl. rewrite obj_set_obj_set.
      assert (bt_eid me <> k) as Hne by (intros Heq; rewrite Heq in Eg; congruence).
      apply IH. by rewrite obj_get_obj_set_ne.
Qed.

Lemma collect_experiments_lists els ce er el v :
  el ∈ els -> bt_variation el = Some v ->
  exists vs, obj_get (bt_eid el) (fst (collect_experiments els ce er)) = Some vs
             /\ v ∈ vs.
Proof.
  revert ce er. induction els as [| me rest IH]; intros ce er Hel Hv;
    [by apply elem_of_nil in Hel |].
  apply elem_of_cons in Hel as [-> | Hel].
  2:{ simpl. destruct (obj_get (bt_eid me) ce) as [vs0 |] eqn:Eg.
      - rewrite Eg. simpl. destruct (bool_decide _); by apply IH.
      - rewrite obj_get_obj_set. simpl. by apply IH. }
  simpl. rewrite Hv. simpl.
  destruct (obj_get (bt_eid me) ce) as [vs0 |] eqn:Eg.
  - rewrite Eg. simpl.
    destruct (bool_decide_reflect (v ∈ vs0)) as [Hin | Hin].
    + destruct (collect_experiments_grows rest ce er _ _ Eg) as [vs' ->].
      eexists. split; [reflexivity |]. apply elem_of_app. by left.
    + match goal with |- context [collect_experiments rest ?ce1 ?er1] =>
        destruct (collect_experiments_grows rest ce1 er1 (bt_eid me) (vs0 ++ [v])%list
                    (obj_get_obj_set _ _ _)) as [vs' ->] end.
      eexists. split; [reflexivity |].
      apply elem_of_app. left. apply elem_of_app. right. apply list_elem_of_here.
  - rewrite obj_get_obj_set. simpl. rewrite obj_set_obj_set.
    match goal with |- context [collect_experiments rest ?ce1 ?er1] =>
      destruct (collect_experiments_grows rest ce1 er1 (bt_eid me) [v]
                  (obj_get_obj_set _ _ _)) as [vs' ->] end.
    eexists. split; [reflexivity |]. apply list_elem_of_here.
Qed.

Lemma add_css_tests_keeps exps ce er k :
  (forall e, (k, e) ∈ exps -> exp_test_type e <> css_test) ->
  obj_get k (fst (add_css_tests exps ce er)) = obj_get k ce.
Proof.
  revert ce er. induction exps as [| [k' e] rest IH]; intros ce er Hk; [reflexivity |].
  assert (Hrest : forall e0, (k, e0) ∈ rest -> exp_test_type e0 <> css_test).
  { intros e0 H0. apply Hk. by apply list_elem_of_further. }
  simpl. destruct (bool_decide_reflect (exp_test_type e = css_test)) as [Hcss | Hcss];
    [| by apply IH].
  rewrite IH by exact Hrest. apply obj_get_obj_set_ne.
  intros ->. by apply (Hk e (list_elem_of_here _ _)).
Qed.

(** X27.  The resolver sees every marked variation. For each element whose
    [bt-eid] and [bt-variation] are present and not empty, and whose
    experiment is no css test, [current_exp] lists the element's variation
    under its experiment id. *)
Theorem current_exp_is_complete h el v :
  el ∈ elements h ->
  bt_eid el <> "" ->
  bt_variation el = Some v ->
  v <> "" ->
  (forall e, (bt_eid el, e) ∈ bt_experiments h -> exp_test_type e <> css_test) ->
  exists variations,
    obj_get (bt_eid el) (current_exp h) = Some variations /\ v ∈ variations.
Proof.
  intros Hel Heid Hv Hne Hcss. unfold current_exp, experiment_maps.
  assert (Hin : el ∈ experiments_el h).
  { unfold experiments_el. apply list_elem_of_filter. split; [| exact Hel].
    split; [exact Heid |]. rewrite Hv. by apply truthy_Some. }
  destruct (collect_experiments_lists (experiments_el h) [] [] el v Hin Hv)
    as (vs & Hvs & Hmem).
  destruct (collect_experiments (experiments_el h) [] []) as [ce er].
  simpl in Hvs. exists vs. split; [| exact Hmem].
  by rewrite add_css_tests_keeps.
Qed.

Lemma current_exp_is_complete_witness :
  exists variations,
    obj_get "8" (current_exp Sample.two_tests) = Some variations /\ "B" ∈ variations.
Proof.
  apply (current_exp_is_complete Sample.two_tests (Element "8" (Some "B") None) "B").
  - apply list_elem_of_In. simpl. tauto.
  - discriminate.
  - reflexivity.
  - discriminate.
  - intros e He. apply list_elem_of_In in He. simpl in He.
    destruct He as [[= <-] | [[= <-] | []]]; discriminate.
Defined.

(** ** Time on page, end to end *)

Lemma arm_goal_timers_nothing eid gs s :
  no_time gs -> arm_goal_timers eid gs s = (Done tt, s).
Proof.
  unfold no_time, arm_goal_timers. intros Hg. revert s.
  induction Hg as [| [k g] gs Hk _ IH]; intros s; [reflexivity |].
  rewrite (for_each_done _ _ _ s s); [apply IH |]. simpl in *.
  destruct (goal_time_of g) as [t |]; [| reflexivity].
  destruct (0 <? t)%Z eqn:E; [apply Z.ltb_lt in E; lia | reflexivity].
Qed.

(** A visit of an experiment that converts by time, reported in place. *)
Lemma bt_experiment_w_visit_by_time h eid v url e s :
  eid <> "" -> v <> "" -> v <> "_bt_skip_" ->
  is_preview (vars h) = false ->
  truthy url = false ->
  experiment_of h eid = Some e ->
  conversion_page e = "time" ->
  no_time_goal e ->
  exists s1,
    bt_experiment_w h (Some eid) (Some v) (Some "visit") url 1 s = (Done true, s1)
    /\ timer s1 = obj_set eid (conversion_time e) (timer s)
    /\ cookies s1
       = <["btab_" +:+ eid := Assignment (Btab eid (Some v) 0 (Some []) None)]> (cookies s)
    /\ effects s1
       = (effects s
          ++ [TrackEvent (Report eid v (Some "visit") (post_id (vars h)) 1 None);
              ShowPage;
              Beacon (Report eid v (Some "visit") (post_id (vars h)) 1 None)])%list
    /\ abactive s1 = abactive s
    /\ ab_uuid s1 = ab_uuid s.
Proof.
  intros Hne Hv Hskip Hp Hurl He Hct Hg. unfold bt_experiment_w.
  rewrite guard_passes by assumption. simpl. rewrite Hurl. simpl.
  run_monad. rewrite He. simpl. rewrite Hct. simpl.
  rewrite (arm_goal_timers_nothing eid (goals e) _ Hg). simpl.
  eexists. split; [reflexivity |]. simpl.
  repeat split. rewrite <- !app_assoc. reflexivity.
Qed.

(** X25.  Conversion by time on page, end to end. A visit of an experiment
    that converts by time (with no time goals) is reported in place and arms
    the timer; while the visitor stays active each tick counts one second.
    Before [conversion_time] ticks only the visit has been reported and the
    record is open; from the tick that completes [conversion_time] on,
    exactly one conversion has been reported besides and the record reads
    [conversion = 1], however many ticks follow. *)
Theorem time_on_page_converts h eid v url e scrolls s :
  eid <> "" -> v <> "" -> v <> "_bt_skip_" ->
  is_preview (vars h) = false ->
  truthy url = false ->
  experiment_of h eid = Some e ->
  conversion_page e = "time" ->
  no_time_goal e ->
  JsString.includes "goal-" eid = false ->
  (1 <= conversion_time e)%Z ->
  timer s = [] ->
  abactive s = true ->
  let s1 := snd (bt_experiment_w h (Some eid) (Some v) (Some "visit") url 1 s) in
  let s2 := ticks h scrolls s1 in
  let n := Z.of_nat (length scrolls) in
  let report type := Beacon (Report eid v (Some type) (post_id (vars h)) 1 None) in
  ((n < conversion_time e)%Z ->
   beacons s2 = (beacons s ++ [report "visit"])%list
   /\ cookies s2 !! ("btab_" +:+ eid)
      = Some (Assignment (Btab eid (Some v) 0 (Some []) None)))
  /\ ((conversion_time e <= n)%Z ->
      beacons s2 = (beacons s ++ [report "visit"; report "conversion"])%list
      /\ cookies s2 !! ("btab_" +:+ eid)
         = Some (Assignment (Btab eid (Some v) 1 (Some []) None))).
Proof.
  intros Hne Hv Hskip Hp Hurl He Hct Hg Hinc Htime Ht Ha s1 s2 n report.
  destruct (bt_experiment_w_visit_by_time h eid v url e s Hne Hv Hskip Hp Hurl He Hct Hg)
    as (s1' & Hrun & Htm & Hck & Hef & Hact & Hu).
  assert (s1 = s1') as Hs1 by (subst s1; by rewrite Hrun).
  rewrite <- Hs1 in Htm, Hck, Hef, Hact, Hu. clear Hs1 Hrun s1'.
  rewrite Ht in Htm. simpl in Htm.
  assert (Hq : quiet_goal eid).
  { intros Hi. rewrite Hi in Hinc. discriminate. }
  destruct (ticks_single h eid Hq scrolls s1 (conversion_time e) Htm
              ltac:(congruence) ltac:(lia)) as (_ & _ & Hbefore & Hafter).
  fold s2 n in Hbefore, Hafter.
  assert (Hb1 : beacons s1 = (beacons s ++ [report "visit"])%list).
  { unfold beacons. rewrite Hef, filter_app. reflexivity. }
  split.
  - intros Hlt. assert (Hd : data s2 = data s1) by (apply Hbefore; by left).
    unfold data in Hd. injection Hd as Hc2 He2 _ _ _.
    split.
    + unfold beacons in *. by rewrite He2.
    + rewrite Hc2, Hck. apply lookup_insert_eq.
  - intros Hge. destruct Hafter as (sf & _ & Hsf & Hd); [lia |].
    destruct (timer_fire_key h eid "") as [Hfire _].
    rewrite (Hfire Hinc) in Hd.
    unfold data in Hsf. injection Hsf as Hcf Hef' Huf _ _.
    destruct (abstConvert_open h eid (Btab eid (Some v) 0 (Some []) None) v e 1 sf)
      as (s3 & Hrun3 & Hck3 & Hef3); try assumption; try reflexivity.
    { rewrite Hcf, Hck. apply lookup_insert_eq. }
    { intros Hf. rewrite Hct in Hf. discriminate. }
    rewrite Hrun3 in Hd. simpl in Hd.
    unfold data in Hd. injection Hd as Hc2 He2 _ _ _.
    split.
    + unfold beacons in *. rewrite He2, Hef3, Hef', filter_app, Hb1.
      rewrite Hct. simpl. rewrite <- app_assoc. reflexivity.
    + rewrite Hc2, Hck3. apply lookup_insert_eq.
Qed.

Lemma time_on_page_converts_witness :
  let s1 := snd (bt_experiment_w Sample.host_timed (Some "7") (Some "A") (Some "visit")
                   None 1 Sample.empty) in
  let report type := Beacon (Report "7" "A" (Some type) "42" 1 None) in
  beacons (ticks Sample.host_timed [0; 10; 10; 25]%Z s1) = [report "visit"]
  /\ beacons (ticks Sample.host_timed [0; 10; 10; 25; 25; 30; 31]%Z s1)
     = [report "visit"; report "conversion"].
Proof.
  intros s1 report. split.
  - destruct (time_on_page_converts Sample.host_timed "7" "A" None Sample.timed
                [0; 10; 10; 25]%Z Sample.empty) as [H _];
      [ discriminate | discriminate | discriminate | reflexivity | reflexivity
      | reflexivity | reflexivity | constructor | reflexivity | simpl; lia
      | reflexivity | reflexivity | ].
    apply H. simpl. lia.
  - destruct (time_on_page_converts Sample.host_timed "7" "A" None Sample.timed
                [0; 10; 10; 25; 25; 30; 31]%Z Sample.empty) as [_ H];
      [ discriminate | discriminate | discriminate | reflexivity | reflexivity
      | reflexivity | reflexivity | constructor | reflexivity | simpl; lia
      | reflexivity | reflexivity | ].
    apply H. simpl. lia.
Defined.

(** ** Preview mode *)

Lemma presents_refl s : presents s s.
Proof. split; [reflexivity |]. exists []. by rewrite app_nil_r. Qed.

Lemma presents_trans s1 s2 s3 : presents s1 s2 -> presents s2 s3 -> presents s1 s3.
Proof.
  intros (Ht1 & l1 & He1 & Hl1) (Ht2 & l2 & He2 & Hl2).
  split; [congruence |]. exists (l1 ++ l2)%list.
  split; [by rewrite He2, He1, app_assoc | by apply Forall_app].
Qed.

Lemma presents_emit e s :
  presentational e = true -> presents s (with_effects (effects s ++ [e]) s).
Proof. intros He. split; [reflexivity |]. exists [e]. split; [reflexivity | by constructor]. Qed.

Lemma presents_same s s' :
  timer s' = timer s -> effects s' = effects s -> presents s s'.
Proof.
  intros Ht He. split; [exact Ht |]. exists []. by rewrite app_nil_r.
Qed.

Ltac solve_presents :=
  first
    [ apply presents_same; reflexivity
    | split; [reflexivity |]; eexists;
      (split; [simpl; rewrite <- ?app_assoc; reflexivity | by repeat constructor]) ].

Lemma presents_events s s' : presents s s' -> events s' = events s.
Proof.
  intros (_ & l & He & Hl). unfold events. rewrite He, filter_app.
  assert (filter is_event l = []) as ->; [| by rewrite app_nil_r].
  clear He. induction Hl as [| e l Hx _ IH]; [reflexivity |].
  rewrite filter_cons, IH. destruct e; try discriminate; reflexivity.
Qed.

Lemma presents_stays s s' url :
  presents s s' -> LocationReplace url ∈ effects s' -> LocationReplace url ∈ effects s.
Proof.
  intros (_ & l & He & Hl) Hin. rewrite He in Hin.
  apply elem_of_app in Hin as [Hin | Hin]; [exact Hin |].
  rewrite Forall_forall in Hl. apply Hl in Hin. discriminate.
Qed.

Lemma show_default_named_presents l btv s :
  presents s (snd (show_default_named l btv s)).
Proof.
  revert btv s. induction l as [| e l IH]; intros btv s; simpl.
  - apply presents_refl.
  - destruct (bt_variation e) as [v|]; [| apply presents_refl].
    destruct (bool_decide _).
    + run_monad. eapply presents_trans; [| apply IH]. by apply presents_emit.
    + apply IH.
Qed.

Lemma show_default_presents h e eid createCookie s :
  presents s (snd (show_default h e eid createCookie s)).
Proof.
  unfold show_default, skippedCookie. destruct (exp_test_type e); run_monad.
  - destruct createCookie; by apply (presents_emit ShowPage).
  - destruct createCookie; by apply (presents_emit (BodyAddClass _)).
  - destruct (String.eqb eid ""); [apply presents_refl |].
    pose proof (show_default_named_presents (select_eid h eid) None s) as Hs.
    destruct (show_default_named (select_eid h eid) None s) as [[found | ex] s1];
      simpl in *; [| exact Hs].
    destruct found; simpl; destruct createCookie; simpl; try exact Hs;
      eapply presents_trans; try exact Hs; by apply (presents_emit (ShowVariation _ _)).
Qed.

(** Where the resolver calls it, for an experiment that is unknown or has
    no winner, the skipped default only presents. *)
Lemma showSkippedVisitorDefault_presents h eid createCookie s :
  match experiment_of h eid with
  | Some e => test_winner e = ""
  | None => True
  end ->
  presents s (snd (showSkippedVisitorDefault h eid createCookie s)).
Proof.
  intros Hw. unfold showSkippedVisitorDefault.
  destruct (experiment_of h eid) as [e|];
    [| by apply (presents_emit (ShowVariation _ _))].
  rewrite Hw. simpl. apply show_default_presents.
Qed.

Lemma resolve_presents_in_preview h er entry s :
  is_preview (vars h) = true ->
  presents s (snd (resolve h er entry s)).
Proof.
  intros Hp. destruct entry as [experimentId variations]. unfold resolve.
  destruct (experiment_of h experimentId) as [e|] eqn:He;
    [| apply showSkippedVisitorDefault_presents; by rewrite He].
  destruct (String.eqb_spec (test_winner e) "") as [Hw | Hw]; simpl;
    [| apply presents_refl].
  assert (Hskip : forall createCookie s0 s1,
            presents s s0 ->
            s1 = snd (showSkippedVisitorDefault h experimentId createCookie s0) ->
            presents s s1).
  { intros cc s0 s1 H0 ->. eapply presents_trans; [exact H0 |].
    apply showSkippedVisitorDefault_presents. by rewrite He. }
  assert (Hbt : forall a b c d o s0,
            bt_experiment_w h a b c d o s0 = (Done true, s0)).
  { intros. unfold bt_experiment_w. rewrite Hp. by rewrite orb_true_r. }
  destruct (consent_withheld h) as [withheld | ex]; run_monad;
    [| apply presents_refl].
  destruct withheld; [eapply Hskip; [apply presents_refl | reflexivity] |].
  destruct (negb (is_current_user_track e));
    [eapply Hskip; [apply presents_refl | reflexivity] |].
  destruct (negb (String.eqb (test_status e) "publish"));
    [eapply Hskip; [apply presents_refl | reflexivity] |].
  rewrite Hp. simpl.
  destruct (present (cookies s !! ("btab_" +:+ experimentId))) as [c|].
  - unfold try_catch, body_addClass.
    destruct c as [raw | bt | v |]; run_monad;
      repeat match goal with
             | |- context [?x && false] => rewrite (andb_false_r x); simpl
             | |- context [if ?b then _ else _] => destruct b; simpl
             end;
      solve_presents.
  - unfold getRandomInt, body_addClass. run_monad.
    repeat match goal with
           | |- context [Math_random h ?n] => destruct (Math_random h n); simpl
           | |- context [if ?b then _ else _] => destruct b; simpl
           end;
    rewrite ?Hbt; simpl;
    first [ solve_presents | eapply Hskip; [| reflexivity]; solve_presents ].
Qed.

(** X26.  In preview mode the resolver only presents: over all the
    experiments of the page it reports no event, arms no timer and never
    sends the browser to another URL, whatever the store holds and whether
    it returns or throws. *)
Theorem preview_resolver_is_passive h s :
  is_preview (vars h) = true ->
  let s' := snd (resolve_all h s) in
  events s' = events s
  /\ timer s' = timer s
  /\ (forall url, LocationReplace url ∈ effects s' -> LocationReplace url ∈ effects s).
Proof.
  intros Hp s'.
  assert (H : presents s s').
  { subst s'. unfold resolve_all. generalize (exp_redirect h). intros er.
    revert s. induction (current_exp h) as [| entry l IH]; intros s;
      [apply presents_refl |].
    pose proof (resolve_presents_in_preview h er entry s Hp) as H1.
    destruct (resolve h er entry s) as [[[] | ex] s1] eqn:E; simpl in H1.
    - rewrite (for_each_done _ _ _ _ _ E). eapply presents_trans; [exact H1 | apply IH].
    - rewrite (for_each_throw _ _ _ _ _ _ E). exact H1. }
  split; [by apply presents_events |]. split; [apply H |].
  intros url. by apply presents_stays.
Qed.

Lemma preview_resolver_is_passive_witness :
  let h := Host [("7", Sample.onpage); ("9", Sample.fullpage)]
             (BtabVars true false "42")
             [Element "7" (Some "A") None; Element "7" (Some "B") None]
             "" "" 1024 None (fun _ => (1, 2)%Z) (fun _ => None) in
  let s' := snd (resolve_all h Sample.empty) in
  events s' = [] /\ timer s' = []
  /\ (forall url, LocationReplace url ∈ effects s' ->
        LocationReplace url ∈ effects Sample.empty).
Proof.
  intros h. apply (preview_resolver_is_passive h Sample.empty). reflexivity.
Defined.

(** ** A time goal, end to end *)

Lemma for_each_app {A} (f : A -> M unit) l1 l2 s s1 :
  for_each f l1 s = (Done tt, s1) ->
  for_each f (l1 ++ l2) s = for_each f l2 s1.
Proof.
  revert s. induction l1 as [| a l1 IH]; intros s H; simpl in *.
  - by injection H as ->.
  - unfold mbind, M_bind in *. destruct (f a s) as [[[] | ex] s0]; [| discriminate].
    by apply IH.
Qed.

(** X28.  A time goal, end to end. A visit of an experiment with exactly one
    time goal with a positive time (and a conversion that is not by time) is
    reported in place and arms the goal's timer. While the visitor stays
    active, before that many ticks only the visit has been reported; from
    the tick that completes the time on, the goal has been reported exactly
    once besides, its slot in the record reads 1 and [conversion] is still
    0. *)
Theorem time_goal_completes h eid v url e before key t after n scrolls s :
  eid <> "" -> v <> "" -> v <> "_bt_skip_" ->
  is_preview (vars h) = false ->
  truthy url = false ->
  experiment_of h eid = Some e ->
  conversion_page e <> "time" ->
  conversion_page e <> "fingerprint" ->
  goals e = (before ++ (key, goal_time t) :: after)%list ->
  no_time (before ++ after) ->
  (1 <= t)%Z ->
  no_dash eid -> no_dash key ->
  JsString.array_index key = Some n ->
  timer s = [] ->
  abactive s = true ->
  let s1 := snd (bt_experiment_w h (Some eid) (Some v) (Some "visit") url 1 s) in
  let s2 := ticks h scrolls s1 in
  let m := Z.of_nat (length scrolls) in
  let report type := Beacon (Report eid v (Some type) (post_id (vars h)) 1 None) in
  ((m < t)%Z ->
   beacons s2 = (beacons s ++ [report "visit"])%list
   /\ cookies s2 !! ("btab_" +:+ eid)
      = Some (Assignment (Btab eid (Some v) 0 (Some []) None)))
  /\ ((t <= m)%Z ->
      beacons s2 = (beacons s ++ [report "visit"; report key])%list
      /\ cookies s2 !! ("btab_" +:+ eid)
         = Some (Assignment (Btab eid (Some v) 0 (Some (array_set [] n 1%Z)) None))).
Proof.
  intros Hne Hv Hskip Hp Hurl He Hct Hfp Hgoals Hothers Ht Hde Hdk Hidx Htm Ha
    s1 s2 m report.
  apply Forall_app in Hothers as [Hbefore Hafter]. fold (no_time before) in Hbefore.
  fold (no_time after) in Hafter.
  set (index := goal_timer_key eid key).
  assert (Hvisit : key <> "visit").
  { intros ->. vm_compute in Hidx. discriminate. }
  (* the visit *)
  assert (Hs1 : timer s1 = [(index, t)]
                /\ cookies s1
                   = <["btab_" +:+ eid
                        := Assignment (Btab eid (Some v) 0 (Some []) None)]> (cookies s)
                /\ effects s1
                   = (effects s
                      ++ [TrackEvent (Report eid v (Some "visit") (post_id (vars h)) 1 None);
                          ShowPage; report "visit"])%list
                /\ abactive s1 = true /\ ab_uuid s1 = ab_uuid s).
  { subst s1. unfold bt_experiment_w.
    rewrite guard_passes by assumption. simpl. rewrite Hurl. simpl.
    run_monad. rewrite He. simpl.
    apply String.eqb_neq in Hct, Hfp. rewrite Hct, Hfp. simpl.
    unfold arm_goal_timers. rewrite Hgoals.
    match goal with |- context [for_each ?f _ ?s0] =>
      rewrite (for_each_app f before _ s0 s0)
        by (apply (arm_goal_timers_nothing eid before s0 Hbefore));
      rewrite (for_each_done f _ after s0
                 (with_timer (obj_set index t (timer s0)) s0))
        by (simpl; assert ((0 <? t)%Z = true) as -> by (apply Z.ltb_lt; lia);
            reflexivity)
    end.
    match goal with |- context [for_each ?f after ?s0] =>
      change (for_each f after s0) with (arm_goal_timers eid after s0);
      rewrite (arm_goal_timers_nothing eid after s0 Hafter)
    end.
    simpl. rewrite Htm. simpl. repeat split; try assumption.
    rewrite <- !app_assoc. reflexivity. }
  destruct Hs1 as (Htimer & Hck & Hef & Hact & Hu).
  assert (Hfire : timer_fire h index = abstGoal h eid key).
  { destruct (timer_fire_key h eid key) as [_ H]. by apply H. }
  assert (Hq : quiet_goal index).
  { intros _. unfold fired_goal, index, goal_timer_key.
    change ("goal-" +:+ eid +:+ "-" +:+ key)
      with ("goal" +:+ String "-" (eid +:+ String "-" key)).
    rewrite (split_no_dash "goal") by reflexivity.
    rewrite (split_no_dash eid) by assumption.
    rewrite (split_no_dash_single key) by assumption.
    exact Hvisit. }
  destruct (ticks_single h index Hq scrolls s1 t Htimer Hact ltac:(lia))
    as (_ & _ & Hbef & Haft).
  fold s2 m in Hbef, Haft.
  assert (Hb1 : beacons s1 = (beacons s ++ [report "visit"])%list).
  { unfold beacons. rewrite Hef, filter_app. reflexivity. }
  split.
  - intros Hlt. assert (Hd : data s2 = data s1) by (apply Hbef; by left).
    unfold data in Hd. injection Hd as Hc2 He2 _ _ _.
    split.
    + unfold beacons in *. by rewrite He2.
    + rewrite Hc2, Hck. apply lookup_insert_eq.
  - intros Hge. destruct Haft as (sf & _ & Hsf & Hd); [lia |].
    rewrite Hfire in Hd.
    unfold data in Hsf. injection Hsf as Hcf Hef' Huf _ _.
    destruct (abstGoal_open h eid key n (Btab eid (Some v) 0 (Some []) None) [] v e sf)
      as (s3 & Hrun3 & Hck3 & Hef3); try assumption; try reflexivity.
    { rewrite Hcf, Hck. apply lookup_insert_eq. }
    { unfold array_get. rewrite lookup_nil. discriminate. }
    { intros Hf. by destruct Hfp. }
    rewrite Hrun3 in Hd. simpl in Hd.
    unfold data in Hd. injection Hd as Hc2 He2 _ _ _.
    split.
    + unfold beacons in *. rewrite He2, Hef3, Hef', filter_app, Hb1.
      assert (String.eqb (conversion_page e) "fingerprint" = false) as ->
        by (by apply String.eqb_neq).
      simpl. rewrite <- app_assoc. reflexivity.
    + rewrite Hc2, Hck3. apply lookup_insert_eq.
Qed.

Lemma time_goal_completes_witness :
  let e := Experiment "Stay" "" on_page "" [] 0 "selector" 0
             [("0", goal_selector ".buy"); ("1", goal_time 3)]
             true "publish" (pct_number 100) "" "all" in
  let h := Sample.page [("7", e)] (fun _ => (0, 1)%Z) in
  let s1 := snd (bt_experiment_w h (Some "7") (Some "A") (Some "visit") None 1
                   Sample.empty) in
  let report type := Beacon (Report "7" "A" (Some type) "42" 1 None) in
  beacons (ticks h [0; 10]%Z s1) = [report "visit"]
  /\ beacons (ticks h [0; 10; 10; 25; 25]%Z s1) = [report "visit"; report "1"]
  /\ cookies (ticks h [0; 10; 10; 25; 25]%Z s1) !! "btab_7"
     = Some (Assignment (Btab "7" (Some "A") 0 (Some [None; Some 1%Z]) None)).
Proof.
  intros e h s1 report.
  assert (H : forall scrolls,
            let s2 := ticks h scrolls s1 in
            let m := Z.of_nat (length scrolls) in
            ((m < 3)%Z ->
             beacons s2 = [report "visit"]
             /\ cookies s2 !! "btab_7"
                = Some (Assignment (Btab "7" (Some "A") 0 (Some []) None)))
            /\ ((3 <= m)%Z ->
                beacons s2 = [report "visit"; report "1"]
                /\ cookies s2 !! "btab_7"
                   = Some (Assignment (Btab "7" (Some "A") 0
                                         (Some (array_set [] 1 1%Z)) None)))).
  { intros scrolls.
    apply (time_goal_completes h "7" "A" None e [("0", goal_selector ".buy")] "1" 3 []
             1 scrolls Sample.empty);
      try reflexivity; try discriminate; try lia.
    repeat constructor. }
  split; [| split].
  - apply (H [0; 10]%Z). simpl. lia.
  - apply (H [0; 10; 10; 25; 25]%Z). simpl. lia.
  - apply (H [0; 10; 10; 25; 25]%Z). simpl. lia.
Defined.
